(** * Word document server: the S3 working-copy layer

    A shallow embedding of
      - [word_document_server/utils/s3_utils.py]   (locator parsing, download, upload,
        [s3_file_handler]),
      - [word_document_server/utils/file_utils.py] (extension rule, [S3FileContext],
        the helpers for copies and temporary files),
      - [word_document_server/tools/document_tools.py] ([merge_documents] and the
        tools that create, read and copy a document),
    together with the properties of the design document that concern them.

    Python strings are [string]; the integer indices returned by [str.rfind]
    are [Z] (with [-1] for "not found"); the local file system and the remote
    object store are finite maps; exceptions and the mutation of the file
    system and of the store are threaded through a state-and-exception
    monad. *)

From stdpp Require Import gmap strings list pretty.
From Stdlib Require Import Ascii ZArith Lia.

Local Open Scope string_scope.
Local Open Scope Z_scope.

(** ** Python built-ins on [str] *)

Module Py.

(** [bool(s)] for a string. *)
Definition truthy (s : string) : bool := negb (String.eqb s "").

(** [s.startswith(prefix)] *)
Definition startswith (s prefix : string) : bool := String.prefix prefix s.

(** [s.endswith(suffix)]: the reversed suffix starts the reversed string. *)
Definition endswith (s suffix : string) : bool :=
  String.prefix (String.rev suffix) (String.rev s).

(** [c in s] for a one-character [c]. *)
Fixpoint contains (c : ascii) (s : string) : bool :=
  match s with
  | "" => false
  | String a s' => Ascii.eqb a c || contains c s'
  end.

(** [c.isascii()] and [s.isascii()] *)
Definition ascii_char (c : ascii) : bool :=
  match c with Ascii _ _ _ _ _ _ _ b7 => negb b7 end.

(** [all(P(c) for c in s)] *)
Fixpoint all_chars (P : ascii -> bool) (s : string) : bool :=
  match s with
  | "" => true
  | String a s' => P a && all_chars P s'
  end.

Definition isascii (s : string) : bool := all_chars ascii_char s.

(** [s.rfind(c)] for a one-character [c]: the scan keeps the index of the
    last occurrence seen so far, [-1] when there is none. *)
Fixpoint rfind_from (c : ascii) (s : string) (i last : Z) : Z :=
  match s with
  | "" => last
  | String a s' => rfind_from c s' (i + 1) (if Ascii.eqb a c then i else last)
  end.
Definition rfind (s : string) (c : ascii) : Z := rfind_from c s 0 (-1).

Fixpoint take (n : nat) (s : string) : string :=
  match n, s with
  | S n', String a s' => String a (take n' s')
  | _, _ => ""
  end.
Fixpoint drop (n : nat) (s : string) : string :=
  match n, s with
  | S n', String _ s' => drop n' s'
  | _, _ => s
  end.

(** [s[:i]] and [s[i:]] for an index [0 <= i] (the only use the code has). *)
Definition slice_to (s : string) (i : Z) : string := take (Z.to_nat i) s.
Definition slice_from (s : string) (i : Z) : string := drop (Z.to_nat i) s.

(** [s.lstrip(c)] *)
Fixpoint lstrip (c : ascii) (s : string) : string :=
  match s with
  | String a s' => if Ascii.eqb a c then lstrip c s' else s
  | "" => ""
  end.

(** [s.rstrip(c)] *)
Definition rstrip (c : ascii) (s : string) : string :=
  String.rev (lstrip c (String.rev s)).

(** [s.replace(c, "")] *)
Fixpoint remove (c : ascii) (s : string) : string :=
  match s with
  | "" => ""
  | String a s' => if Ascii.eqb a c then remove c s' else String a (remove c s')
  end.

(** The text before the first character satisfying [delim], and the rest
    starting at that character: [(s[:d], s[d:])] for the least such index
    [d], or [(s, "")] when there is none. *)
Fixpoint break (delim : ascii -> bool) (s : string) : string * string :=
  match s with
  | "" => ("", "")
  | String a s' =>
      if delim a then ("", s)
      else let '(l, r) := break delim s' in (String a l, r)
  end.

(** [s.split(c, 1)[0]] *)
Definition before (c : ascii) (s : string) : string :=
  fst (break (Ascii.eqb c) s).

(** [s[len(prefix):]] when [s] starts with [prefix]. *)
Fixpoint strip_prefix (prefix s : string) : option string :=
  match prefix, s with
  | "", _ => Some s
  | String a p', String b s' => if Ascii.eqb a b then strip_prefix p' s' else None
  | _, "" => None
  end.

(** [str(n)] for an [int]. *)
Definition str_int (n : Z) : string := pretty n.

End Py.

(** ** [os.path] (posixpath) *)

Module OsPath.

(** The loop of [genericpath._splitext] that skips the leading dots of the
    file name: [true] when some character at an index in
    [filenameIndex, dotIndex) is not a dot. *)
Fixpoint has_non_dot (s : string) (n : nat) : bool :=
  match n, s with
  | S n', String a s' => negb (Ascii.eqb a ".") || has_non_dot s' n'
  | _, _ => false
  end.

(** [os.path.splitext(p)] *)
Definition splitext (p : string) : string * string :=
  let sepIndex := Py.rfind p "/" in
  let dotIndex := Py.rfind p "." in
  if (sepIndex <? dotIndex)
     && has_non_dot (Py.slice_from p (sepIndex + 1))
                    (Z.to_nat (dotIndex - (sepIndex + 1)))
  then (Py.slice_to p dotIndex, Py.slice_from p dotIndex)
  else (p, "").

(** [os.path.basename(p)] *)
Definition basename (p : string) : string :=
  Py.slice_from p (Py.rfind p "/" + 1).

(** [os.path.dirname(p)] *)
Definition dirname (p : string) : string :=
  let head := Py.slice_to p (Py.rfind p "/" + 1) in
  if Py.truthy head && Py.truthy (Py.lstrip "/" head)
  then Py.rstrip "/" head else head.

End OsPath.

(** ** The document object model of [python-docx], as far as the merge uses it *)

Record Run := {
  run_text : string;
  run_page_break : bool;            (* a [<w:br w:type="page"/>] in the run *)
  bold : option bool;
  italic : option bool;
  underline : option bool;
  font_size : option Z;
}.

Record Paragraph := {
  style_name : string;
  runs : list Run;
}.

Record Table := {
  table_style : option string;
  cells : list (list string);
}.

Inductive Block :=
| BParagraph (p : Paragraph)
| BTable (t : Table).

(** A document is the ordered sequence of its body elements. *)
Record Docx := { body : list Block }.

Module Docx_.

(** [Document()] : the default template has an empty body. *)
Definition Document_new : Docx := {| body := [] |}.

(** [doc.paragraphs] *)
Definition paragraphs (d : Docx) : list Paragraph :=
  omap (fun b => match b with BParagraph p => Some p | BTable _ => None end) (body d).

(** [doc.tables] *)
Definition tables (d : Docx) : list Table :=
  omap (fun b => match b with BTable t => Some t | BParagraph _ => None end) (body d).

(** [paragraph.text] : the text of the runs; a page break contributes none
    (before version 1.0 of the library it contributes a line feed, which
    only changes the text of the copy). *)
Definition text (p : Paragraph) : string :=
  foldr (fun r acc => run_text r +:+ acc) "" (runs p).

Definition plain_run (t : string) : Run :=
  {| run_text := t; run_page_break := false;
     bold := None; italic := None; underline := None; font_size := None |}.

(** [doc.add_paragraph(text)] : the new paragraph has one run holding the
    text, or no run when the text is empty; it is appended to the body. *)
Definition new_paragraph (t : string) : Paragraph :=
  {| style_name := "Normal"; runs := if Py.truthy t then [plain_run t] else [] |}.

(** [doc.add_page_break()] : appends a paragraph whose only run holds a
    page break. *)
Definition page_break_paragraph : Paragraph :=
  {| style_name := "Normal";
     runs := [ {| run_text := ""; run_page_break := true;
                  bold := None; italic := None; underline := None;
                  font_size := None |} ] |}.
Definition add_page_break (d : Docx) : Docx :=
  {| body := (body d ++ [BParagraph page_break_paragraph])%list |}.

Definition is_page_break (b : Block) : bool :=
  match b with
  | BParagraph p => existsb run_page_break (runs p)
  | BTable _ => false
  end.

(** The number of body elements that hold a page break. *)
Definition count_page_breaks (d : Docx) : nat :=
  length (filter (fun b => is_page_break b = true) (body d)).

End Docx_.

(** ** Exceptions, the environment and the state *)

Inductive exn :=
| ValueError (msg : string)
| IOError (msg : string)
| FileExistsError (msg : string)
| NoCredentialsError
| ClientError (code : option string) (msg : string)
| OtherException (msg : string).

(** [str(e)] *)
Definition str_exn (e : exn) : string :=
  match e with
  | ValueError m | IOError m | FileExistsError m | ClientError _ m
  | OtherException m => m
  | NoCredentialsError => "Unable to locate credentials"
  end.

Inductive FileData :=
| EmptyFile                     (* as left by [mkstemp] *)
| DocxFile (d : Docx)
| RawFile (bytes : string).

Record S3Object := { content : FileData; content_type : string }.

(** The calls made to the two functions of the remote-store client, each
    with its result; an upload also records the request handed to
    [s3.upload_file] (bucket, key, content type) when it got that far. *)
Inductive ClientCall :=
| Download (s3_uri : string) (result : bool * string * option string)
| Upload (local_path s3_uri : string) (sent : option (string * string * string))
         (result : bool * string).

Definition is_upload (c : ClientCall) : bool :=
  match c with Upload _ _ _ _ => true | Download _ _ => false end.

(** What the program does not control: the clock, the faults of the
    transport, the permissions of the local disk, and the checks of
    [urllib.parse] that depend on its version or on Unicode tables (the
    host between square brackets, the netloc under NFKC normalisation). *)
Record Env := {
  time_now : Z;                                   (* [int(time.time())] *)
  get_fault : string -> string -> option exn;     (* [s3.download_file] raising, by bucket and key *)
  put_fault : string -> string -> option exn;     (* [s3.upload_file] raising, by bucket and key *)
  dir_exists : string -> bool;                    (* [os.path.exists] on a directory *)
  access_w : string -> bool;                      (* [os.access(path, os.W_OK)] *)
  append_fault : string -> option exn;            (* [open(path, 'a')] raising *)
  netloc_fault : string -> option string;         (* [urllib.parse]: the [ValueError] for a bracketed or non-ASCII netloc, if any *)
  template_styles : list string;                  (* style names of the default template of [Document()] *)
}.

Record State := {
  fs : gmap string FileData;                       (* regular files of the local disk *)
  store : gmap (string * string) S3Object;         (* objects of the store, by bucket and key *)
  tmp_next : nat;                                  (* name supply of [tempfile] *)
  calls : list ClientCall;                         (* history, oldest first *)
}.

Definition set_fs (f : gmap string FileData -> gmap string FileData) (st : State) : State :=
  {| fs := f (fs st); store := store st; tmp_next := tmp_next st; calls := calls st |}.
Definition set_store (f : gmap (string * string) S3Object -> gmap (string * string) S3Object)
    (st : State) : State :=
  {| fs := fs st; store := f (store st); tmp_next := tmp_next st; calls := calls st |}.
Definition set_tmp_next (n : nat) (st : State) : State :=
  {| fs := fs st; store := store st; tmp_next := n; calls := calls st |}.
Definition record_call (c : ClientCall) (st : State) : State :=
  {| fs := fs st; store := store st; tmp_next := tmp_next st; calls := (calls st ++ [c])%list |}.

(** ** The state-and-exception monad *)

Inductive Outcome (A : Type) :=
| Ok (a : A)
| Raise (e : exn).
Arguments Ok {A} a.
Arguments Raise {A} e.

Definition M (A : Type) : Type := State -> Outcome A * State.

Definition ret {A} (a : A) : M A := fun st => (Ok a, st).
Definition raise {A} (e : exn) : M A := fun st => (Raise e, st).
Definition bind {A B} (m : M A) (k : A -> M B) : M B :=
  fun st => match m st with
            | (Ok a, st') => k a st'
            | (Raise e, st') => (Raise e, st')
            end.
Definition get_state : M State := fun st => (Ok st, st).
Definition modify (f : State -> State) : M unit := fun st => (Ok tt, f st).

(** [try: m except Exception as e: h e] *)
Definition try_except {A} (m : M A) (h : exn -> M A) : M A :=
  fun st => match m st with
            | (Ok a, st') => (Ok a, st')
            | (Raise e, st') => h e st'
            end.

(** [try: m finally: fin] : [fin] runs on every exit of [m]; an exception of
    [fin] replaces the outcome of [m]. *)
Definition try_finally {A} (m : M A) (fin : M unit) : M A :=
  fun st => match m st with
            | (r, st') => match fin st' with
                          | (Ok _, st'') => (r, st'')
                          | (Raise e, st'') => (Raise e, st'')
                          end
            end.

Notation "'let*' x ':=' m 'in' k" := (bind m (fun x => k))
  (at level 10, x name, m at level 100, k at level 200, only parsing).
Notation "'let*' ' p ':=' m 'in' k" := (bind m (fun x => match x with p => k end))
  (at level 10, p pattern, m at level 100, k at level 200, only parsing).

(** ** The local disk *)

Module Os.

(** [os.path.exists(p)] on a file path. *)
Definition path_exists (st : State) (p : string) : bool :=
  bool_decide (is_Some (fs st !! p)).

(** [try: os.unlink(p) except: pass]; the deletion itself is taken to
    succeed. *)
Definition unlink_quietly (p : string) : M unit :=
  modify (set_fs (delete p)).

(** [shutil.copy2(src, dst)] *)
Definition copy2 (src dst : string) : M unit :=
  fun st => match fs st !! src with
            | Some d => (Ok tt, set_fs <[dst := d]> st)
            | None => (Raise (IOError ("No such file or directory: " +:+ src)), st)
            end.

(** [tempfile.mkstemp(suffix)] followed by [os.close(fd)]: candidate names
    are tried in turn until one does not exist, at most [TMP_MAX] times
    ([tempfile.TMP_MAX] is [os.TMP_MAX], 238328 on Linux); the file is
    created empty. The names are drawn from a counter, where the library
    draws them at random. *)
Definition tmp_name (n : nat) (suffix : string) : string :=
  "/tmp/tmp" +:+ pretty n +:+ suffix.

Fixpoint probe (files : gmap string FileData) (suffix : string)
    (n attempts : nat) : option nat :=
  match attempts with
  | O => None
  | S k => match files !! tmp_name n suffix with
           | None => Some n
           | Some _ => probe files suffix (S n) k
           end
  end.

Definition TMP_MAX : nat := Z.to_nat 238328.

Definition mkstemp (suffix : string) : M string :=
  fun st => match probe (fs st) suffix (tmp_next st) TMP_MAX with
            | Some n =>
                (Ok (tmp_name n suffix),
                 set_tmp_next (S n) (set_fs <[tmp_name n suffix := EmptyFile]> st))
            | None =>
                (Raise (FileExistsError "No usable temporary file name found"), st)
            end.

End Os.

(** ** [s3_utils.py] *)

(** The two components of [urllib.parse.urlparse(url)] that the code reads. *)
Record ParseResult := { netloc : string; path : string }.

Section S3Utils.

Variable E : Env.

Definition is_s3_uri (path : string) : bool := Py.startswith path "s3://".

Definition is_netloc_delim (c : ascii) : bool :=
  Ascii.eqb c "/" || Ascii.eqb c "?" || Ascii.eqb c "#".

(** [urllib.parse.urlparse] on a URL of scheme [s3] (the only URLs the
    program hands to it), following [urlsplit]: tab, carriage return and
    line feed are removed; the netloc runs from after [s3://] to the
    first of [/ ? #]; a netloc with only one of the two square brackets
    raises [ValueError]; one with both, or with a character outside
    ASCII, is checked further by the library and may raise [ValueError]
    too; the fragment (from [#]) and then the query (from [?]) are cut off
    what remains, which is the path. *)
Definition urlparse (url : string) : Outcome ParseResult :=
  let url := Py.remove "010" (Py.remove "013" (Py.remove "009" url)) in
  match Py.strip_prefix "s3://" url with
  | None => Ok {| netloc := ""; path := url |}
  | Some rest =>
      let '(netloc, url) := Py.break is_netloc_delim rest in
      if xorb (Py.contains "[" netloc) (Py.contains "]" netloc)
      then Raise (ValueError "Invalid IPv6 URL")
      else
        match (if Py.contains "[" netloc || negb (Py.isascii netloc)
               then netloc_fault E netloc else None) with
        | Some message => Raise (ValueError message)
        | None =>
            let url := Py.before "#" url in
            let url := Py.before "?" url in
            Ok {| netloc := netloc; path := url |}
        end
  end.

Definition parse_s3_uri (s3_uri : string) : Outcome (string * string) :=
  if negb (is_s3_uri s3_uri)
  then Raise (ValueError ("Not a valid S3 URI: " +:+ s3_uri))
  else
    match urlparse s3_uri with
    | Raise e => Raise e
    | Ok parsed =>
        let bucket := netloc parsed in
        let key := Py.lstrip "/" (path parsed) in
        if negb (Py.truthy bucket)
        then Raise (ValueError ("No bucket specified in S3 URI: " +:+ s3_uri))
        else if negb (Py.truthy key)
        then Raise (ValueError ("No key specified in S3 URI: " +:+ s3_uri))
        else Ok (bucket, key)
    end.

(** [s3.download_file(bucket, key, local_path)] : it raises what the
    transport raises, and a 404 [ClientError] when there is no such object;
    [get_s3_client()] itself is taken not to raise. *)
Definition s3_download_file (bucket key local_path : string) : M unit :=
  fun st =>
    match get_fault E bucket key with
    | Some e => (Raise e, st)
    | None =>
        match store st !! (bucket, key) with
        | Some o => (Ok tt, set_fs <[local_path := content o]> st)
        | None => (Raise (ClientError (Some "404") "Not Found"), st)
        end
    end.

Definition error_code (code : option string) : string := default "Unknown" code.

Definition download_from_s3 (s3_uri : string) (local_path : option string)
    : M (bool * string * option string) :=
  let* r :=
    match parse_s3_uri s3_uri with
    | Raise e => ret (false, str_exn e, None)
    | Ok (bucket, key) =>
        try_except
          (let* local_path :=
             match local_path with
             | None =>
                 let filename := OsPath.basename key in
                 let '(_, ext) := OsPath.splitext filename in
                 Os.mkstemp ext
             | Some p => ret p
             end in
           let* _ := s3_download_file bucket key local_path in
           ret (true, "Downloaded from S3", Some local_path))
          (fun e =>
             match e with
             | NoCredentialsError =>
                 ret (false, "AWS credentials not configured", None)
             | ClientError code _ =>
                 if String.eqb (error_code code) "404"
                 then ret (false, "S3 object not found: " +:+ s3_uri, None)
                 else if String.eqb (error_code code) "403"
                 then ret (false, "Access denied to S3 object: " +:+ s3_uri, None)
                 else ret (false, "S3 error: " +:+ str_exn e, None)
             | _ => ret (false, "Failed to download from S3: " +:+ str_exn e, None)
             end)
    end in
  let* _ := modify (record_call (Download s3_uri r)) in
  ret r.

(** [s3.upload_file(local_path, bucket, key, ExtraArgs={'ContentType': ...})] *)
Definition s3_upload_file (local_path bucket key ctype : string) : M unit :=
  fun st =>
    match put_fault E bucket key with
    | Some e => (Raise e, st)
    | None =>
        match fs st !! local_path with
        | Some d =>
            (Ok tt, set_store <[(bucket, key) := {| content := d; content_type := ctype |}]> st)
        | None => (Raise (IOError ("No such file or directory: " +:+ local_path)), st)
        end
    end.

Definition docx_content_type : string :=
  "application/vnd.openxmlformats-officedocument.wordprocessingml.document".

(** Lines 139-142 of [upload_to_s3]. *)
Definition upload_content_type (local_path : string) : string :=
  let content_type := docx_content_type in
  if Py.endswith local_path ".pdf" then "application/pdf" else content_type.

Definition upload_to_s3 (local_path s3_uri : string) : M (bool * string) :=
  let* '(sent, r) :=
    match parse_s3_uri s3_uri with
    | Raise e => ret (None, (false, str_exn e))
    | Ok (bucket, key) =>
        let* st := get_state in
        if negb (Os.path_exists st local_path)
        then ret (None, (false, "Local file does not exist: " +:+ local_path))
        else
          let content_type := upload_content_type local_path in
          let* r :=
            try_except
              (let* _ := s3_upload_file local_path bucket key content_type in
               ret (true, "Uploaded to " +:+ s3_uri))
              (fun e =>
                 match e with
                 | NoCredentialsError => ret (false, "AWS credentials not configured")
                 | ClientError code _ =>
                     if String.eqb (error_code code) "403"
                     then ret (false, "Access denied uploading to S3: " +:+ s3_uri)
                     else ret (false, "S3 error: " +:+ str_exn e)
                 | _ => ret (false, "Failed to upload to S3: " +:+ str_exn e)
                 end) in
          ret (Some (bucket, key, content_type), r)
    end in
  let* _ := modify (record_call (Upload local_path s3_uri sent r)) in
  ret r.

Definition generate_output_s3_uri (input_s3_uri suffix : string)
    (new_extension : option string) : Outcome string :=
  match parse_s3_uri input_s3_uri with
  | Raise e => Raise e
  | Ok (bucket, key) =>
      let '(base, ext) := OsPath.splitext key in
      let ext := match new_extension with
                 | Some x => if Py.truthy x then x else ext
                 | None => ext
                 end in
      let new_key := base +:+ suffix +:+ ext in
      Ok ("s3://" +:+ bucket +:+ "/" +:+ new_key)
  end.

End S3Utils.

(** ** [file_utils.py] *)

(** [bool(o)] for an [Optional[str]]. *)
Definition opt_truthy (o : option string) : bool :=
  match o with
  | Some s => Py.truthy s
  | None => false
  end.

Record S3FileContext := {
  original_path : string;
  is_s3 : bool;
  read_only : bool;
  local_path : option string;
  _temp_file : option string;
  _output_temp_file : option string;
  output_local_path : option string;
  output_s3_uri : option string;
}.

Section FileUtils.

Variable E : Env.

Definition ensure_docx_extension (filename : string) : string :=
  if is_s3_uri filename then
    if negb (Py.endswith filename ".docx") then filename +:+ ".docx" else filename
  else
    if negb (Py.endswith filename ".docx") then filename +:+ ".docx" else filename.

Definition check_file_writeable (filepath : string) (st : State) : bool * string :=
  if negb (Os.path_exists st filepath) then
    let directory := OsPath.dirname filepath in
    let directory := if String.eqb directory "" then "." else directory in
    if negb (dir_exists E directory)
    then (false, "Directory " +:+ directory +:+ " does not exist")
    else if negb (access_w E directory)
    then (false, "Directory " +:+ directory +:+ " is not writeable")
    else (true, "")
  else if negb (access_w E filepath)
  then (false, "File " +:+ filepath +:+ " is not writeable (permission denied)")
  else
    match append_fault E filepath with
    | None => (true, "")
    | Some (IOError m) | Some (FileExistsError m) =>
        (false, "File " +:+ filepath +:+ " is not writeable: " +:+ m)
    | Some e =>
        (false, "Unknown error checking file permissions: " +:+ str_exn e)
    end.

(** [os.path.exists(p)] where [p] may be [None] (then [TypeError]). *)
Definition exists_opt (p : option string) : M bool :=
  match p with
  | Some p => let* st := get_state in ret (Os.path_exists st p)
  | None => raise (OtherException
      "stat: path should be string, bytes, os.PathLike or integer, not NoneType")
  end.

End FileUtils.

(** The methods of the class [S3FileContext]. *)
Module Ctx.
Section Methods.

Variable E : Env.

Definition _generate_versioned_path (s3_uri : string) : string :=
  let '(base, ext) := OsPath.splitext s3_uri in
  let timestamp := time_now E in
  base +:+ "_edited_" +:+ Py.str_int timestamp +:+ ext.

Definition __init__ (filename : string) (read_only : bool)
    (output_s3_uri : option string) : S3FileContext :=
  let is_s3 := is_s3_uri filename in
  {| original_path := filename;
     is_s3 := is_s3;
     read_only := read_only;
     local_path := None;
     _temp_file := None;
     _output_temp_file := None;
     output_local_path := None;
     output_s3_uri :=
       if opt_truthy output_s3_uri then output_s3_uri
       else if is_s3 && negb read_only
       then Some (_generate_versioned_path filename)
       else None |}.

Definition set_local_path (v : option string) (self : S3FileContext) :=
  {| original_path := original_path self; is_s3 := is_s3 self;
     read_only := read_only self; local_path := v;
     _temp_file := _temp_file self; _output_temp_file := _output_temp_file self;
     output_local_path := output_local_path self;
     output_s3_uri := output_s3_uri self |}.
Definition set_temp_file (v : option string) (self : S3FileContext) :=
  {| original_path := original_path self; is_s3 := is_s3 self;
     read_only := read_only self; local_path := local_path self;
     _temp_file := v; _output_temp_file := _output_temp_file self;
     output_local_path := output_local_path self;
     output_s3_uri := output_s3_uri self |}.
Definition set_output_temp_file (v : option string) (self : S3FileContext) :=
  {| original_path := original_path self; is_s3 := is_s3 self;
     read_only := read_only self; local_path := local_path self;
     _temp_file := _temp_file self; _output_temp_file := v;
     output_local_path := output_local_path self;
     output_s3_uri := output_s3_uri self |}.
Definition set_output_local_path (v : option string) (self : S3FileContext) :=
  {| original_path := original_path self; is_s3 := is_s3 self;
     read_only := read_only self; local_path := local_path self;
     _temp_file := _temp_file self; _output_temp_file := _output_temp_file self;
     output_local_path := v;
     output_s3_uri := output_s3_uri self |}.

Definition __enter__ (self : S3FileContext) : M S3FileContext :=
  let* self :=
    if is_s3 self then
      let* '(success, message, local_path) :=
        download_from_s3 E (original_path self) None in
      if negb success
      then raise (IOError ("Failed to download from S3: " +:+ message))
      else ret (set_temp_file local_path (set_local_path local_path self))
    else ret (set_local_path (Some (original_path self)) self) in
  if opt_truthy (output_s3_uri self) then
    let '(_, ext) := OsPath.splitext (default "" (output_s3_uri self)) in
    let* tmp := Os.mkstemp (if Py.truthy ext then ext else ".docx") in
    let self := set_output_temp_file (Some tmp) (set_output_local_path (Some tmp) self) in
    if is_s3 self && opt_truthy (local_path self) then
      let* _ := Os.copy2 (default "" (local_path self)) tmp in
      ret (set_local_path (output_local_path self) self)
    else ret self
  else ret (set_output_local_path (local_path self) self).

(** The [finally] block of [__exit__]. *)
Definition cleanup (self : S3FileContext) : M unit :=
  let* st := get_state in
  let* _ :=
    if opt_truthy (_temp_file self)
       && Os.path_exists st (default "" (_temp_file self))
    then Os.unlink_quietly (default "" (_temp_file self))
    else ret tt in
  let* st := get_state in
  if opt_truthy (_output_temp_file self)
     && negb (bool_decide (_output_temp_file self = _temp_file self))
     && Os.path_exists st (default "" (_output_temp_file self))
  then Os.unlink_quietly (default "" (_output_temp_file self))
  else ret tt.

Definition __exit__ (self : S3FileContext) (exc_type : option exn) : M bool :=
  let* _ :=
    try_finally
      (if bool_decide (exc_type = None) && negb (read_only self) then
         if opt_truthy (output_s3_uri self) then
           let* there := exists_opt (output_local_path self) in
           if there then
             let* '(success, message) :=
               upload_to_s3 E (default "" (output_local_path self))
                            (default "" (output_s3_uri self)) in
             if negb success
             then raise (IOError ("Failed to upload to S3: " +:+ message))
             else ret tt
           else ret tt
         else ret tt
       else ret tt)
      (cleanup self) in
  ret false.

Definition get_result_path (self : S3FileContext) : string :=
  if opt_truthy (output_s3_uri self)
  then default "" (output_s3_uri self)
  else original_path self.

(** [with S3FileContext(filename, read_only, output_s3_uri) as ctx: body ctx].
    [__exit__] is not called when [__enter__] raises; an exception of the
    body is re-raised unless [__exit__] returns true, in which case the
    statement completes without a value. *)
Definition with_ {A} (filename : string) (read_only : bool)
    (output_s3_uri : option string) (body : S3FileContext -> M A) : M (option A) :=
  let* ctx := __enter__ (__init__ filename read_only output_s3_uri) in
  fun st =>
    match body ctx st with
    | (Ok a, st') => (let* _ := __exit__ ctx None in ret (Some a)) st'
    | (Raise e, st') =>
        (let* suppress := __exit__ ctx (Some e) in
         if suppress then ret None else raise e) st'
    end.

End Methods.
End Ctx.

(** ** [document_tools.py] : [merge_documents] *)

Module Merge.
Section Tool.

Variable E : Env.

(** [Document(path)] : opening a file that is not a document raises. *)
Definition Document_open (path : string) : M Docx :=
  fun st =>
    match fs st !! path with
    | Some (DocxFile d) => (Ok d, st)
    | _ => (Raise (OtherException ("Package not found at '" +:+ path +:+ "'")), st)
    end.

(** [doc.save(path)], taken to succeed. *)
Definition Document_save (doc : Docx) (path : string) : M unit :=
  modify (set_fs <[path := DocxFile doc]>).

(** Lines 315-320: the formatting of [run] is copied onto [new_run]; the
    font size only when the source has one. *)
Definition copy_run_formatting (run new_run : Run) : Run :=
  {| run_text := run_text new_run;
     run_page_break := run_page_break new_run;
     bold := bold run;
     italic := italic run;
     underline := underline run;
     font_size := match font_size run with
                  | Some sz => if sz =? 0 then font_size new_run else Some sz
                  | None => font_size new_run
                  end |}.

(** Lines 311-320: [for j, run in enumerate(paragraph.runs)] with the
    guard [j < len(new_paragraph.runs)]. *)
Fixpoint copy_runs (source_runs new_runs : list Run) : list Run :=
  match source_runs, new_runs with
  | run :: rest, new_run :: new_rest =>
      copy_run_formatting run new_run :: copy_runs rest new_rest
  | _, _ => new_runs
  end.

(** Lines 299-320: the paragraph added to the target for [paragraph]. *)
Definition copy_paragraph (paragraph : Paragraph) : Paragraph :=
  let new_paragraph := Docx_.new_paragraph (Docx_.text paragraph) in
  let style :=
    if bool_decide (style_name paragraph ∈ template_styles E)
    then style_name paragraph else "Normal" in
  {| style_name := style;
     runs := copy_runs (runs paragraph) (runs new_paragraph) |}.

(** Modelled from the spec: [copy_table] of [core/tables.py], which is not
    among the sources; according to section 4.5 step 3 each table of a
    source is copied, structure and cell text, into the target, in order. *)
Definition copy_table (table : Table) (target_doc : Docx) : Docx :=
  {| body := (body target_doc ++ [BTable table])%list |}.

(** Lines 291-324: one iteration of the loop over the sources. *)
Definition merge_source (add_page_breaks : bool) (i : nat)
    (source_doc target_doc : Docx) : Docx :=
  let target_doc :=
    if add_page_breaks && bool_decide (0 < i)%nat
    then Docx_.add_page_break target_doc else target_doc in
  let target_doc :=
    foldl (fun d paragraph =>
             {| body := (body d ++ [BParagraph (copy_paragraph paragraph)])%list |})
          target_doc (Docx_.paragraphs source_doc) in
  foldl (fun d table => copy_table table d) target_doc (Docx_.tables source_doc).

(** Lines 290-324: [for i, local_source in enumerate(local_sources)]. *)
Fixpoint merge_loop (add_page_breaks : bool) (i : nat)
    (local_sources : list string) (target_doc : Docx) : M Docx :=
  match local_sources with
  | [] => ret target_doc
  | local_source :: rest =>
      let* source_doc := Document_open local_source in
      merge_loop add_page_breaks (S i) rest
                 (merge_source add_page_breaks i source_doc target_doc)
  end.

(** Lines 264-276: the loop that resolves the sources. It cannot raise;
    it stops with [inl message] at the first source that does not
    resolve ([return] inside the [try]). The lists [local_sources] and
    [temp_files] are the local variables of the function. *)
Fixpoint resolve_sources (source_filenames local_sources temp_files : list string)
    (st : State) : (string + list string) * list string * State :=
  match source_filenames with
  | [] => (inr local_sources, temp_files, st)
  | filename :: rest =>
      let doc_filename := ensure_docx_extension filename in
      if is_s3_uri doc_filename then
        match download_from_s3 E doc_filename None st with
        | (Ok (success, message, local_path), st') =>
            if negb success
            then (inl ("Failed to download " +:+ doc_filename +:+ " from S3: " +:+ message),
                  temp_files, st')
            else resolve_sources rest
                   (local_sources ++ [default "" local_path])
                   (temp_files ++ [default "" local_path]) st'
        | (Raise e, st') =>
            (inl ("Failed to merge documents: " +:+ str_exn e), temp_files, st')
        end
      else if negb (Os.path_exists st doc_filename)
      then (inl ("Source document " +:+ doc_filename +:+ " does not exist"),
            temp_files, st)
      else resolve_sources rest (local_sources ++ [doc_filename]) temp_files st
  end.

Definition success_message (n : nat) (target_filename : string) : string :=
  "Successfully merged " +:+ pretty n +:+ " documents into " +:+ target_filename.

(** Lines 286-335: the rest of the [try] block once the target path is
    known. *)
Definition build_and_commit (target_filename : string) (target_is_s3 : bool)
    (n_sources : nat) (local_sources : list string) (local_target : string)
    (add_page_breaks : bool) : M string :=
  let target_doc := Docx_.Document_new in
  let* target_doc := merge_loop add_page_breaks 0 local_sources target_doc in
  let* _ := Document_save target_doc local_target in
  if target_is_s3 then
    let* '(success, message) := upload_to_s3 E local_target target_filename in
    if negb success
    then ret ("Failed to upload merged document to S3: " +:+ message)
    else ret (success_message n_sources target_filename)
  else ret (success_message n_sources target_filename).

(** Lines 339-345: the [finally] block. *)
Fixpoint cleanup (temp_files : list string) (st : State) : State :=
  match temp_files with
  | [] => st
  | temp_file :: rest =>
      let st :=
        if Py.truthy temp_file && Os.path_exists st temp_file
        then set_fs (delete temp_file) st else st in
      cleanup rest st
  end.

(** Lines 261-335: the [try] block; the result comes with the value of
    [temp_files] at the exit. *)
Definition try_block (target_filename : string) (target_is_s3 : bool)
    (source_filenames : list string) (add_page_breaks : bool) (st : State)
    : Outcome string * list string * State :=
  match resolve_sources source_filenames [] [] st with
  | (inl message, temp_files, st1) => (Ok message, temp_files, st1)
  | (inr local_sources, temp_files, st1) =>
      if target_is_s3 then
        match Os.mkstemp ".docx" st1 with
        | (Raise e, st2) => (Raise e, temp_files, st2)
        | (Ok local_target, st2) =>
            let temp_files := (temp_files ++ [local_target])%list in
            let '(r, st3) :=
              build_and_commit target_filename target_is_s3
                (length source_filenames) local_sources local_target
                add_page_breaks st2 in
            (r, temp_files, st3)
        end
      else
        let local_target := target_filename in
        let '(r, st3) :=
          build_and_commit target_filename target_is_s3
            (length source_filenames) local_sources local_target
            add_page_breaks st1 in
        (r, temp_files, st3)
  end.

Definition merge_documents (target_filename : string)
    (source_filenames : list string) (add_page_breaks : bool) (st : State)
    : string * State :=
  let target_filename := ensure_docx_extension target_filename in
  let target_is_s3 := is_s3_uri target_filename in
  let '(is_writeable, error_message) :=
    if negb target_is_s3 then check_file_writeable E target_filename st
    else (true, "") in
  if negb is_writeable
  then ("Cannot create target document: " +:+ error_message, st)
  else
    let '(r, temp_files, st1) :=
      try_block target_filename target_is_s3 source_filenames add_page_breaks st in
    let result :=
      match r with
      | Ok message => message
      | Raise e => "Failed to merge documents: " +:+ str_exn e
      end in
    (result, cleanup temp_files st1).

End Tool.
End Merge.

(** ** The rest of [s3_utils.py] *)

Module S3Handler.
Section Handler.

Variable E : Env.

(** The [finally] block of [s3_file_handler]. *)
Fixpoint cleanup (temp_files : list string) (st : State) : State :=
  match temp_files with
  | [] => st
  | temp_file :: rest =>
      let st :=
        if Py.truthy temp_file && Os.path_exists st temp_file
        then set_fs (delete temp_file) st else st in
      cleanup rest st
  end.

(** Lines 220-251: what runs before the [yield]. The result comes with the
    value of [temp_files] at that point; on success it is the tuple that is
    yielded. *)
Definition setup (input_path : string) (output_path : option string) (st : State)
    : Outcome (string * string * bool * option string) * list string * State :=
  let is_s3_input := is_s3_uri input_path in
  let is_s3_output := opt_truthy output_path && is_s3_uri (default "" output_path) in
  let '(input, temp_files, st1) :=
    if is_s3_input then
      match download_from_s3 E input_path None st with
      | (Ok (success, message, local_input), st1) =>
          if negb success
          then (Raise (IOError ("Failed to download input from S3: " +:+ message)), [], st1)
          else (Ok (default "" local_input), [default "" local_input], st1)
      | (Raise e, st1) => (Raise e, [], st1)
      end
    else (Ok input_path, [], st) in
  match input with
  | Raise e => (Raise e, temp_files, st1)
  | Ok local_input =>
      if opt_truthy output_path then
        if is_s3_output then
          let '(_, ext) := OsPath.splitext (default "" output_path) in
          match Os.mkstemp (if Py.truthy ext then ext else ".docx") st1 with
          | (Raise e, st2) => (Raise e, temp_files, st2)
          | (Ok local_output, st2) =>
              (Ok (local_input, local_output, is_s3_input, output_path),
               (temp_files ++ [local_output])%list, st2)
          end
        else (Ok (local_input, default "" output_path, is_s3_input, None), temp_files, st1)
      else if is_s3_input then
        match generate_output_s3_uri E input_path "" None with
        | Raise e => (Raise e, temp_files, st1)
        | Ok output_s3_uri =>
            let '(_, ext) := OsPath.splitext output_s3_uri in
            match Os.mkstemp (if Py.truthy ext then ext else ".docx") st1 with
            | (Raise e, st2) => (Raise e, temp_files, st2)
            | (Ok local_output, st2) =>
                (Ok (local_input, local_output, is_s3_input, Some output_s3_uri),
                 (temp_files ++ [local_output])%list, st2)
            end
        end
      else (Ok (local_input, local_input, is_s3_input, None), temp_files, st1)
  end.

(** Lines 253-257: what runs after the [yield] when the body has completed. *)
Definition commit (upload_output : bool) (local_output : string)
    (output_s3_uri : option string) : M unit :=
  let* st := get_state in
  if upload_output && opt_truthy output_s3_uri && Os.path_exists st local_output then
    let* '(success, message) :=
      upload_to_s3 E local_output (default "" output_s3_uri) in
    if negb success
    then raise (IOError ("Failed to upload output to S3: " +:+ message))
    else ret tt
  else ret tt.

(** [with s3_file_handler(input_path, output_path, upload_output) as t: body t].
    An exception of the body is thrown into the generator at the [yield]:
    the upload is skipped, the [finally] block runs, and the exception
    goes on. *)
Definition s3_file_handler {A} (input_path : string) (output_path : option string)
    (upload_output : bool) (body : string * string * bool * option string -> M A)
    : M A :=
  fun st =>
    match setup input_path output_path st with
    | (Raise e, temp_files, st1) => (Raise e, cleanup temp_files st1)
    | (Ok (local_input, local_output, is_s3_input, output_s3_uri), temp_files, st1) =>
        match body (local_input, local_output, is_s3_input, output_s3_uri) st1 with
        | (Raise e, st2) => (Raise e, cleanup temp_files st2)
        | (Ok a, st2) =>
            match commit upload_output local_output output_s3_uri st2 with
            | (Raise e, st3) => (Raise e, cleanup temp_files st3)
            | (Ok _, st3) => (Ok a, cleanup temp_files st3)
            end
        end
    end.

Definition resolve_s3_path (path : string) : M (option string * bool * option string) :=
  if is_s3_uri path then
    let* '(success, message, local_path) := download_from_s3 E path None in
    if negb success
    then raise (IOError ("Failed to download from S3: " +:+ message))
    else ret (local_path, true, Some path)
  else ret (Some path, false, None).

End Handler.
End S3Handler.

(** ** The rest of [file_utils.py] *)

Section MoreFileUtils.

Variable E : Env.

(** What the disk refuses: [open(path, 'wb')] raising, by path. *)
Variable write_fault : string -> option exn.

(** [shutil.copy2(src, dst)] onto a path of the caller: it raises when the
    source is missing, when source and destination are the same file
    (paths are taken as the names of the files), and when the destination
    cannot be written. The destination is taken not to name a directory
    (the library would then copy into it); the message of the second case
    shows the two paths as [repr] does for a path without quote or
    escape. *)
Definition copy2_checked (src dst : string) : M unit :=
  fun st =>
    match fs st !! src with
    | None => (Raise (IOError ("No such file or directory: " +:+ src)), st)
    | Some d =>
        if String.eqb src dst
        then (Raise (IOError ("'" +:+ src +:+ "' and '" +:+ dst
                              +:+ "' are the same file")), st)
        else match write_fault dst with
             | Some e => (Raise e, st)
             | None => (Ok tt, set_fs <[dst := d]> st)
             end
    end.

Definition create_document_copy (source_path : string) (dest_path : option string)
    : M (bool * string * option string) :=
  let* st := get_state in
  if negb (Os.path_exists st source_path)
  then ret (false, "Source document " +:+ source_path +:+ " does not exist", None)
  else
    let dest_path :=
      if negb (opt_truthy dest_path) then
        let '(base, ext) := OsPath.splitext source_path in
        base +:+ "_copy" +:+ ext
      else default "" dest_path in
    try_except
      (let* _ := copy2_checked source_path dest_path in
       ret (true, "Document copied to " +:+ dest_path, Some dest_path))
      (fun e => ret (false, "Failed to copy document: " +:+ str_exn e, None)).

Definition resolve_file_for_read (filename : string)
    : M (option string * bool * option string) :=
  if is_s3_uri filename then
    let* '(success, message, local_path) := download_from_s3 E filename None in
    if negb success
    then raise (IOError ("Failed to download from S3: " +:+ message))
    else ret (local_path, true, Some filename)
  else ret (Some filename, false, None).

Definition check_file_exists (filename : string) (st : State) : bool * string :=
  if is_s3_uri filename then (true, "")
  else if negb (Os.path_exists st filename)
  then (false, "Document " +:+ filename +:+ " does not exist")
  else (true, "").

Definition create_new_s3_document (s3_uri : string) : M (string * string) :=
  let '(_, ext) := OsPath.splitext s3_uri in
  let* local_path := Os.mkstemp (if Py.truthy ext then ext else ".docx") in
  ret (local_path, s3_uri).

Definition upload_if_s3 (local_path target_path : string) : M (bool * string) :=
  if is_s3_uri target_path then upload_to_s3 E local_path target_path
  else ret (true, "").

Definition cleanup_temp_file (filepath : string) (is_temp : bool) : M unit :=
  let* st := get_state in
  if is_temp && Py.truthy filepath && Os.path_exists st filepath
  then Os.unlink_quietly filepath
  else ret tt.

End MoreFileUtils.

(** ** The rest of [document_tools.py] *)

(** [except IOError] also catches the subclasses of [OSError]. *)
Definition is_oserror (e : exn) : bool :=
  match e with
  | IOError _ | FileExistsError _ => true
  | _ => false
  end.

Module Tools.
Section Tools.

Variable E : Env.
Variable write_fault : string -> option exn.

(** [ensure_heading_style] and [ensure_table_style] of [core/styles.py] are
    not among the sources: they are taken as they come, transformers of the
    document that may raise. The title and the author go to the core
    properties of the package, which the model of a document leaves out. *)
Variable ensure_heading_style : Docx -> Outcome Docx.
Variable ensure_table_style : Docx -> Outcome Docx.

(** The helpers of [utils/document_utils.py] are not among the sources
    either: each is taken as a reader of the disk, which gives a text or
    raises. [json.dumps] of their result is part of the text. *)
Variable get_document_properties : string -> State -> Outcome string.
Variable extract_document_text : string -> State -> Outcome string.
Variable get_document_structure : string -> State -> Outcome string.
Variable get_document_xml : string -> State -> Outcome string.

Definition read (reader : string -> State -> Outcome string) (path : string) : M string :=
  fun st => (reader path st, st).

Definition lift {A} (r : Outcome A) : M A := fun st => (r, st).

(** Lines 37-47 and 68-81 of [create_document]: the new document, styled,
    and saved. *)
Definition build_and_save (local_path : string) : M unit :=
  let doc := Docx_.Document_new in
  let* doc := lift (ensure_heading_style doc) in
  let* doc := lift (ensure_table_style doc) in
  Merge.Document_save doc local_path.

Definition create_document (filename : string) (title author : option string)
    (st : State) : string * State :=
  let filename := ensure_docx_extension filename in
  if is_s3_uri filename then
    match Os.mkstemp ".docx" st with
    | (Raise e, st1) => ("Failed to create document: " +:+ str_exn e, st1)
    | (Ok local_path, st1) =>
        let '(r, st2) :=
          try_finally
            (let* _ := build_and_save local_path in
             let* '(success, message) := upload_to_s3 E local_path filename in
             if negb success
             then ret ("Failed to upload to S3: " +:+ message)
             else ret ("Document " +:+ filename +:+ " created successfully"))
            (let* st := get_state in
             if Os.path_exists st local_path
             then modify (set_fs (delete local_path))
             else ret tt) st1 in
        match r with
        | Ok message => (message, st2)
        | Raise e => ("Failed to create document: " +:+ str_exn e, st2)
        end
    end
  else
    let '(is_writeable, error_message) := check_file_writeable E filename st in
    if negb is_writeable
    then ("Cannot create document: " +:+ error_message, st)
    else
      match build_and_save filename st with
      | (Ok _, st1) => ("Document " +:+ filename +:+ " created successfully", st1)
      | (Raise e, st1) => ("Failed to create document: " +:+ str_exn e, st1)
      end.

(** The shape shared by the tools that read a document: the body of the
    [with] statement returns, [IOError] gives its own text, any other
    exception the text of the tool. [__exit__] never suppresses, so the
    statement always has a value. *)
Definition read_tool (filename : string) (body : S3FileContext -> M string)
    (failure : string) (st : State) : string * State :=
  match Ctx.with_ E filename true None body st with
  | (Ok r, st') => (default "" r, st')
  | (Raise e, st') =>
      if is_oserror e then (str_exn e, st')
      else (failure +:+ str_exn e, st')
  end.

Definition get_document_info (filename : string) : State -> string * State :=
  let filename := ensure_docx_extension filename in
  read_tool filename
    (fun ctx =>
       let* st := get_state in
       if negb (Os.path_exists st (default "" (local_path ctx)))
       then ret ("Document " +:+ filename +:+ " does not exist")
       else read get_document_properties (default "" (local_path ctx)))
    "Failed to get document info: ".

Definition get_document_text (filename : string) : State -> string * State :=
  let filename := ensure_docx_extension filename in
  read_tool filename
    (fun ctx => read extract_document_text (default "" (local_path ctx)))
    "Failed to extract text: ".

Definition get_document_outline (filename : string) : State -> string * State :=
  let filename := ensure_docx_extension filename in
  read_tool filename
    (fun ctx => read get_document_structure (default "" (local_path ctx)))
    "Failed to get document outline: ".

Definition get_document_xml_tool (filename : string) : State -> string * State :=
  let filename := ensure_docx_extension filename in
  read_tool filename
    (fun ctx => read get_document_xml (default "" (local_path ctx)))
    "Failed to get document XML: ".

(** Lines 196-226 of [copy_document]: the inner [try] with its [finally],
    when the source or the destination is remote. *)
Definition copy_through_s3 (source_filename destination_filename : string)
    (source_is_s3 dest_is_s3 : bool) : M string :=
  fun st =>
    let '(resolved, temp_source, st1) :=
      if source_is_s3 then
        match download_from_s3 E source_filename None st with
        | (Ok (success, message, local_source), st1) =>
            if negb success
            then (inl ("Failed to download source from S3: " +:+ message), false, st1)
            else (inr (default "" local_source), true, st1)
        | (Raise e, st1) => (inl ("Failed to copy document: " +:+ str_exn e), false, st1)
        end
      else if negb (Os.path_exists st source_filename)
      then (inl ("Source document " +:+ source_filename +:+ " does not exist"), false, st)
      else (inr source_filename, false, st) in
    match resolved with
    | inl message => (Ok message, st1)
    | inr local_source =>
        try_finally
          (if dest_is_s3 then
             let* '(success, message) :=
               upload_to_s3 E local_source destination_filename in
             if negb success
             then ret ("Failed to upload to S3: " +:+ message)
             else ret ("Document copied to " +:+ destination_filename)
           else
             let* _ := copy2_checked write_fault local_source destination_filename in
             ret ("Document copied to " +:+ destination_filename))
          (let* st := get_state in
           if temp_source && Py.truthy local_source && Os.path_exists st local_source
           then modify (set_fs (delete local_source))
           else ret tt) st1
    end.

Definition copy_document (source_filename : string)
    (destination_filename : option string) (st : State) : string * State :=
  let source_filename := ensure_docx_extension source_filename in
  let destination_filename :=
    if opt_truthy destination_filename
    then ensure_docx_extension (default "" destination_filename)
    else
      let '(base, ext) := OsPath.splitext source_filename in
      base +:+ "_copy" +:+ ext in
  let source_is_s3 := is_s3_uri source_filename in
  let dest_is_s3 := is_s3_uri destination_filename in
  let '(r, st') :=
    if source_is_s3 || dest_is_s3 then
      copy_through_s3 source_filename destination_filename source_is_s3 dest_is_s3 st
    else
      (let* '(success, message, new_path) :=
         create_document_copy write_fault source_filename (Some destination_filename) in
       if success then ret message
       else ret ("Failed to copy document: " +:+ message)) st in
  match r with
  | Ok message => (message, st')
  | Raise e => ("Failed to copy document: " +:+ str_exn e, st')
  end.

End Tools.
End Tools.

(** ** The locator, in the words of the design document

    Section 4.1 speaks of the bucket (the authority of the address) and of
    the key (its path, leading separator stripped) "after stripping the
    scheme". These are the corresponding pieces of the text of an address,
    cut at the delimiters of the URL syntax, without any validation. *)

Module Locator.

Definition after_scheme (s : string) : string :=
  default "" (Py.strip_prefix "s3://"
                (Py.remove "010" (Py.remove "013" (Py.remove "009" s)))).

Definition authority (s : string) : string :=
  (Py.break is_netloc_delim (after_scheme s)).1.

Definition key_text (s : string) : string :=
  Py.lstrip "/"
    (Py.before "?" (Py.before "#" (Py.break is_netloc_delim (after_scheme s)).2)).

(** Addresses of the plain form [s3://<bucket>/<key>]: the bucket is not
    empty and has none of the characters that end or bracket an authority,
    the key is not empty, does not start with the separator and has no
    query or fragment mark; neither has a tab, a carriage return or a
    line feed. *)
Definition is_ctl (c : ascii) : bool :=
  Ascii.eqb c "009" || Ascii.eqb c "010" || Ascii.eqb c "013".

Definition bucket_char (c : ascii) : bool :=
  Py.ascii_char c
  && negb (is_netloc_delim c || Ascii.eqb c "[" || Ascii.eqb c "]" || is_ctl c).

Definition key_char (c : ascii) : bool :=
  negb (Ascii.eqb c "?" || Ascii.eqb c "#" || is_ctl c).

Definition plain_bucket (b : string) : bool :=
  Py.truthy b && Py.all_chars bucket_char b.

Definition plain_key (k : string) : bool :=
  Py.truthy k && negb (Py.startswith k "/") && Py.all_chars key_char k.

(** The authorities that [urllib.parse] refuses, with its message. *)
Definition netloc_error (E : Env) (n : string) : option string :=
  if xorb (Py.contains "[" n) (Py.contains "]" n) then Some "Invalid IPv6 URL"
  else if Py.contains "[" n || negb (Py.isascii n) then netloc_fault E n
  else None.

End Locator.



(** ** The merge, in the words of the design document *)

(** What a source locator stands for in a given state: the object of the
    store for an S3 URI, the file of the disk otherwise (after the
    extension rule). *)
Definition source_file (E : Env) (st : State) (filename : string) : option FileData :=
  let doc_filename := ensure_docx_extension filename in
  if is_s3_uri doc_filename then
    match parse_s3_uri E doc_filename with
    | Ok (bucket, key) => content <$> store st !! (bucket, key)
    | Raise _ => None
    end
  else fs st !! doc_filename.

(** The block-level content one source contributes: its paragraphs, then
    its tables. *)
Definition source_content (E : Env) (d : Docx) : list Block :=
  (map (fun p => BParagraph (Merge.copy_paragraph E p)) (Docx_.paragraphs d)
   ++ map BTable (Docx_.tables d))%list.

(** Section 4.5 step 3: the sources in the given order, a page break before
    each source after the first when page breaks are asked for. *)
Definition separator (add_page_breaks : bool) : list Block :=
  if add_page_breaks then [BParagraph Docx_.page_break_paragraph] else [].

Definition merged_body (E : Env) (add_page_breaks : bool) (docs : list Docx) : list Block :=
  match docs with
  | [] => []
  | first :: others =>
      (source_content E first
       ++ concat (map (fun d => separator add_page_breaks ++ source_content E d)
                      others))%list
  end.

(** Where the merged document ends up: the object at the target URI, or
    the file at the target path. *)
Definition committed (E : Env) (st : State) (target_filename : string) : option FileData :=
  source_file E st target_filename.

(** What a name stands for as it is, without the extension rule: the
    object of the store for an S3 URI, the file of the disk otherwise. *)
Definition stored_at (E : Env) (st : State) (name : string) : option FileData :=
  if is_s3_uri name then
    match parse_s3_uri E name with
    | Ok (bucket, key) => content <$> store st !! (bucket, key)
    | Raise _ => None
    end
  else fs st !! name.

(** The destination of [copy_document] (lines 178-188): the given name
    under the extension rule, or the source with [_copy] before its
    extension. *)
Definition copy_destination (source_filename : string)
    (destination_filename : option string) : string :=
  if opt_truthy destination_filename
  then ensure_docx_extension (default "" destination_filename)
  else
    let '(base, ext) := OsPath.splitext (ensure_docx_extension source_filename) in
    base +:+ "_copy" +:+ ext.

(** The names [mkstemp] hands out all start with the path of the scratch
    directory. *)
Definition is_tmp_name (p : string) : bool := Py.startswith p "/tmp/tmp".

(** A source locator that cannot be resolved, as the state at the call
    shows it: an S3 URI that does not parse, whose transfer meets a fault
    of the store (access denied, no credentials, a transport error) or
    whose object is not there; a local name with no file, which is no
    name of the scratch directory either (an earlier download of the same
    call could create such a file). *)
Definition unresolvable (E : Env) (st : State) (filename : string) : Prop :=
  let doc_filename := ensure_docx_extension filename in
  if is_s3_uri doc_filename then
    match parse_s3_uri E doc_filename with
    | Ok (bucket, key) =>
        is_Some (get_fault E bucket key) \/ store st !! (bucket, key) = None
    | Raise _ => True
    end
  else fs st !! doc_filename = None /\ is_tmp_name doc_filename = false.

(** ** Concrete environments and states *)

(** No fault anywhere; the clock reads 1733318400. *)
Definition env0 : Env := {|
  time_now := 1733318400;
  get_fault := fun _ _ => None;
  put_fault := fun _ _ => None;
  dir_exists := fun _ => true;
  access_w := fun _ => true;
  append_fault := fun _ => None;
  netloc_fault := fun _ => None;
  template_styles := ["Normal"; "Heading 1"];
|}.

(** Every download is refused by the store. *)
Definition env_get_denied : Env := {|
  time_now := 1733318400;
  get_fault := fun _ _ => Some (ClientError (Some "403") "Forbidden");
  put_fault := fun _ _ => None;
  dir_exists := fun _ => true;
  access_w := fun _ => true;
  append_fault := fun _ => None;
  netloc_fault := fun _ => None;
  template_styles := ["Normal"; "Heading 1"];
|}.

(** Every upload is refused by the store. *)
Definition env_put_denied : Env := {|
  time_now := 1733318400;
  get_fault := fun _ _ => None;
  put_fault := fun _ _ => Some (ClientError (Some "403") "Forbidden");
  dir_exists := fun _ => true;
  access_w := fun _ => true;
  append_fault := fun _ => None;
  netloc_fault := fun _ => None;
  template_styles := ["Normal"; "Heading 1"];
|}.

Definition doc_a : Docx :=
  {| body := [BParagraph (Docx_.new_paragraph "alpha");
              BTable {| table_style := None; cells := [["a1"; "a2"]] |}] |}.
Definition doc_b : Docx :=
  {| body := [BParagraph (Docx_.new_paragraph "beta");
              BParagraph Docx_.page_break_paragraph;
              BParagraph (Docx_.new_paragraph "gamma")] |}.

Definition st_empty : State :=
  {| fs := ∅; store := ∅; tmp_next := 0; calls := [] |}.

(** A disk with two documents and a text file, a store with one document. *)
Definition st_docs : State :=
  {| fs := {[ "a.docx" := DocxFile doc_a; "b.docx" := DocxFile doc_b;
              "/data/notes.txt" := RawFile "notes" ]};
     store := {[ ("bkt", "docs/report.docx") :=
                   {| content := DocxFile doc_b; content_type := docx_content_type |} ]};
     tmp_next := 0;
     calls := [] |}.

(** The session [S3FileContext("s3://bkt/docs/report.docx")] once opened on
    [st_docs]: the context object and the state. *)
Definition ctx_report : S3FileContext :=
  {| original_path := "s3://bkt/docs/report.docx";
     is_s3 := true;
     read_only := false;
     local_path := Some "/tmp/tmp1.docx";
     _temp_file := Some "/tmp/tmp0.docx";
     _output_temp_file := Some "/tmp/tmp1.docx";
     output_local_path := Some "/tmp/tmp1.docx";
     output_s3_uri := Some "s3://bkt/docs/report_edited_1733318400.docx" |}.

Definition st_report_opened : State :=
  (Ctx.__enter__ env0 (Ctx.__init__ env0 "s3://bkt/docs/report.docx" false None)
     st_docs).2.

(** The body of a session that edits the working file: it saves [doc_a]
    over it. *)
Definition edit_body (ctx : S3FileContext) : M unit :=
  Merge.Document_save doc_a (default "" (local_path ctx)).

(** The same URI opened read-only. *)
Definition ctx_report_ro : S3FileContext :=
  {| original_path := "s3://bkt/docs/report.docx";
     is_s3 := true;
     read_only := true;
     local_path := Some "/tmp/tmp0.docx";
     _temp_file := Some "/tmp/tmp0.docx";
     _output_temp_file := None;
     output_local_path := Some "/tmp/tmp0.docx";
     output_s3_uri := None |}.

Definition st_report_opened_ro : State :=
  (Ctx.__enter__ env0 (Ctx.__init__ env0 "s3://bkt/docs/report.docx" true None)
     st_docs).2.

(** ** Observations and proof automation *)

(** The calls recorded between two states. *)
Definition new_calls (st st' : State) : list ClientCall :=
  drop (length (calls st)) (calls st').

(** [st'] extends the disk of [st]: every file of [st] is still there with
    the same content. *)
Definition extends (st st' : State) : Prop :=
  forall p d, fs st !! p = Some d -> fs st' !! p = Some d.

(** Unfolding of the monad. *)
Ltac run_monad :=
  unfold bind, ret, raise, modify, get_state, try_except, try_finally in *; simpl in *.

(** The cases of an [except] chain on the exception [e]. *)
Ltac handler_cases e :=
  let code := fresh "code" in
  destruct e as [?|?|?| |code ?|?]; simpl;
  try (destruct (String.eqb (error_code code) "404"); simpl);
  try (destruct (String.eqb (error_code code) "403"); simpl).

(** * Properties *)

Example splitext_docx : OsPath.splitext "s3://bucket/dir/doc.docx" = ("s3://bucket/dir/doc", ".docx").
Proof. reflexivity. Qed.
Example splitext_hidden : OsPath.splitext "dir/.bashrc" = ("dir/.bashrc", "").
Proof. reflexivity. Qed.
Example splitext_dotted_dir : OsPath.splitext "a.b/c" = ("a.b/c", "").
Proof. reflexivity. Qed.
Example basename_key : OsPath.basename "docs/report.docx" = "report.docx".
Proof. reflexivity. Qed.
Example dirname_key : OsPath.dirname "docs//report.docx" = "docs".
Proof. reflexivity. Qed.
Example str_int_ex : Py.str_int 1733318400 = "1733318400".
Proof. reflexivity. Qed.

(** ** Strings *)

Section StringFacts.

Lemma str_app_cons a s t : String a s +:+ t = String a (s +:+ t).
Proof. reflexivity. Qed.

Lemma str_app_nil_l s : "" +:+ s = s.
Proof. reflexivity. Qed.

Lemma str_app_nil_r s : s +:+ "" = s.
Proof. induction s as [|a s IH]; [done|]. by rewrite str_app_cons, IH. Qed.

Lemma str_app_assoc s t u : (s +:+ t) +:+ u = s +:+ (t +:+ u).
Proof. induction s as [|a s IH]; [done|]. by rewrite !str_app_cons, IH. Qed.

Lemma str_length_app s t :
  String.length (s +:+ t) = (String.length s + String.length t)%nat.
Proof. induction s as [|a s IH]; [done|]. rewrite str_app_cons. simpl. by rewrite IH. Qed.

Lemma prefix_app p s : String.prefix p (p +:+ s) = true.
Proof.
  induction p as [|a p IH]; [by destruct s|].
  rewrite str_app_cons. simpl. by destruct (ascii_dec a a).
Qed.

Lemma startswith_cons a s c :
  Py.startswith (String a s) (String c "") = Ascii.eqb a c.
Proof.
  unfold Py.startswith. cbn [String.prefix].
  destruct (ascii_dec c a) as [->|Hne].
  - rewrite Ascii.eqb_refl. by destruct s.
  - symmetry. apply Ascii.eqb_neq. congruence.
Qed.

Lemma prefix_inv p s : String.prefix p s = true -> exists r, s = p +:+ r.
Proof.
  revert s. induction p as [|a p IH]; intros s H.
  - by exists s.
  - destruct s as [|b s]; [done|]. simpl in H.
    destruct (ascii_dec a b) as [->|]; [|done].
    destruct (IH _ H) as [r ->]. by exists r.
Qed.

Lemma rev_app_app s acc : String.rev_app s acc = String.rev_app s "" +:+ acc.
Proof.
  revert acc. induction s as [|a s IH]; intros acc; [done|].
  simpl. rewrite (IH (String a acc)), (IH (String a "")).
  by rewrite str_app_assoc.
Qed.

Lemma rev_app_distr s t : String.rev (s +:+ t) = String.rev t +:+ String.rev s.
Proof.
  unfold String.rev. generalize "" at 1 3. induction s as [|a s IH]; intros acc.
  - rewrite str_app_nil_l. apply rev_app_app.
  - rewrite str_app_cons. simpl. apply IH.
Qed.

Lemma endswith_app s suffix : Py.endswith (s +:+ suffix) suffix = true.
Proof. unfold Py.endswith. rewrite rev_app_distr. apply prefix_app. Qed.

Lemma str_take_drop n s : Py.take n s +:+ Py.drop n s = s.
Proof.
  revert s. induction n as [|n IH]; intros [|a s]; try done.
  simpl. by rewrite str_app_cons, IH.
Qed.

Lemma truthy_true s : Py.truthy s = true <-> s <> "".
Proof. unfold Py.truthy. destruct (String.eqb_spec s ""); naive_solver. Qed.

Lemma truthy_false s : Py.truthy s = false <-> s = "".
Proof. unfold Py.truthy. destruct (String.eqb_spec s ""); naive_solver. Qed.

(** [os.path.splitext] cuts its argument in two. *)
Lemma splitext_app p : (OsPath.splitext p).1 +:+ (OsPath.splitext p).2 = p.
Proof.
  unfold OsPath.splitext. case_match; simpl.
  - apply str_take_drop.
  - apply str_app_nil_r.
Qed.

End StringFacts.

(** ** The extension rule *)

(** C10. [ensure_docx_extension] always yields a name that ends with
    [.docx], and applying it twice is the same as applying it once; this
    holds for every string, local path or S3 URI alike. *)
Theorem ensure_docx_extension_idempotent (s : string) :
  Py.endswith (ensure_docx_extension s) ".docx" = true
  /\ ensure_docx_extension (ensure_docx_extension s) = ensure_docx_extension s.
Proof.
  assert (Hends : Py.endswith (ensure_docx_extension s) ".docx" = true).
  { unfold ensure_docx_extension.
    destruct (is_s3_uri s), (Py.endswith s ".docx") eqn:He; simpl;
      auto using endswith_app. }
  split; [exact Hends|].
  unfold ensure_docx_extension at 1.
  rewrite Hends. simpl. by destruct (is_s3_uri _).
Qed.

(** ** The locator *)

Section LocatorFacts.

Variable E : Env.

Lemma is_s3_uri_iff s : is_s3_uri s = true <-> exists rest, s = "s3://" +:+ rest.
Proof.
  unfold is_s3_uri, Py.startswith. split.
  - apply prefix_inv.
  - intros [r ->]. apply prefix_app.
Qed.

Lemma remove_app c s t : Py.remove c (s +:+ t) = Py.remove c s +:+ Py.remove c t.
Proof.
  induction s as [|a s IH]; [done|].
  rewrite str_app_cons. simpl. destruct (Ascii.eqb a c); [done|].
  by rewrite str_app_cons, IH.
Qed.

Lemma strip_prefix_app p s : Py.strip_prefix p (p +:+ s) = Some s.
Proof.
  induction p as [|a p IH]; [by destruct s|].
  rewrite str_app_cons. simpl. by rewrite Ascii.eqb_refl.
Qed.

(** What [urlparse] returns on an S3 URI, by cases on the authority. *)
Lemma urlparse_s3 s :
  is_s3_uri s = true ->
  urlparse E s =
    match Locator.netloc_error E (Locator.authority s) with
    | Some message => Raise (ValueError message)
    | None => Ok {| netloc := Locator.authority s;
                    path := Py.before "?" (Py.before "#"
                              (Py.break is_netloc_delim (Locator.after_scheme s)).2) |}
    end.
Proof.
  intros [r ->]%is_s3_uri_iff.
  unfold urlparse, Locator.netloc_error, Locator.authority, Locator.after_scheme.
  rewrite !remove_app. change (Py.remove _ (Py.remove _ (Py.remove _ "s3://"))) with "s3://".
  rewrite strip_prefix_app. simpl.
  destruct (Py.break _ _) as [n u]. simpl.
  by destruct (xorb _ _).
Qed.

Lemma parse_s3_uri_cases s :
  is_s3_uri s = true ->
  parse_s3_uri E s =
    match Locator.netloc_error E (Locator.authority s) with
    | Some message => Raise (ValueError message)
    | None =>
        if negb (Py.truthy (Locator.authority s))
        then Raise (ValueError ("No bucket specified in S3 URI: " +:+ s))
        else if negb (Py.truthy (Locator.key_text s))
        then Raise (ValueError ("No key specified in S3 URI: " +:+ s))
        else Ok (Locator.authority s, Locator.key_text s)
    end.
Proof.
  intros Hs. unfold parse_s3_uri. rewrite Hs, (urlparse_s3 s Hs). simpl.
  by destruct (Locator.netloc_error _ _).
Qed.

(** [parse_s3_uri] only ever raises [ValueError]. *)
Lemma parse_s3_uri_raises s e :
  parse_s3_uri E s = Raise e -> exists m, e = ValueError m.
Proof.
  unfold parse_s3_uri. destruct (is_s3_uri s) eqn:Hs; simpl.
  - rewrite (urlparse_s3 s Hs).
    repeat case_match; intros; simplify_eq; eauto.
  - intros; simplify_eq; eauto.
Qed.

End LocatorFacts.

(** C8, as the code has it. A string is remote exactly when it starts with
    [s3://]. Parsing a remote string fails (with [ValueError]) exactly when
    the URL library rejects its authority - one square bracket without the
    other, or a bracketed or non-ASCII authority it does not accept - or
    when, after the scheme, there is no bucket or no key; otherwise the
    result is the authority and the path with its leading separators
    stripped. *)
Theorem parse_s3_uri_fails_exactly_when (E : Env) (s : string) :
  (is_s3_uri s = true <-> exists rest, s = "s3://" +:+ rest)
  /\ (is_s3_uri s = true ->
      ((exists m, parse_s3_uri E s = Raise (ValueError m))
         <-> is_Some (Locator.netloc_error E (Locator.authority s))
             \/ Locator.authority s = "" \/ Locator.key_text s = "")
      /\ (forall r, parse_s3_uri E s = Ok r
            -> r = (Locator.authority s, Locator.key_text s))).
Proof.
  split; [apply is_s3_uri_iff|].
  intros Hs. rewrite (parse_s3_uri_cases E s Hs).
  destruct (Locator.netloc_error E _) as [message|] eqn:Hrej.
  { split; [|done]. split; eauto. }
  destruct (Py.truthy (Locator.authority s)) eqn:Hb; simpl.
  2: { apply truthy_false in Hb. split; [|done]. split; eauto. }
  destruct (Py.truthy (Locator.key_text s)) eqn:Hk; simpl.
  2: { apply truthy_false in Hk. split; [|done]. split; eauto. }
  apply truthy_true in Hb, Hk. split.
  - split; [by intros [m ?]|]. intros [[? [=]]|[?|?]]; done.
  - by intros r [= <-].
Qed.

Lemma parse_s3_uri_fails_exactly_when_witness :
  let s := "s3://bkt/docs/report.docx" in
  ((exists m, parse_s3_uri env0 s = Raise (ValueError m))
     <-> is_Some (Locator.netloc_error env0 (Locator.authority s))
         \/ Locator.authority s = "" \/ Locator.key_text s = "")
  /\ (forall r, parse_s3_uri env0 s = Ok r
        -> r = (Locator.authority s, Locator.key_text s)).
Proof.
  apply (proj2 (parse_s3_uri_fails_exactly_when env0 "s3://bkt/docs/report.docx")).
  reflexivity.
Defined.

Example parse_report :
  parse_s3_uri env0 "s3://bkt/docs/report.docx" = Ok ("bkt", "docs/report.docx")
  /\ Locator.authority "s3://bkt/docs/report.docx" = "bkt"
  /\ Locator.key_text "s3://bkt/docs/report.docx" = "docs/report.docx".
Proof. repeat split. Qed.

(** C8, as stated, fails at [s3://[b/k]: after the scheme both a bucket
    and a key are present, yet parsing fails. *)
Lemma parse_s3_uri_rejects_present_bucket_and_key :
  ~ ((exists m, parse_s3_uri env0 "s3://[b/k" = Raise (ValueError m))
       <-> Locator.authority "s3://[b/k" = "" \/ Locator.key_text "s3://[b/k" = "").
Proof.
  intros [H _].
  destruct H as [H|H]; [|vm_compute in H; discriminate H..].
  exists "Invalid IPv6 URL". reflexivity.
Qed.

(** The scenario of section 8: [s3://b/docs/report] is normalised and
    parsed to bucket [b] and key [docs/report.docx]. *)
Example scenario_normalise_then_parse :
  parse_s3_uri env0 (ensure_docx_extension "s3://b/docs/report")
  = Ok ("b", "docs/report.docx").
Proof. reflexivity. Qed.

(** ** The remote-store client *)


Lemma new_calls_app st st' l : calls st' = (calls st ++ l)%list -> new_calls st st' = l.
Proof. unfold new_calls. intros ->. by rewrite drop_app_length. Qed.


Section ClientFacts.

Variable E : Env.

(** One call of [upload_to_s3]: it never raises, records itself, leaves
    the disk alone, and changes the store only when it reports success,
    at the bucket and key its URI parses to. *)
Lemma upload_to_s3_run local uri st :
  exists sent r st',
    upload_to_s3 E local uri st = (Ok r, st')
    /\ calls st' = (calls st ++ [Upload local uri sent r])%list
    /\ fs st' = fs st
    /\ tmp_next st' = tmp_next st
    /\ (r.1 = false -> store st' = store st)
    /\ (forall b k ct, sent = Some (b, k, ct) ->
          parse_s3_uri E uri = Ok (b, k) /\ ct = upload_content_type local)
    /\ (r.1 = true -> exists b k d,
          parse_s3_uri E uri = Ok (b, k) /\ fs st !! local = Some d
          /\ store st' = <[(b, k) := {| content := d;
                                        content_type := upload_content_type local |}]>
                           (store st)).
Proof.
  unfold upload_to_s3, s3_upload_file. run_monad.
  destruct (parse_s3_uri E uri) as [[b k]|e] eqn:Hp; simpl.
  2: { eexists _, _, _. split; [reflexivity|]. simpl.
       repeat split; intros; simplify_eq/=. }
  destruct (Os.path_exists st local) eqn:Hex; simpl.
  2: { eexists _, _, _. split; [reflexivity|]. simpl.
       repeat split; intros; simplify_eq/=. }
  destruct (put_fault E b k) as [e|] eqn:Hf.
  { destruct e as [m|m|m| |code m|m]; simpl;
      try destruct (String.eqb (error_code code) "403");
      (eexists _, _, _; split; [reflexivity|]; simpl;
       repeat split; intros; simplify_eq/=; done). }
  destruct (fs st !! local) as [d|] eqn:Hl; simpl.
  - eexists _, _, _. split; [reflexivity|]. simpl.
    repeat split; intros; simplify_eq/=; eauto 10.
  - eexists _, _, _. split; [reflexivity|]. simpl.
    repeat split; intros; simplify_eq/=; done.
Qed.

End ClientFacts.



(** ** Temporary files *)

Section TempFacts.

Lemma probe_fresh files suffix n k m :
  Os.probe files suffix n k = Some m -> files !! Os.tmp_name m suffix = None.
Proof.
  revert n. induction k as [|k IH]; intros n; simpl; [done|].
  destruct (files !! Os.tmp_name n suffix) eqn:Hn; [apply IH|].
  by intros [= <-].
Qed.

(** [mkstemp] creates an empty file under a name that did not exist, and
    does nothing when it raises. *)
Lemma mkstemp_run suffix st :
  (exists p st',
      Os.mkstemp suffix st = (Ok p, st')
      /\ is_tmp_name p = true
      /\ fs st !! p = None
      /\ fs st' = <[p := EmptyFile]> (fs st)
      /\ store st' = store st /\ calls st' = calls st)
  \/ (exists e, Os.mkstemp suffix st = (Raise e, st)).
Proof.
  unfold Os.mkstemp.
  destruct (Os.probe _ _ _ _) as [m|] eqn:Hm; [left|right; eauto].
  eexists _, _. split; [reflexivity|]. simpl.
  split; [apply prefix_app|]. eauto using probe_fresh.
Qed.

End TempFacts.


Lemma extends_refl st : extends st st.
Proof. by intros p d. Qed.

Lemma extends_same_fs st st' : fs st' = fs st -> extends st st'.
Proof. intros H p d. by rewrite H. Qed.

Lemma extends_trans st1 st2 st3 : extends st1 st2 -> extends st2 st3 -> extends st1 st3.
Proof. intros H12 H23 p d ?. eauto. Qed.

Lemma extends_insert_fresh st st' p d :
  fs st !! p = None -> fs st' = <[p := d]> (fs st) -> extends st st'.
Proof.
  intros Hp Hfs q dq Hq. rewrite Hfs.
  rewrite lookup_insert_ne; [done|]. intros ->. congruence.
Qed.


Section DownloadFacts.

Variable E : Env.

Local Arguments Os.mkstemp : simpl never.

(** One call of [download_from_s3] that allocates its own file: it never
    raises, records itself, leaves the store and the existing files
    alone; on success the path it returns is a file that did not exist
    and now holds the object. *)
Lemma download_from_s3_run uri st :
  exists r st',
    download_from_s3 E uri None st = (Ok r, st')
    /\ calls st' = (calls st ++ [Download uri r])%list
    /\ store st' = store st
    /\ extends st st'
    /\ (r.1.1 = true -> exists p b k o,
          r.2 = Some p /\ is_tmp_name p = true /\ fs st !! p = None
          /\ parse_s3_uri E uri = Ok (b, k) /\ store st !! (b, k) = Some o
          /\ fs st' = <[p := content o]> (fs st))
    /\ (r.1.1 = false ->
          r.2 = None
          /\ (fs st' = fs st
              \/ exists p, is_tmp_name p = true /\ fs st !! p = None
                           /\ fs st' = <[p := EmptyFile]> (fs st))).
Proof.
  unfold download_from_s3, s3_download_file. run_monad.
  destruct (parse_s3_uri E uri) as [[b k]|e] eqn:Hp; simpl.
  2: { eexists _, _. split; [reflexivity|]. simpl.
       repeat split; try done; [by apply extends_same_fs|by left]. }
  destruct (OsPath.splitext (OsPath.basename k)) as [base ext].
  destruct (mkstemp_run ext st)
    as [(p & st1 & -> & Htmp & Hfresh & Hfs & Hst & Hc)|[e ->]].
  2: { handler_cases e;
         (eexists _, _; split; [reflexivity|]; simpl;
          repeat split; try done; [by apply extends_same_fs|by left]). }
  assert (Hext : extends st st1) by eauto using extends_insert_fresh.
  destruct (get_fault E b k) as [e|] eqn:Hf.
  { handler_cases e;
      (eexists _, _; split; [reflexivity|]; simpl;
       repeat split; try done; try congruence; right; eauto). }
  destruct (store st1 !! (b, k)) as [o|] eqn:Ho; simpl.
  - eexists _, _. split; [reflexivity|]. simpl.
    repeat split; try done; try congruence.
    + intros q dq Hq. simpl. rewrite lookup_insert_ne; [by apply Hext|].
      intros ->. congruence.
    + intros _. exists p, b, k, o. repeat split; try done; try congruence.
      rewrite Hfs. by rewrite insert_insert_eq.
  - eexists _, _. split; [reflexivity|]. simpl.
    repeat split; try done; try congruence. right; eauto.
Qed.

End DownloadFacts.

(** ** The working-copy session *)

Lemma path_exists_false st p : Os.path_exists st p = false <-> fs st !! p = None.
Proof.
  unfold Os.path_exists. rewrite bool_decide_eq_false, <- eq_None_not_Some. done.
Qed.

Lemma path_exists_true st p : Os.path_exists st p = true <-> is_Some (fs st !! p).
Proof. unfold Os.path_exists. by rewrite bool_decide_eq_true. Qed.

Section SessionFacts.

Variable E : Env.

Local Arguments upload_to_s3 : simpl never.
Local Arguments download_from_s3 : simpl never.
Local Arguments Os.mkstemp : simpl never.
Local Arguments Os.path_exists : simpl never.

(** A guarded [os.unlink]: only the disk changes, and only by losing [p]. *)
Lemma guarded_unlink_run (c : bool) p st :
  exists st',
    (if c && Os.path_exists st p then Os.unlink_quietly p else ret tt) st = (Ok tt, st')
    /\ calls st' = calls st
    /\ store st' = store st
    /\ (forall q, fs st !! q = None -> fs st' !! q = None)
    /\ (c = false -> fs st' = fs st)
    /\ (c = true -> fs st' !! p = None).
Proof.
  unfold Os.unlink_quietly. run_monad.
  destruct c, (Os.path_exists st p) eqn:Hp; simpl;
    (eexists; split; [reflexivity|]; simpl; repeat split; try done).
  - intros q Hq. destruct (decide (p = q)); by simplify_map_eq.
  - intros _. by simplify_map_eq.
  - intros _. by apply path_exists_false.
Qed.

(** The [finally] block of [__exit__] never raises, touches neither the
    store nor the history, and leaves no file under either of the two
    temporary names of the session. *)
Lemma cleanup_run self st :
  exists st',
    Ctx.cleanup self st = (Ok tt, st')
    /\ calls st' = calls st
    /\ store st' = store st
    /\ (forall p, _temp_file self = Some p -> p <> "" -> fs st' !! p = None)
    /\ (forall p, _output_temp_file self = Some p -> p <> "" -> fs st' !! p = None)
    /\ (forall q, _temp_file self = None -> _output_temp_file self = None ->
          fs st' !! q = fs st !! q).
Proof.
  unfold Ctx.cleanup. unfold bind at 1 2 3. unfold get_state at 1. simpl.
  destruct (guarded_unlink_run (opt_truthy (_temp_file self))
              (default "" (_temp_file self)) st)
    as (st1 & -> & Hc1 & Hs1 & Hmono1 & Hsame1 & Hgone1).
  unfold get_state. simpl.
  destruct (guarded_unlink_run
              (opt_truthy (_output_temp_file self)
               && negb (bool_decide (_output_temp_file self = _temp_file self)))
              (default "" (_output_temp_file self)) st1)
    as (st2 & -> & Hc2 & Hs2 & Hmono2 & Hsame2 & Hgone2).
  exists st2. repeat split; try congruence.
  - intros p Hp Hne. rewrite Hp in *. simpl in *.
    by apply Hmono2, Hgone1, truthy_true.
  - intros p Hp Hne. rewrite Hp in *. simpl in *.
    assert (Htr : Py.truthy p = true) by by apply truthy_true.
    rewrite Htr in *. simpl in *.
    destruct (bool_decide (Some p = _temp_file self)) eqn:Hsame; simpl in *.
    + apply bool_decide_eq_true in Hsame. rewrite <- Hsame in *. simpl in *.
      by apply Hmono2, Hgone1.
    + by apply Hgone2.
  - intros q Ht Ho. rewrite Ht, Ho in *. simpl in *.
    by rewrite Hsame2, Hsame1.
Qed.

(** [__exit__] by cases: either it makes no call to the client and
    leaves the store alone, or it makes exactly one upload, of the output
    working file to the output URI, and raises when that upload fails.
    In every case the two temporary names of the session are gone. *)
Lemma exit_run self exc st :
  exists r st',
    Ctx.__exit__ E self exc st = (r, st')
    /\ ((calls st' = calls st /\ store st' = store st
         /\ (r = Ok false
             \/ (exists e, r = Raise e /\ output_local_path self = None
                          /\ exc = None /\ read_only self = false)))
        \/ (exists lp uri sent res,
              exc = None /\ read_only self = false
              /\ output_local_path self = Some lp
              /\ output_s3_uri self = Some uri
              /\ calls st' = (calls st ++ [Upload lp uri sent res])%list
              /\ upload_to_s3 E lp uri st
                 = (Ok res, record_call (Upload lp uri sent res)
                              (set_store (fun _ => store st') st))
              /\ r = if res.1 then Ok false
                     else Raise (IOError ("Failed to upload to S3: " +:+ res.2))))
    /\ (forall p, _temp_file self = Some p -> p <> "" -> fs st' !! p = None)
    /\ (forall p, _output_temp_file self = Some p -> p <> "" -> fs st' !! p = None)
    /\ (_temp_file self = None -> _output_temp_file self = None -> fs st' = fs st).
Proof.
  unfold Ctx.__exit__, exists_opt.
  destruct (bool_decide (exc = None) && negb (read_only self)) eqn:Hgo.
  2: { run_monad.
       destruct (cleanup_run self st) as (st' & -> & Hc & Hs & Ht & Ho & Hsame).
       eexists _, _. split; [reflexivity|].
       repeat split; eauto. intros. apply map_eq. eauto. }
  apply andb_true_iff in Hgo as [Hexc%bool_decide_eq_true Hro%negb_true_iff].
  destruct (opt_truthy (output_s3_uri self)) eqn:Hout.
  2: { run_monad.
       destruct (cleanup_run self st) as (st' & -> & Hc & Hs & Ht & Ho & Hsame).
       eexists _, _. split; [reflexivity|].
       repeat split; eauto. intros. apply map_eq. eauto. }
  destruct (output_local_path self) as [lp|] eqn:Hlp.
  2: { run_monad.
       destruct (cleanup_run self st) as (st' & -> & Hc & Hs & Ht & Ho & Hsame).
       eexists _, _. split; [reflexivity|].
       repeat split; eauto 10. intros. apply map_eq. eauto. }
  run_monad. destruct (Os.path_exists st lp) eqn:Hex.
  2: { destruct (cleanup_run self st) as (st' & -> & Hc & Hs & Ht & Ho & Hsame).
       eexists _, _. split; [reflexivity|].
       repeat split; eauto. intros. apply map_eq. eauto. }
  destruct (output_s3_uri self) as [uri|] eqn:Huri; [|done]. simpl.
  destruct (upload_to_s3_run E lp uri st)
    as (sent & res & st1 & Hup & Hcalls & Hfs & Htmp & _).
  rewrite Hup. destruct res as [ok msg]. simpl.
  assert (Hst1 : st1 = record_call (Upload lp uri sent (ok, msg))
                         (set_store (fun _ => store st1) st)).
  { destruct st1, st. simpl in *. unfold record_call, set_store. simpl. congruence. }
  destruct ok; simpl.
  - destruct (cleanup_run self st1) as (st' & -> & Hc & Hs & Ht & Ho & Hsame).
    eexists _, _. split; [reflexivity|]. split; [right|].
    + exists lp, uri, sent, (true, msg). repeat split; try done; try congruence.
      rewrite Hs, <- Hst1. done.
    + repeat split; eauto. intros. apply map_eq. intros q.
      rewrite Hsame by done. by rewrite Hfs.
  - destruct (cleanup_run self st1) as (st' & -> & Hc & Hs & Ht & Ho & Hsame).
    eexists _, _. split; [reflexivity|]. split; [right|].
    + exists lp, uri, sent, (false, msg). repeat split; try done; try congruence.
      rewrite Hs, <- Hst1. done.
    + repeat split; eauto. intros. apply map_eq. intros q.
      rewrite Hsame by done. by rewrite Hfs.
Qed.

(** [__enter__] fixes the intent and the output URI of the session, and
    calls the client for a download at most. *)
Lemma enter_run self st ctx st1 :
  Ctx.__enter__ E self st = (Ok ctx, st1) ->
  read_only ctx = read_only self
  /\ output_s3_uri ctx = output_s3_uri self
  /\ original_path ctx = original_path self
  /\ store st1 = store st
  /\ Forall (fun c => is_upload c = false) (new_calls st st1).
Proof.
  unfold Ctx.__enter__, Os.copy2. run_monad.
  destruct (is_s3 self) eqn:Hs3.
  - destruct (download_from_s3_run E (original_path self) st)
      as ([[ok msg] lp] & st0 & -> & Hc & Hst & _).
    destruct ok; simpl; [|done].
    destruct (opt_truthy (output_s3_uri self)) eqn:Hout; simpl.
    + destruct (OsPath.splitext _) as [base ext].
      destruct (mkstemp_run (if Py.truthy ext then ext else ".docx") st0)
        as [(p & st' & -> & _ & _ & _ & Hst' & Hc')|[e ->]]; [|done].
      simpl. rewrite Hs3. simpl.
      destruct (opt_truthy lp); simpl.
      * destruct (fs st' !! default "" lp); [|done].
        intros [= <- <-]. simpl. repeat split; try congruence.
        rewrite (new_calls_app st _ [Download (original_path self) (true, msg, lp)])
          by (simpl; congruence).
        by repeat constructor.
      * intros [= <- <-]. simpl. repeat split; try congruence.
        rewrite (new_calls_app st _ [Download (original_path self) (true, msg, lp)])
          by (simpl; congruence).
        by repeat constructor.
    + intros [= <- <-]. simpl. repeat split; try congruence.
      rewrite (new_calls_app st _ [Download (original_path self) (true, msg, lp)])
        by (simpl; congruence).
      by repeat constructor.
  - simpl. destruct (opt_truthy (output_s3_uri self)) eqn:Hout; simpl.
    + destruct (OsPath.splitext _) as [base ext].
      destruct (mkstemp_run (if Py.truthy ext then ext else ".docx") st)
        as [(p & st' & -> & _ & _ & _ & Hst' & Hc')|[e ->]]; [|done].
      simpl. rewrite Hs3. simpl.
      intros [= <- <-]. simpl. repeat split; try congruence.
      rewrite (new_calls_app st _ []) by (rewrite app_nil_r; congruence).
      constructor.
    + intros [= <- <-]. simpl. repeat split; try congruence.
      rewrite (new_calls_app st _ []) by (by rewrite app_nil_r).
      constructor.
Qed.

End SessionFacts.

(** C5. A session opened read-only - on a remote source in particular,
    with or without an explicit output URI - makes no upload: opening calls
    the client for the download only, and closing, from whatever state the
    body left (the working file modified or not, the body failed or not),
    makes no call at all and leaves the store as it is. *)
Theorem read_only_session_never_uploads (E : Env) (filename : string)
    (output : option string) (st st1 : State) (ctx : S3FileContext) :
  Ctx.__enter__ E (Ctx.__init__ E filename true output) st = (Ok ctx, st1) ->
  Forall (fun c => is_upload c = false) (new_calls st st1)
  /\ store st1 = store st
  /\ forall exc st2, exists st3,
       Ctx.__exit__ E ctx exc st2 = (Ok false, st3)
       /\ calls st3 = calls st2
       /\ store st3 = store st2.
Proof.
  intros Henter.
  destruct (enter_run E _ _ _ _ Henter) as (Hro & _ & _ & Hstore & Hcalls).
  repeat split; [done..|].
  intros exc st2.
  destruct (exit_run E ctx exc st2) as (r & st3 & Hexit & Hcases & _).
  exists st3. rewrite Hexit.
  destruct Hcases as [(Hc & Hs & [->|(e & _ & _ & _ & Hrw)])
                     |(lp & uri & sent & res & _ & Hrw & _)].
  - done.
  - rewrite Hro in Hrw. done.
  - rewrite Hro in Hrw. done.
Qed.

Lemma read_only_session_never_uploads_witness :
  Forall (fun c => is_upload c = false) (new_calls st_docs st_report_opened_ro)
  /\ store st_report_opened_ro = store st_docs
  /\ forall exc st2, exists st3,
       Ctx.__exit__ env0 ctx_report_ro exc st2 = (Ok false, st3)
       /\ calls st3 = calls st2
       /\ store st3 = store st2.
Proof.
  apply (read_only_session_never_uploads env0 "s3://bkt/docs/report.docx" None
           st_docs st_report_opened_ro ctx_report_ro).
  vm_compute. reflexivity.
Defined.

(** C6. For a local source opened for writing without an explicit output,
    opening allocates nothing and changes nothing, the working path and the
    path reported to the caller are the original path, and closing - in
    whatever state, after whatever outcome - makes no call to the client,
    leaves the store alone and removes no file: the edit stays in place. *)
Theorem local_read_write_is_in_place (E : Env) (filename : string)
    (output : option string) (st : State) :
  is_s3_uri filename = false ->
  opt_truthy output = false ->
  exists ctx,
    Ctx.__enter__ E (Ctx.__init__ E filename false output) st = (Ok ctx, st)
    /\ local_path ctx = Some filename
    /\ output_local_path ctx = Some filename
    /\ Ctx.get_result_path ctx = filename
    /\ forall exc st2, exists st3,
         Ctx.__exit__ E ctx exc st2 = (Ok false, st3)
         /\ calls st3 = calls st2
         /\ store st3 = store st2
         /\ fs st3 = fs st2.
Proof.
  intros Hlocal Hout.
  unfold Ctx.__enter__, Ctx.__init__. rewrite Hlocal, Hout. run_monad.
  eexists. split; [reflexivity|]. simpl.
  repeat split; try done.
  intros exc st2.
  match goal with |- context [Ctx.__exit__ E ?c exc st2] => set (ctx := c) end.
  destruct (exit_run E ctx exc st2) as (r & st3 & Hexit & Hcases & _ & _ & Hfs).
  exists st3. rewrite Hexit.
  destruct Hcases as [(Hc & Hs & [->|(e & _ & Hlp & _)])
                     |(lp & uri & sent & res & _ & _ & _ & Huri & _)].
  - repeat split; try done. by apply Hfs.
  - done.
  - done.
Qed.

Lemma local_read_write_is_in_place_witness :
  exists ctx,
    Ctx.__enter__ env0 (Ctx.__init__ env0 "a.docx" false None) st_docs = (Ok ctx, st_docs)
    /\ local_path ctx = Some "a.docx"
    /\ output_local_path ctx = Some "a.docx"
    /\ Ctx.get_result_path ctx = "a.docx"
    /\ forall exc st2, exists st3,
         Ctx.__exit__ env0 ctx exc st2 = (Ok false, st3)
         /\ calls st3 = calls st2
         /\ store st3 = store st2
         /\ fs st3 = fs st2.
Proof.
  apply (local_read_write_is_in_place env0 "a.docx" None st_docs); reflexivity.
Defined.

(** ** The merge *)

Section MergeFacts.

Variable E : Env.

Local Arguments upload_to_s3 : simpl never.
Local Arguments download_from_s3 : simpl never.
Local Arguments Os.mkstemp : simpl never.
Local Arguments Os.path_exists : simpl never.
Local Arguments ensure_docx_extension : simpl never.

Lemma source_file_mono st st' f data :
  extends st st' -> store st' = store st ->
  source_file E st f = Some data -> source_file E st' f = Some data.
Proof.
  unfold source_file. intros Hext Hst.
  destruct (is_s3_uri _); [by rewrite Hst|]. apply Hext.
Qed.

(** The loop that resolves the sources: it only downloads, leaves the
    store and the existing files alone, records every file it downloaded
    in [temp_files] (all of them new names of the scratch directory);
    apart from those the disk differs at most by an empty file left by a
    failed download. When it completes, the local path of every source
    holds what the source stood for; when it stops, its message is one
    of failure. *)
Lemma resolve_sources_run srcs : forall ls tf st r tf' st',
  Merge.resolve_sources E srcs ls tf st = (r, tf', st') ->
  store st' = store st
  /\ extends st st'
  /\ (exists l, calls st' = (calls st ++ l)%list
        /\ Forall (fun c => is_upload c = false) l
        /\ forall uri msg p, In (Download uri (true, msg, Some p)) l -> In p tf')
  /\ (exists new, tf' = (tf ++ new)%list
        /\ Forall (fun p => is_tmp_name p = true /\ fs st !! p = None) new
        /\ forall q, fs st' !! q = fs st !! q
                     \/ (fs st !! q = None
                         /\ (In q new \/ fs st' !! q = Some EmptyFile)))
  /\ (forall ls', r = inr ls' ->
        exists lnew, ls' = (ls ++ lnew)%list
          /\ Forall2 (fun f p => forall data,
                        source_file E st f = Some data -> fs st' !! p = Some data)
                     srcs lnew)
  /\ (forall m, r = inl m ->
        Py.startswith m "Failed to " = true
        \/ Py.startswith m "Source document " = true).
Proof.
  induction srcs as [|f rest IH]; intros ls tf st r tf' st'; simpl.
  { intros [= <- <- <-]. split; [done|]. split; [apply extends_refl|].
    split; [exists []; by rewrite app_nil_r|].
    split; [exists []; rewrite app_nil_r; auto|].
    split; [|done].
    intros ls' [= <-]. exists []. by rewrite app_nil_r. }
  destruct (is_s3_uri (ensure_docx_extension f)) eqn:Hs3.
  - destruct (download_from_s3_run E (ensure_docx_extension f) st)
      as ([[ok msg] lp] & st1 & -> & Hc & Hst & Hext & Hok & Hfail).
    destruct ok; simpl.
    + destruct (Hok eq_refl)
        as (p & b & k & o & Hlp & Htmp & Hfresh & Hparse & Hobj & Hfs).
      simpl in Hlp. subst lp. simpl.
      intros Hrest. apply IH in Hrest
        as (Hst' & Hext' & (l & Hc' & Hl & Hin) & (new & Htf & Hnew & Hdisk)
            & Hls & Hmsg).
      split; [congruence|]. split; [eauto using extends_trans|].
      split.
      { exists (Download (ensure_docx_extension f) (true, msg, Some p) :: l).
        split; [rewrite Hc', Hc, <- app_assoc; done|].
        split; [by constructor|].
        intros uri m q [Heq|Hq]; [|by eauto].
        injection Heq as _ _ <-. rewrite Htf. apply in_or_app. left.
        apply in_or_app. right. by left. }
      split.
      { exists (p :: new). split; [rewrite Htf, <- app_assoc; done|].
        split.
        - constructor; [done|].
          eapply Forall_impl; [exact Hnew|]. intros q [? Hq]. split; [done|].
          destruct (fs st !! q) eqn:Hstq; [|done].
          apply Hext in Hstq. congruence.
        - intros q. destruct (decide (q = p)) as [->|Hqp].
          + right. split; [done|]. left. by left.
          + assert (Hq1 : fs st1 !! q = fs st !! q)
              by (rewrite Hfs; by simplify_map_eq).
            destruct (Hdisk q) as [Hq|(Hq & [Hq'|Hq'])].
            * left. congruence.
            * right. split; [congruence|]. left. by right.
            * right. split; [congruence|]. by right. }
      split; [|done].
      intros ls' ->. destruct (Hls _ eq_refl) as (lnew & -> & Hall).
      exists (p :: lnew). split; [by rewrite <- app_assoc|].
      constructor.
      * intros data. unfold source_file. rewrite Hs3, Hparse, Hobj. simpl.
        intros [= <-]. apply Hext'. rewrite Hfs. by simplify_map_eq.
      * eapply Forall2_impl; [exact Hall|]. intros g q Hg data Hdata.
        apply Hg. by eapply source_file_mono.
    + intros [= <- <- <-]. destruct (Hfail eq_refl) as (_ & Hdisk).
      split; [done|]. split; [done|].
      split.
      { eexists. split; [exact Hc|]. split; [by repeat constructor|].
        intros uri m q [?|[]]. simplify_eq. }
      split.
      { exists []. rewrite app_nil_r. split; [done|]. split; [done|].
        intros q. destruct Hdisk as [->|(p & _ & Hp & ->)]; [by left|].
        destruct (decide (q = p)) as [->|Hqp].
        - right. split; [done|]. right. by simplify_map_eq.
        - left. by simplify_map_eq. }
      split; [done|]. intros m [= <-]. by left.
  - destruct (Os.path_exists st (ensure_docx_extension f)) eqn:Hex; simpl.
    + intros Hrest. apply IH in Hrest
        as (Hst' & Hext' & Hcalls & Htfs & Hls & Hmsg).
      repeat split; try done.
      intros ls' ->. destruct (Hls _ eq_refl) as (lnew & -> & Hall).
      exists (ensure_docx_extension f :: lnew). split; [by rewrite <- app_assoc|].
      constructor; [|done].
      intros data. unfold source_file. rewrite Hs3. apply Hext'.
    + intros [= <- <- <-].
      split; [done|]. split; [apply extends_refl|].
      split; [exists []; by rewrite app_nil_r|].
      split; [exists []; rewrite app_nil_r; auto|].
      split; [done|]. intros m [= <-]. right. apply prefix_app.
Qed.

(** The [finally] block of the merge: only the disk changes, and only
    by losing the files listed in [temp_files]. *)
Lemma merge_cleanup_run tf : forall st,
  calls (Merge.cleanup tf st) = calls st
  /\ store (Merge.cleanup tf st) = store st
  /\ (forall q, fs st !! q = None -> fs (Merge.cleanup tf st) !! q = None)
  /\ (forall q, ~ In q tf -> fs (Merge.cleanup tf st) !! q = fs st !! q)
  /\ (forall p, In p tf -> p <> "" -> fs (Merge.cleanup tf st) !! p = None).
Proof.
  induction tf as [|t tf IH]; intros st; simpl; [by repeat split|].
  set (st1 := if Py.truthy t && Os.path_exists st t
              then set_fs (delete t) st else st).
  assert (H1 : calls st1 = calls st /\ store st1 = store st
               /\ (forall q, fs st !! q = None -> fs st1 !! q = None)
               /\ (forall q, q <> t -> fs st1 !! q = fs st !! q)
               /\ (t <> "" -> fs st1 !! t = None)).
  { subst st1. destruct (Py.truthy t) eqn:Ht, (Os.path_exists st t) eqn:Hex;
      simpl; repeat split; try done.
    - intros q Hq. destruct (decide (t = q)); by simplify_map_eq.
    - intros q Hq. by simplify_map_eq.
    - intros _. by simplify_map_eq.
    - intros _. by apply path_exists_false.
    - intros Hne. by apply truthy_true in Hne; congruence.
    - intros Hne. by apply truthy_true in Hne; congruence. }
  destruct H1 as (Hc1 & Hs1 & Hmono1 & Hother1 & Hgone1).
  destruct (IH st1) as (Hc & Hs & Hmono & Hother & Hgone).
  repeat split; try congruence.
  - eauto.
  - intros q Hq. rewrite Hother by tauto. apply Hother1. intros ->. tauto.
  - intros p [->|Hp] Hne; [apply Hmono, Hgone1, Hne|by apply Hgone].
Qed.

(** Building the merged document reads the sources and changes nothing. *)
Lemma merge_loop_state apb ls : forall i t st,
  (Merge.merge_loop E apb i ls t st).2 = st.
Proof.
  induction ls as [|p ls IH]; intros i t st; simpl; [done|].
  unfold bind, Merge.Document_open.
  destruct (fs st !! p) as [[|d|]|]; simpl; done.
Qed.

Lemma foldl_add_body {A} (f : A -> Block) (l : list A) : forall t,
  body (foldl (fun d x => {| body := (body d ++ [f x])%list |}) t l)
  = (body t ++ map f l)%list.
Proof.
  induction l as [|x l IH]; intros t; simpl; [by rewrite app_nil_r|].
  rewrite IH. simpl. by rewrite <- app_assoc.
Qed.

Lemma merge_source_body apb i src t :
  body (Merge.merge_source E apb i src t)
  = (body t ++ (if bool_decide (0 < i)%nat then separator apb else [])
     ++ source_content E src)%list.
Proof.
  unfold Merge.merge_source, Merge.copy_table, source_content, separator.
  rewrite (foldl_add_body BTable), (foldl_add_body (fun p => BParagraph _)).
  destruct apb, (bool_decide (0 < i)%nat); simpl;
    rewrite <- ?app_assoc; simpl; by rewrite ?app_nil_r.
Qed.

Lemma merge_loop_later apb ls docs st :
  Forall2 (fun p d => fs st !! p = Some (DocxFile d)) ls docs ->
  forall i t, (0 < i)%nat ->
    exists t',
      Merge.merge_loop E apb i ls t st = (Ok t', st)
      /\ body t' = (body t ++ concat (map (fun d => separator apb ++ source_content E d)
                                          docs))%list.
Proof.
  induction 1 as [|p d ls docs Hp _ IH]; intros i t Hi; simpl.
  { eexists. split; [reflexivity|]. by rewrite app_nil_r. }
  unfold bind, Merge.Document_open. rewrite Hp.
  destruct (IH (S i) (Merge.merge_source E apb i d t)) as (t' & -> & Hbody); [lia|].
  exists t'. split; [done|].
  rewrite Hbody, merge_source_body, bool_decide_eq_true_2 by done.
  by rewrite <- !app_assoc.
Qed.

Lemma merge_loop_run apb ls docs st :
  Forall2 (fun p d => fs st !! p = Some (DocxFile d)) ls docs ->
  exists t',
    Merge.merge_loop E apb 0 ls Docx_.Document_new st = (Ok t', st)
    /\ body t' = merged_body E apb docs.
Proof.
  destruct 1 as [|p d ls docs Hp Hrest]; simpl.
  { by eexists. }
  unfold bind, Merge.Document_open. rewrite Hp.
  destruct (merge_loop_later apb _ _ _ Hrest 1%nat
              (Merge.merge_source E apb 0 d Docx_.Document_new))
    as (t' & -> & Hbody); [lia|].
  exists t'. split; [done|].
  rewrite Hbody, merge_source_body. simpl. done.
Qed.

(** No copied paragraph or table holds a page break. *)
Lemma copy_runs_no_page_break rs news :
  existsb run_page_break news = false ->
  existsb run_page_break (Merge.copy_runs rs news) = false.
Proof.
  revert news. induction rs as [|r rs IH]; intros [|n news]; simpl; try done.
  intros [Hn Hnews]%orb_false_iff. by rewrite Hn, IH.
Qed.

Lemma source_content_no_page_break d :
  Forall (fun b => Docx_.is_page_break b = false) (source_content E d).
Proof.
  unfold source_content. apply Forall_app. split.
  - apply Forall_forall. intros b (p & <- & _)%list_elem_of_In%in_map_iff. simpl.
    apply copy_runs_no_page_break. by destruct (Py.truthy _).
  - apply Forall_forall. by intros b (t & <- & _)%list_elem_of_In%in_map_iff.
Qed.

Lemma count_source_content d :
  length (filter (fun b => Docx_.is_page_break b = true) (source_content E d)) = 0%nat.
Proof.
  induction (source_content_no_page_break d) as [|b l Hb _ IH]; [done|].
  rewrite filter_cons_False; [done|]. by rewrite Hb.
Qed.

Lemma count_later_sources apb docs :
  length (filter (fun b => Docx_.is_page_break b = true)
            (concat (map (fun d => (separator apb ++ source_content E d)%list) docs)))
  = if apb then length docs else 0%nat.
Proof.
  induction docs as [|d docs IH]; simpl; [by destruct apb|].
  rewrite !filter_app, !length_app, IH, count_source_content.
  by destruct apb.
Qed.

Lemma count_merged_body apb docs :
  Docx_.count_page_breaks {| body := merged_body E apb docs |}
  = if apb then (length docs - 1)%nat else 0%nat.
Proof.
  unfold Docx_.count_page_breaks. destruct docs as [|d docs]; simpl.
  { by destruct apb. }
  rewrite filter_app, length_app, count_source_content, count_later_sources.
  destruct apb; simpl; lia.
Qed.

(** The tail of the [try] block when every source opens as a document. *)
Lemma build_and_commit_run tgt (is3 : bool) n ls lt apb st docs :
  Forall2 (fun p d => fs st !! p = Some (DocxFile d)) ls docs ->
  let doc := {| body := merged_body E apb docs |} in
  exists r st',
    Merge.build_and_commit E tgt is3 n ls lt apb st = (Ok r, st')
    /\ fs st' = <[lt := DocxFile doc]> (fs st)
    /\ if is3 then
         exists sent res,
           calls st' = (calls st ++ [Upload lt tgt sent res])%list
           /\ r = (if res.1 then Merge.success_message n tgt
                   else "Failed to upload merged document to S3: " +:+ res.2)
           /\ (res.1 = true -> exists b k,
                 parse_s3_uri E tgt = Ok (b, k)
                 /\ store st' = <[(b, k) := {| content := DocxFile doc;
                                               content_type := upload_content_type lt |}]>
                                  (store st))
       else r = Merge.success_message n tgt
            /\ calls st' = calls st /\ store st' = store st.
Proof.
  intros Hdocs doc. unfold Merge.build_and_commit, Merge.Document_save.
  unfold bind at 1.
  destruct (merge_loop_run apb ls docs st Hdocs) as ([b'] & -> & Hbody).
  simpl in Hbody. subst b'. run_monad.
  destruct is3; [|by eexists _, _].
  set (st1 := set_fs _ st).
  destruct (upload_to_s3_run E lt tgt st1)
    as (sent & [ok msg] & st' & -> & Hc & Hfs & _ & _ & _ & Hok).
  simpl in *. destruct ok; simpl.
  - eexists _, _. split; [reflexivity|]. split; [done|].
    exists sent, (true, msg). repeat split; try done.
    intros _. destruct (Hok eq_refl) as (b & k & d & Hp & Hd & Hst).
    exists b, k. split; [done|]. rewrite Hst. subst st1. simpl in Hd.
    rewrite lookup_insert_eq in Hd. by injection Hd as <-.
  - eexists _, _. split; [reflexivity|]. split; [done|].
    exists sent, (false, msg). repeat split; done.
Qed.

(** The calls of the [try] block, the downloads being those of the loop
    that resolves the sources. *)
Lemma try_block_calls_resolved tgt is3 srcs apb st r tf st1 :
  Merge.try_block E tgt is3 srcs apb st = (r, tf, st1) ->
  exists l,
    new_calls st (Merge.resolve_sources E srcs [] [] st).2 = l
    /\ Forall (fun c => is_upload c = false) l
    /\ (calls st1 = (calls st ++ l)%list /\ store st1 = store st
        \/ exists lt sent res,
             calls st1 = (calls st ++ l ++ [Upload lt tgt sent res])%list
             /\ r = Ok (if res.1 then Merge.success_message (length srcs) tgt
                        else "Failed to upload merged document to S3: " +:+ res.2)).
Proof.
  unfold Merge.try_block.
  destruct (Merge.resolve_sources E srcs [] [] st) as [[[m|ls] tf0] st0] eqn:Hres.
  all: apply resolve_sources_run in Hres
      as (Hst0 & _ & (l & Hc0 & Hl & _) & _).
  all: simpl; rewrite (new_calls_app st st0 l Hc0).
  { intros [= <- <- <-]. exists l. split; [done|]. split; [done|]. by left. }
  assert (Hbuild : forall lt st2 r' st3,
    calls st2 = calls st0 -> store st2 = store st0 ->
    Merge.build_and_commit E tgt is3 (length srcs) ls lt apb st2 = (r', st3) ->
    calls st3 = (calls st ++ l)%list /\ store st3 = store st
    \/ exists lt sent res,
         calls st3 = (calls st ++ l ++ [Upload lt tgt sent res])%list
         /\ r' = Ok (if res.1 then Merge.success_message (length srcs) tgt
                     else "Failed to upload merged document to S3: " +:+ res.2)).
  { intros lt st2 r' st3 Hc2 Hs2. unfold Merge.build_and_commit, Merge.Document_save.
    unfold bind at 1.
    pose proof (merge_loop_state apb ls 0%nat Docx_.Document_new st2) as Hsame.
    destruct (Merge.merge_loop E apb 0 ls Docx_.Document_new st2) as [[t'|e] st2'].
    2: { simpl in Hsame. subst st2'. intros [= <- <-]. left. split; congruence. }
    simpl in Hsame. subst st2'. run_monad.
    destruct is3.
    2: { intros [= <- <-]. left. simpl. split; congruence. }
    set (st2s := set_fs _ st2).
    destruct (upload_to_s3_run E lt tgt st2s)
      as (sent & [ok msg] & st' & -> & Hc & _).
    simpl in Hc.
    destruct ok; simpl; intros [= <- <-]; right; exists lt, sent;
      [exists (true, msg)|exists (false, msg)];
      (split; [rewrite Hc, Hc2, Hc0, <- app_assoc; done|done]). }
  destruct is3.
  - destruct (mkstemp_run ".docx" st0)
      as [(p & st2 & -> & _ & _ & _ & Hs2 & Hc2)|[e ->]].
    + destruct (Merge.build_and_commit _ _ _ _ _ _ _ st2) as [r' st3] eqn:Hb.
      intros [= <- <- <-]. exists l. split; [done|]. split; [done|]. by eapply Hbuild.
    + intros [= <- <- <-]. exists l. split; [done|]. split; [done|].
      left. split; congruence.
  - destruct (Merge.build_and_commit _ _ _ _ _ _ _ st0) as [r' st3] eqn:Hb.
    intros [= <- <- <-]. exists l. split; [done|]. split; [done|]. by eapply Hbuild.
Qed.

(** The calls of the [try] block: downloads, then at most one upload, of
    the target, whose result decides the message. *)
Lemma try_block_calls tgt is3 srcs apb st r tf st1 :
  Merge.try_block E tgt is3 srcs apb st = (r, tf, st1) ->
  exists l,
    Forall (fun c => is_upload c = false) l
    /\ (calls st1 = (calls st ++ l)%list /\ store st1 = store st
        \/ exists lt sent res,
             calls st1 = (calls st ++ l ++ [Upload lt tgt sent res])%list
             /\ r = Ok (if res.1 then Merge.success_message (length srcs) tgt
                        else "Failed to upload merged document to S3: " +:+ res.2)).
Proof.
  intros (l & _ & Hl & Hcases)%try_block_calls_resolved. eauto.
Qed.

Lemma merge_documents_unfold target srcs apb st :
  let tgt := ensure_docx_extension target in
  (exists m, Merge.merge_documents E target srcs apb st
             = ("Cannot create target document: " +:+ m, st))
  \/ exists r tf st1,
       Merge.try_block E tgt (is_s3_uri tgt) srcs apb st = (r, tf, st1)
       /\ Merge.merge_documents E target srcs apb st
          = (match r with
             | Ok message => message
             | Raise e => "Failed to merge documents: " +:+ str_exn e
             end, Merge.cleanup tf st1).
Proof.
  intros tgt. unfold Merge.merge_documents. fold tgt.
  destruct (if negb (is_s3_uri tgt) then check_file_writeable E tgt st else (true, ""))
    as [[] m]; simpl; [right|left; eauto].
  destruct (Merge.try_block E tgt (is_s3_uri tgt) srcs apb st) as [[r tf] st1].
  eauto.
Qed.

End MergeFacts.

Lemma new_calls_nil st st' : calls st' = calls st -> new_calls st st' = [].
Proof. intros H. apply new_calls_app. by rewrite app_nil_r. Qed.

(** C3. A failed upload is never swallowed. Whenever closing a session
    makes an upload that fails, [__exit__] raises [IOError] with the
    message of the failure; whenever a merge makes an upload that fails,
    [merge_documents] returns the failure message instead of the success
    message. *)
Theorem upload_failure_is_surfaced (E : Env) (lp uri : string)
    (sent : option (string * string * string)) (msg : string) :
  (forall self exc st,
      In (Upload lp uri sent (false, msg))
         (new_calls st (Ctx.__exit__ E self exc st).2) ->
      (Ctx.__exit__ E self exc st).1
      = Raise (IOError ("Failed to upload to S3: " +:+ msg)))
  /\ (forall target sources add_page_breaks st,
        In (Upload lp uri sent (false, msg))
           (new_calls st (Merge.merge_documents E target sources add_page_breaks st).2) ->
        (Merge.merge_documents E target sources add_page_breaks st).1
        = "Failed to upload merged document to S3: " +:+ msg).
Proof.
  split.
  - intros self exc st.
    destruct (exit_run E self exc st) as (r & st' & -> & Hcases & _). simpl.
    destruct Hcases as [(Hc & _)
                       |(lp' & uri' & sent' & res & _ & _ & _ & _ & Hc & _ & ->)].
    + by rewrite (new_calls_nil _ _ Hc).
    + rewrite (new_calls_app _ _ _ Hc). intros [Heq|[]].
      by injection Heq as -> -> -> ->.
  - intros target sources apb st.
    destruct (merge_documents_unfold E target sources apb st)
      as [[m ->]|(r & tf & st1 & Htry & ->)]; simpl.
    { by rewrite (new_calls_nil st st eq_refl). }
    destruct (merge_cleanup_run tf st1) as (Hc & _).
    apply try_block_calls in Htry
      as (l & Hl & [[Hc1 _]|(lt & sent' & res & Hc1 & ->)]).
    + rewrite (new_calls_app st _ l) by congruence.
      intros Hin. rewrite Forall_forall in Hl.
      apply list_elem_of_In, Hl in Hin. done.
    + rewrite (new_calls_app st _ (l ++ [Upload lt (ensure_docx_extension target) sent' res]))
        by congruence.
      intros [Hin|[Heq|[]]]%in_app_or.
      * rewrite Forall_forall in Hl. apply list_elem_of_In, Hl in Hin. done.
      * by injection Heq as -> -> -> ->.
Qed.

Example enter_report :
  Ctx.__enter__ env_put_denied
    (Ctx.__init__ env_put_denied "s3://bkt/docs/report.docx" false None) st_docs
  = (Ok ctx_report, st_report_opened).
Proof. vm_compute. reflexivity. Qed.

Lemma upload_failure_is_surfaced_witness :
  (Ctx.__exit__ env_put_denied ctx_report None st_report_opened).1
  = Raise (IOError ("Failed to upload to S3: "
             +:+ "Access denied uploading to S3: s3://bkt/docs/report_edited_1733318400.docx"))
  /\ (Merge.merge_documents env_put_denied "s3://bkt/merged"
        ["a.docx"; "s3://bkt/docs/report"] true st_docs).1
     = "Failed to upload merged document to S3: "
         +:+ "Access denied uploading to S3: s3://bkt/merged.docx".
Proof.
  split.
  - apply (proj1 (upload_failure_is_surfaced env_put_denied
                    "/tmp/tmp1.docx" "s3://bkt/docs/report_edited_1733318400.docx"
                    (Some ("bkt", "docs/report_edited_1733318400.docx", docx_content_type))
                    "Access denied uploading to S3: s3://bkt/docs/report_edited_1733318400.docx")).
    vm_compute. left. reflexivity.
  - apply (proj2 (upload_failure_is_surfaced env_put_denied
                    "/tmp/tmp1.docx" "s3://bkt/merged.docx"
                    (Some ("bkt", "merged.docx", docx_content_type))
                    "Access denied uploading to S3: s3://bkt/merged.docx")).
    vm_compute. right. left. reflexivity.
Defined.

Lemma is_tmp_name_nonempty p : is_tmp_name p = true -> p <> "".
Proof. by intros H ->. Qed.

Section MergeAbortFacts.

Variable E : Env.

Local Arguments upload_to_s3 : simpl never.
Local Arguments download_from_s3 : simpl never.
Local Arguments Os.mkstemp : simpl never.
Local Arguments Os.path_exists : simpl never.
Local Arguments ensure_docx_extension : simpl never.

(** A download that fails stops the loop that resolves the sources, with
    the message of that download. *)
Lemma resolve_sources_failed_download srcs :
  forall ls tf st r tf' st' uri msg lp,
  Merge.resolve_sources E srcs ls tf st = (r, tf', st') ->
  In (Download uri (false, msg, lp)) (new_calls st st') ->
  r = inl ("Failed to download " +:+ uri +:+ " from S3: " +:+ msg).
Proof.
  induction srcs as [|f rest IH]; intros ls tf st r tf' st' uri msg lp; simpl.
  { intros [= <- <- <-]. by rewrite (new_calls_nil st st eq_refl). }
  destruct (is_s3_uri (ensure_docx_extension f)) eqn:Hs3.
  - destruct (download_from_s3_run E (ensure_docx_extension f) st)
      as ([[ok msg0] lp0] & st1 & -> & Hc & _).
    destruct ok; simpl.
    + intros Hrest.
      destruct (resolve_sources_run E _ _ _ _ _ _ _ Hrest)
        as (_ & _ & (l & Hc' & _) & _).
      rewrite (new_calls_app st st' (Download (ensure_docx_extension f)
                                       (true, msg0, lp0) :: l))
        by (rewrite Hc', Hc, <- app_assoc; done).
      intros [Heq|Hin]; [discriminate Heq|].
      eapply IH; [exact Hrest|]. by rewrite (new_calls_app st1 st' l Hc').
    + intros [= <- <- <-]. rewrite (new_calls_app _ _ _ Hc).
      intros [Heq|[]]. by injection Heq as -> -> ->.
  - destruct (Os.path_exists st (ensure_docx_extension f)) eqn:Hex; simpl.
    + apply IH.
    + intros [= <- <- <-]. by rewrite (new_calls_nil st st eq_refl).
Qed.

(** A download of the merge that fails is the last call the merge makes:
    the resolution stops there, and the merge returns its message. *)
Lemma failed_download_stops_the_merge target sources apb st uri msg lp :
  In (Download uri (false, msg, lp))
     (new_calls st (Merge.merge_documents E target sources apb st).2) ->
  (Merge.resolve_sources E sources [] [] st).1.1
  = inl ("Failed to download " +:+ uri +:+ " from S3: " +:+ msg)
  /\ (Merge.merge_documents E target sources apb st).1
     = "Failed to download " +:+ uri +:+ " from S3: " +:+ msg.
Proof.
  destruct (merge_documents_unfold E target sources apb st)
    as [[m ->]|(r & tf & st1 & Htry & ->)]; simpl.
  { by rewrite (new_calls_nil st st eq_refl). }
  destruct (merge_cleanup_run tf st1) as (Hc & _).
  unfold new_calls. rewrite Hc. fold (new_calls st st1).
  pose proof Htry as Hcalls.
  apply try_block_calls_resolved in Hcalls
    as (l & Hl & Hup & Hcases).
  intros Hin.
  assert (Hinl : In (Download uri (false, msg, lp)) l).
  { destruct Hcases as [[Hc1 _]|(lt & sent & res & Hc1 & _)].
    - by rewrite (new_calls_app st st1 l Hc1) in Hin.
    - rewrite (new_calls_app st st1 _ Hc1) in Hin.
      apply in_app_or in Hin as [Hin|[Heq|[]]]; [done|discriminate Heq]. }
  subst l. unfold Merge.try_block in Htry.
  destruct (Merge.resolve_sources E sources [] [] st) as [[r0 tf0] st0] eqn:Hres.
  simpl in Hinl.
  apply (resolve_sources_failed_download _ _ _ _ _ _ _ _ _ _ Hres) in Hinl.
  subst r0. injection Htry as <- <- <-. done.
Qed.

(** A successful download met no fault of the store. *)
Lemma successful_download_met_no_fault uri st msg lp st' b k :
  download_from_s3 E uri None st = (Ok (true, msg, lp), st') ->
  parse_s3_uri E uri = Ok (b, k) ->
  get_fault E b k = None.
Proof.
  unfold download_from_s3, s3_download_file. run_monad. intros Hrun Hparse.
  rewrite Hparse in Hrun. simpl in Hrun.
  destruct (OsPath.splitext (OsPath.basename k)) as [base ext].
  destruct (mkstemp_run ext st)
    as [(p & st1 & Hmk & _)|[e Hmk]]; rewrite Hmk in Hrun.
  2: { revert Hrun. handler_cases e; intros Hrun; discriminate Hrun. }
  destruct (get_fault E b k) as [e|]; [|done].
  revert Hrun. handler_cases e; intros Hrun; discriminate Hrun.
Qed.

(** When the resolution stops: a source that cannot be resolved stops it,
    whatever the sources before it. *)
Lemma unresolvable_source_stops_the_resolution sources : forall ls tf st,
  Exists (unresolvable E st) sources ->
  exists m, (Merge.resolve_sources E sources ls tf st).1.1 = inl m.
Proof.
  induction sources as [|f rest IH]; intros ls tf st Hex.
  { by apply Exists_nil in Hex. }
  simpl. unfold unresolvable in Hex.
  destruct (is_s3_uri (ensure_docx_extension f)) eqn:Hs3.
  - destruct (download_from_s3_run E (ensure_docx_extension f) st)
      as ([[ok msg] lp] & st1 & Hrun & _ & Hst & _ & Hok & _).
    rewrite Hrun. destruct ok; simpl; [|eauto].
    destruct (Hok eq_refl) as (p & b & k & o & _ & Htmp & _ & Hparse & Hobj & Hfs).
    pose proof (successful_download_met_no_fault _ _ _ _ _ _ _ Hrun Hparse) as Hnf.
    apply IH. apply Exists_cons in Hex as [Hnone|Hex].
    { cbv zeta in Hnone. rewrite Hs3, Hparse, Hnf, Hobj in Hnone.
      destruct Hnone as [[e He]|Hnone]; done. }
    eapply Exists_impl; [exact Hex|]. intros g. unfold unresolvable. cbv zeta. intros Hg.
    destruct (is_s3_uri (ensure_docx_extension g)).
    + destruct (parse_s3_uri E _) as [[b' k']|]; [|done]. by rewrite Hst.
    + destruct Hg as [Hg Hgtmp]. split; [|done].
      rewrite Hfs, lookup_insert_ne; [done|]. intros ->. congruence.
  - destruct (Os.path_exists st (ensure_docx_extension f)) eqn:Hthere; simpl; [|eauto].
    apply IH. apply Exists_cons in Hex as [Hnone|Hex]; [|done].
    cbv zeta in Hnone. rewrite Hs3 in Hnone. destruct Hnone as [Hnone _].
    apply path_exists_true in Hthere.
    rewrite Hnone in Hthere. by destruct Hthere.
Qed.

End MergeAbortFacts.

(** The messages of failure are not the message of success. *)
Lemma failure_is_not_success m n tgt :
  Py.startswith m "Failed to " = true
  \/ Py.startswith m "Source document " = true
  \/ Py.startswith m "Cannot " = true ->
  m <> Merge.success_message n tgt.
Proof.
  intros H ->. unfold Merge.success_message in H.
  destruct H as [H|[H|H]]; vm_compute in H; discriminate H.
Qed.

(** The merge once the resolution has stopped: the store is left as it
    was and no upload is made; every path holds what it held before, apart
    from an empty file that a failed download may leave behind; the file
    of every source downloaded so far is gone. The message returned is
    the one of the resolution (or of the refused target). *)
Lemma stopped_resolution_aborts_the_merge (E : Env) (target : string)
    (sources : list string) (add_page_breaks : bool) (st : State) (m : string) :
  (Merge.resolve_sources E sources [] [] st).1.1 = inl m ->
  let res := (Merge.merge_documents E target sources add_page_breaks st).1 in
  let st' := (Merge.merge_documents E target sources add_page_breaks st).2 in
  store st' = store st
  /\ Forall (fun c => is_upload c = false) (new_calls st st')
  /\ (forall q, fs st' !! q = fs st !! q
                \/ (fs st !! q = None /\ fs st' !! q = Some EmptyFile))
  /\ (forall uri msg p,
        In (Download uri (true, msg, Some p)) (new_calls st st') -> fs st' !! p = None)
  /\ (res = m \/ exists e, res = "Cannot create target document: " +:+ e).
Proof.
  intros Hfail res st'. subst res st'.
  destruct (merge_documents_unfold E target sources add_page_breaks st)
    as [[e ->]|(r & tf & st1 & Htry & ->)]; simpl.
  { rewrite (new_calls_nil st st eq_refl). repeat split; eauto. by intros ??? []. }
  unfold Merge.try_block in Htry.
  destruct (Merge.resolve_sources E sources [] [] st) as [[[m'|ls] tf0] st0] eqn:Hres;
    simpl in Hfail; [|done].
  injection Hfail as ->. injection Htry as <- <- <-.
  apply resolve_sources_run in Hres
    as (Hst0 & _ & (l & Hc0 & Hl & Hin) & (new & Htf & Hnew & Hdisk) & _).
  simpl in Htf. subst tf0.
  destruct (merge_cleanup_run new st0) as (Hc & Hs & Hmono & Hother & Hgone).
  rewrite (new_calls_app st _ l) by congruence.
  rewrite Forall_forall in Hnew.
  repeat split; [congruence|done| | |by left].
  - intros q. destruct (decide (q ∈ new)) as [Hq|Hq].
    + left. destruct (Hnew q Hq) as [Htmp Hfresh].
      rewrite Hfresh. apply Hgone; [by apply list_elem_of_In|].
      by apply is_tmp_name_nonempty.
    + rewrite Hother by (by rewrite <- list_elem_of_In).
      destruct (Hdisk q) as [?|(? & [Hq'|?])]; [by left| |by right].
      by apply list_elem_of_In in Hq'.
  - intros uri msg p Hp. apply Hin in Hp.
    apply Hgone; [done|]. apply is_tmp_name_nonempty.
    apply list_elem_of_In in Hp. by destruct (Hnew p Hp).
Qed.


(** C4. When the resolution of some source fails - a download of the
    merge returns a failure, whatever its cause, or some source cannot be
    resolved (a local file that is missing, an object that is missing or
    that the store refuses, a URI that does not parse) - the merge
    aborts: the store is left as it was and no upload is made; no content
    is written to the disk - every path holds what it held before, apart
    from an empty file that a failed download may leave behind; the file
    of every source downloaded so far is gone; and the answer is not the
    message of success: it is the message of the download that failed,
    when one did. *)
Theorem merge_aborts_when_a_source_fails (E : Env) (target : string)
    (sources : list string) (add_page_breaks : bool) (st : State) :
  let res := (Merge.merge_documents E target sources add_page_breaks st).1 in
  let st' := (Merge.merge_documents E target sources add_page_breaks st).2 in
  (exists uri msg lp, In (Download uri (false, msg, lp)) (new_calls st st'))
  \/ Exists (unresolvable E st) sources ->
  store st' = store st
  /\ Forall (fun c => is_upload c = false) (new_calls st st')
  /\ (forall q, fs st' !! q = fs st !! q
                \/ (fs st !! q = None /\ fs st' !! q = Some EmptyFile))
  /\ (forall uri msg p,
        In (Download uri (true, msg, Some p)) (new_calls st st') -> fs st' !! p = None)
  /\ res <> Merge.success_message (length sources) (ensure_docx_extension target)
  /\ (forall uri msg lp,
        In (Download uri (false, msg, lp)) (new_calls st st') ->
        res = "Failed to download " +:+ uri +:+ " from S3: " +:+ msg).
Proof.
  intros res st' Hfail. subst res st'.
  assert (Hstop : exists m, (Merge.resolve_sources E sources [] [] st).1.1 = inl m).
  { destruct Hfail as [(uri & msg & lp & Hin)|Hex].
    - apply failed_download_stops_the_merge in Hin as [Hin _]. eauto.
    - by apply unresolvable_source_stops_the_resolution. }
  destruct Hstop as [m Hm].
  destruct (stopped_resolution_aborts_the_merge E target sources add_page_breaks st m Hm)
    as (Hstore & Hup & Hdisk & Hgone & Hres).
  split; [done|]. split; [done|]. split; [done|]. split; [done|].
  split.
  - apply failure_is_not_success.
    destruct Hres as [->|[e ->]]; [|right; right; reflexivity].
    destruct (Merge.resolve_sources E sources [] [] st) as [[r tf] st0] eqn:Hrun.
    simpl in Hm. subst r.
    apply resolve_sources_run in Hrun as (_ & _ & _ & _ & _ & Hmsg).
    destruct (Hmsg m eq_refl); auto.
  - intros uri msg lp Hin. by apply failed_download_stops_the_merge in Hin as [_ Hin].
Qed.

Lemma merge_aborts_when_a_source_fails_witness :
  (let res := (Merge.merge_documents env0 "s3://bkt/merged"
                 ["s3://bkt/docs/report"; "s3://bkt/docs/absent"] true st_docs).1 in
   let st' := (Merge.merge_documents env0 "s3://bkt/merged"
                 ["s3://bkt/docs/report"; "s3://bkt/docs/absent"] true st_docs).2 in
   store st' = store st_docs
   /\ Forall (fun c => is_upload c = false) (new_calls st_docs st')
   /\ (forall q, fs st' !! q = fs st_docs !! q
                 \/ (fs st_docs !! q = None /\ fs st' !! q = Some EmptyFile))
   /\ (forall uri msg p,
         In (Download uri (true, msg, Some p)) (new_calls st_docs st') -> fs st' !! p = None)
   /\ res <> Merge.success_message 2 (ensure_docx_extension "s3://bkt/merged")
   /\ (forall uri msg lp,
         In (Download uri (false, msg, lp)) (new_calls st_docs st') ->
         res = "Failed to download " +:+ uri +:+ " from S3: " +:+ msg))
  /\ (let res := (Merge.merge_documents env_get_denied "out"
                    ["s3://bkt/docs/report"; "missing"] true st_docs).1 in
      let st' := (Merge.merge_documents env_get_denied "out"
                    ["s3://bkt/docs/report"; "missing"] true st_docs).2 in
      store st' = store st_docs
      /\ Forall (fun c => is_upload c = false) (new_calls st_docs st')
      /\ (forall q, fs st' !! q = fs st_docs !! q
                    \/ (fs st_docs !! q = None /\ fs st' !! q = Some EmptyFile))
      /\ (forall uri msg p,
            In (Download uri (true, msg, Some p)) (new_calls st_docs st') ->
            fs st' !! p = None)
      /\ res <> Merge.success_message 2 (ensure_docx_extension "out")
      /\ (forall uri msg lp,
            In (Download uri (false, msg, lp)) (new_calls st_docs st') ->
            res = "Failed to download " +:+ uri +:+ " from S3: " +:+ msg)).
Proof.
  split.
  - apply (merge_aborts_when_a_source_fails env0 "s3://bkt/merged"
             ["s3://bkt/docs/report"; "s3://bkt/docs/absent"] true st_docs).
    left. exists "s3://bkt/docs/absent.docx",
                 "S3 object not found: s3://bkt/docs/absent.docx", None.
    vm_compute. right. left. reflexivity.
  - apply (merge_aborts_when_a_source_fails env_get_denied "out"
             ["s3://bkt/docs/report"; "missing"] true st_docs).
    right. apply Exists_cons_tl, Exists_cons_hd. vm_compute. split; reflexivity.
Defined.

Example merge_abort_on_a_missing_object :
  Merge.merge_documents env0 "s3://bkt/merged"
    ["s3://bkt/docs/report"; "s3://bkt/docs/absent"] true st_docs
  = ("Failed to download s3://bkt/docs/absent.docx from S3: "
       +:+ "S3 object not found: s3://bkt/docs/absent.docx",
     {| fs := <["/tmp/tmp1.docx" := EmptyFile]> (fs st_docs);
        store := store st_docs;
        tmp_next := 2;
        calls := [Download "s3://bkt/docs/report.docx"
                    (true, "Downloaded from S3", Some "/tmp/tmp0.docx");
                  Download "s3://bkt/docs/absent.docx"
                    (false, "S3 object not found: s3://bkt/docs/absent.docx", None)] |}).
Proof. vm_compute. reflexivity. Qed.

Example merge_abort_on_a_denied_download :
  Merge.merge_documents env_get_denied "s3://bkt/merged"
    ["a.docx"; "s3://bkt/docs/report"] true st_docs
  = ("Failed to download s3://bkt/docs/report.docx from S3: "
       +:+ "Access denied to S3 object: s3://bkt/docs/report.docx",
     {| fs := <["/tmp/tmp0.docx" := EmptyFile]> (fs st_docs);
        store := store st_docs;
        tmp_next := 1;
        calls := [Download "s3://bkt/docs/report.docx"
                    (false, "Access denied to S3 object: s3://bkt/docs/report.docx",
                     None)] |}).
Proof. vm_compute. reflexivity. Qed.

Example merge_abort_releases_download :
  new_calls st_docs (Merge.merge_documents env0 "s3://bkt/merged"
                       ["s3://bkt/docs/report"; "missing"] true st_docs).2
  = [Download "s3://bkt/docs/report.docx" (true, "Downloaded from S3", Some "/tmp/tmp0.docx")]
  /\ fs (Merge.merge_documents env0 "s3://bkt/merged"
           ["s3://bkt/docs/report"; "missing"] true st_docs).2 = fs st_docs.
Proof. split; vm_compute; reflexivity. Qed.

Lemma resolved_sources_hold_documents E st st0 sources docs ls :
  Forall2 (fun f d => source_file E st f = Some (DocxFile d)) sources docs ->
  Forall2 (fun f p => forall data,
             source_file E st f = Some data -> fs st0 !! p = Some data)
          sources ls ->
  Forall2 (fun p d => fs st0 !! p = Some (DocxFile d)) ls docs.
Proof.
  intros Hdocs. revert ls.
  induction Hdocs as [|f d sources docs Hf _ IH]; intros ls Hls.
  - apply Forall2_nil_inv_l in Hls as ->. constructor.
  - apply Forall2_cons_inv_l in Hls as (p & ls' & Hp & Hls' & ->).
    constructor; eauto.
Qed.

(** C7. A merge that succeeds commits, at its target, the document made of
    the content of the sources in the given order, with a page break
    immediately before the content of each source after the first when
    page breaks are asked for and none otherwise. The content copied from
    a source holds no page break, so with [N] sources the page breaks
    inserted number [N - 1], and none without the option. *)
Theorem merge_inserts_page_breaks_between_sources (E : Env) (target : string)
    (sources : list string) (add_page_breaks : bool) (st : State) (docs : list Docx) :
  Forall2 (fun f d => source_file E st f = Some (DocxFile d)) sources docs ->
  is_tmp_name (ensure_docx_extension target) = false ->
  (Merge.merge_documents E target sources add_page_breaks st).1
  = Merge.success_message (length sources) (ensure_docx_extension target) ->
  committed E (Merge.merge_documents E target sources add_page_breaks st).2 target
  = Some (DocxFile {| body := merged_body E add_page_breaks docs |})
  /\ Docx_.count_page_breaks {| body := merged_body E true docs |}
     = (length sources - 1)%nat
  /\ Docx_.count_page_breaks {| body := merged_body E false docs |} = 0%nat
  /\ Forall (fun d => Forall (fun b => Docx_.is_page_break b = false)
                             (source_content E d)) docs.
Proof.
  intros Hdocs Htgt Hres.
  split; [|split; [|split]].
  2: { rewrite count_merged_body. by rewrite (Forall2_length _ _ _ Hdocs). }
  2: { by rewrite count_merged_body. }
  2: { apply Forall_forall. intros d _. apply source_content_no_page_break. }
  revert Hres.
  destruct (merge_documents_unfold E target sources add_page_breaks st)
    as [[e ->]|(r & tf & st1 & Htry & ->)]; simpl.
  { intros Hres. exfalso. eapply failure_is_not_success; [|exact Hres].
    right. right. reflexivity. }
  set (tgt := ensure_docx_extension target) in *.
  unfold Merge.try_block in Htry.
  destruct (Merge.resolve_sources E sources [] [] st) as [[[m|ls] tf0] st0] eqn:Hresolve.
  all: apply resolve_sources_run in Hresolve
      as (Hst0 & Hext0 & _ & (new & Htf & Hnew & _) & Hls & Hmsg).
  { injection Htry as <- <- <-. intros Hres. exfalso.
    eapply failure_is_not_success; [|exact Hres].
    destruct (Hmsg m eq_refl); auto. }
  simpl in Htf. subst tf0.
  destruct (Hls ls eq_refl) as (lnew & Heq & Hall). simpl in Heq. subst lnew.
  pose proof (resolved_sources_hold_documents E st st0 _ _ _ Hdocs Hall) as Hfiles.
  unfold committed, source_file. fold tgt.
  destruct (is_s3_uri tgt) eqn:Hs3.
  - destruct (mkstemp_run ".docx" st0)
      as [(lt & st2 & Hmk & _ & Hfresh & Hfs2 & Hs2 & _)|[e Hmk]];
      rewrite Hmk in Htry.
    2: { injection Htry as <- <- <-. intros Hres. exfalso.
         eapply failure_is_not_success; [|exact Hres]. left. reflexivity. }
    assert (Hfiles2 : Forall2 (fun p d => fs st2 !! p = Some (DocxFile d)) ls docs).
    { eapply Forall2_impl; [exact Hfiles|]. intros p d Hp. rewrite Hfs2.
      rewrite lookup_insert_ne; [done|]. intros ->. congruence. }
    destruct (build_and_commit_run E tgt true (length sources) ls lt
                add_page_breaks st2 docs Hfiles2)
      as (r' & st3 & Hb & _ & sent & [ok msg] & _ & -> & Hok).
    rewrite Hb in Htry. injection Htry as <- <- <-.
    destruct ok; simpl.
    2: { intros Hres. exfalso. eapply failure_is_not_success; [|exact Hres].
         left. reflexivity. }
    intros _. destruct (Hok eq_refl) as (b & k & -> & Hst3).
    destruct (merge_cleanup_run (new ++ [lt]) st3) as (_ & -> & _).
    rewrite Hst3. by simplify_map_eq.
  - destruct (build_and_commit_run E tgt false (length sources) ls tgt
                add_page_breaks st0 docs Hfiles)
      as (r' & st3 & Hb & Hfs3 & -> & _).
    rewrite Hb in Htry. injection Htry as <- <- <-.
    intros _.
    destruct (merge_cleanup_run new st3) as (_ & _ & _ & Hother & _).
    rewrite Hother, Hfs3; [by simplify_map_eq|].
    intros Hin%list_elem_of_In. rewrite Forall_forall in Hnew.
    destruct (Hnew _ Hin). congruence.
Qed.

Lemma merge_inserts_page_breaks_between_sources_witness :
  committed env0
    (Merge.merge_documents env0 "s3://bkt/merged" ["a.docx"; "s3://bkt/docs/report"]
       true st_docs).2 "s3://bkt/merged"
  = Some (DocxFile {| body := merged_body env0 true [doc_a; doc_b] |})
  /\ Docx_.count_page_breaks {| body := merged_body env0 true [doc_a; doc_b] |} = 1%nat
  /\ Docx_.count_page_breaks {| body := merged_body env0 false [doc_a; doc_b] |} = 0%nat
  /\ Forall (fun d => Forall (fun b => Docx_.is_page_break b = false)
                             (source_content env0 d)) [doc_a; doc_b].
Proof.
  apply (merge_inserts_page_breaks_between_sources env0 "s3://bkt/merged"
           ["a.docx"; "s3://bkt/docs/report"] true st_docs [doc_a; doc_b]).
  - repeat constructor.
  - reflexivity.
  - vm_compute. reflexivity.
Defined.

(** The scenario of section 8: merging the local [a.docx] and [b.docx] into
    [out.docx] without page breaks gives the paragraphs and tables of [a]
    followed by those of [b], and no page break. *)
Example scenario_merge_without_page_breaks :
  let st' := (Merge.merge_documents env0 "out.docx" ["a.docx"; "b.docx"] false st_docs).2 in
  fs st' !! "out.docx"
  = Some (DocxFile {| body := (source_content env0 doc_a ++ source_content env0 doc_b)%list |})
  /\ Docx_.count_page_breaks
       {| body := (source_content env0 doc_a ++ source_content env0 doc_b)%list |} = 0%nat.
Proof. split; vm_compute; reflexivity. Qed.

Example merged_body_with_page_breaks :
  merged_body env0 true [doc_a; doc_b]
  = [BParagraph (Docx_.new_paragraph "alpha");
     BTable {| table_style := None; cells := [["a1"; "a2"]] |};
     BParagraph Docx_.page_break_paragraph;
     BParagraph (Docx_.new_paragraph "beta");
     BParagraph (Docx_.new_paragraph "");
     BParagraph (Docx_.new_paragraph "gamma")].
Proof. vm_compute. reflexivity. Qed.

(** ** The life of the temporary files *)

Section SessionTempFiles.

Variable E : Env.

Local Arguments download_from_s3 : simpl never.
Local Arguments Os.mkstemp : simpl never.

(** The temporary files of an opened session are files of the scratch
    directory. *)
Lemma enter_temp_names self st ctx st1 :
  _temp_file self = None -> _output_temp_file self = None ->
  Ctx.__enter__ E self st = (Ok ctx, st1) ->
  (forall p, _temp_file ctx = Some p -> is_tmp_name p = true)
  /\ (forall p, _output_temp_file ctx = Some p -> is_tmp_name p = true).
Proof.
  destruct self as [orig s3 ro lp0 tf otf olp uri]. simpl. intros -> ->.
  unfold Ctx.__enter__, Os.copy2. run_monad.
  destruct s3.
  - destruct (download_from_s3_run E orig st)
      as ([[ok msg] lp] & st0 & -> & _ & _ & _ & Hok & _).
    destruct ok; simpl; [|done].
    destruct (Hok eq_refl) as (p0 & _ & _ & _ & Hlp & Htmp0 & _).
    simpl in Hlp. subst lp.
    destruct (opt_truthy uri); simpl.
    + destruct (OsPath.splitext _) as [base ext].
      destruct (mkstemp_run (if Py.truthy ext then ext else ".docx") st0)
        as [(p & st' & -> & Htmp & _)|[e ->]]; [|done].
      simpl. rewrite (proj2 (truthy_true p0)) by (by apply is_tmp_name_nonempty).
      destruct (fs st' !! p0); [|done].
      intros [= <- <-]. simpl. split; by intros ? [= <-].
    + intros [= <- <-]. simpl. split; [by intros ? [= <-]|done].
  - simpl. destruct (opt_truthy uri); simpl.
    + destruct (OsPath.splitext _) as [base ext].
      destruct (mkstemp_run (if Py.truthy ext then ext else ".docx") st)
        as [(p & st' & -> & Htmp & _)|[e ->]]; [|done].
      simpl. intros [= <- <-]. simpl. split; [done|by intros ? [= <-]].
    + intros [= <- <-]. simpl. done.
Qed.

(** Once a session is open, the [with] statement releases its temporary
    files whatever the body does and however it ends. *)
Lemma opened_session_releases_temp_files {A} filename ro out
    (body : S3FileContext -> M A) st ctx st1 p :
  Ctx.__enter__ E (Ctx.__init__ E filename ro out) st = (Ok ctx, st1) ->
  _temp_file ctx = Some p \/ _output_temp_file ctx = Some p ->
  fs (Ctx.with_ E filename ro out body st).2 !! p = None.
Proof.
  intros Henter Hp.
  destruct (enter_temp_names (Ctx.__init__ E filename ro out) _ _ _
              eq_refl eq_refl Henter) as [Ht Ho].
  unfold Ctx.with_. unfold bind at 1. rewrite Henter.
  destruct (body ctx st1) as [[a|e] st2]; unfold bind.
  - destruct (exit_run E ctx None st2) as (r & st3 & -> & _ & Hgt & Hgo & _).
    assert (fs st3 !! p = None)
      by (destruct Hp; eauto using is_tmp_name_nonempty).
    by destruct r.
  - destruct (exit_run E ctx (Some e) st2) as (r & st3 & -> & _ & Hgt & Hgo & _).
    assert (fs st3 !! p = None)
      by (destruct Hp; eauto using is_tmp_name_nonempty).
    destruct r as [[]|]; done.
Qed.

(** Every versioned path differs, as a string, from the URI it is made of. *)
Lemma versioned_path_is_not_the_original s3_uri :
  Ctx._generate_versioned_path E s3_uri <> s3_uri.
Proof.
  unfold Ctx._generate_versioned_path.
  pose proof (splitext_app s3_uri) as Hsplit.
  destruct (OsPath.splitext s3_uri) as [base ext]. simpl in Hsplit.
  intros Heq. apply (f_equal String.length) in Heq.
  rewrite <- Hsplit, !str_length_app in Heq. simpl in Heq. lia.
Qed.

End SessionTempFiles.

(** ** The versioned address of a plain address *)

Section SplitextFacts.

Lemma rfind_from_shift c s : forall n i last,
  Py.rfind_from c s (n + i) (n + last) = n + Py.rfind_from c s i last.
Proof.
  induction s as [|a s IH]; intros n i last; simpl; [done|].
  replace (n + i + 1) with (n + (i + 1)) by lia.
  destruct (Ascii.eqb a c); apply IH.
Qed.

Lemma rfind_from_app c s t : forall i last,
  Py.rfind_from c (s +:+ t) i last
  = Py.rfind_from c t (i + Z.of_nat (String.length s)) (Py.rfind_from c s i last).
Proof.
  induction s as [|a s IH]; intros i last.
  - rewrite str_app_nil_l. simpl. by rewrite Z.add_0_r.
  - rewrite str_app_cons. simpl Py.rfind_from. rewrite IH. f_equal.
    simpl String.length. lia.
Qed.

Lemma rfind_from_bounds c s : forall i last,
  last < i ->
  Py.rfind_from c s i last = last
  \/ i <= Py.rfind_from c s i last < i + Z.of_nat (String.length s).
Proof.
  induction s as [|a s IH]; intros i last Hlt; simpl Py.rfind_from; [by left|].
  simpl String.length.
  destruct (Ascii.eqb a c).
  - destruct (IH (i + 1) i) as [->|?]; [lia|right; lia|right; lia].
  - destruct (IH (i + 1) last) as [->|?]; [lia|by left|right; lia].
Qed.

Lemma rfind_from_absent c s : forall i last,
  Py.contains c s = false -> Py.rfind_from c s i last = last.
Proof.
  induction s as [|a s IH]; intros i last; simpl; [done|].
  intros [-> Hs]%orb_false_iff. by apply IH.
Qed.

Lemma rfind_from_present c s : forall i last last',
  Py.contains c s = true -> Py.rfind_from c s i last = Py.rfind_from c s i last'.
Proof.
  induction s as [|a s IH]; intros i last last'; simpl; [done|].
  destruct (Ascii.eqb a c); [done|]. simpl. apply IH.
Qed.

Lemma take_app_length s t n :
  Py.take (String.length s + n) (s +:+ t) = s +:+ Py.take n t.
Proof.
  induction s as [|a s IH]; [done|].
  rewrite !str_app_cons. simpl. by rewrite IH.
Qed.

Lemma drop_app_length s t n :
  Py.drop (String.length s + n) (s +:+ t) = Py.drop n t.
Proof. induction s as [|a s IH]; [done|]. rewrite str_app_cons. simpl. apply IH. Qed.

Lemma rfind_from_present_ge c s : forall i last,
  Py.contains c s = true -> i <= Py.rfind_from c s i last.
Proof.
  induction s as [|a s IH]; intros i last; simpl; [done|].
  destruct (Ascii.eqb a c); simpl.
  - intros _. destruct (rfind_from_bounds c s (i + 1) i) as [->|?]; lia.
  - intros Hs. specialize (IH (i + 1) last Hs). lia.
Qed.

Lemma rfind_ge s c : -1 <= Py.rfind s c.
Proof.
  unfold Py.rfind. destruct (rfind_from_bounds c s 0 (-1)) as [->|?]; lia.
Qed.

(** The last separator and the last dot of [pre/k], from those of [k]. *)
Lemma rfind_sep_after_separator pre k :
  Py.rfind (pre +:+ "/" +:+ k) "/"
  = Z.of_nat (String.length (pre +:+ "/")) + Py.rfind k "/".
Proof.
  unfold Py.rfind. rewrite <- str_app_assoc, !rfind_from_app. simpl.
  rewrite str_length_app. simpl String.length.
  rewrite <- rfind_from_shift. f_equal; lia.
Qed.

Lemma rfind_dot_after_separator pre k :
  let n := Z.of_nat (String.length (pre +:+ "/")) in
  if Py.contains "." k
  then Py.rfind (pre +:+ "/" +:+ k) "." = n + Py.rfind k "." /\ 0 <= Py.rfind k "."
  else Py.rfind (pre +:+ "/" +:+ k) "." < n - 1 /\ Py.rfind k "." = -1.
Proof.
  intros n. subst n. unfold Py.rfind.
  rewrite <- str_app_assoc, !rfind_from_app. simpl.
  rewrite str_length_app. simpl String.length.
  destruct (Py.contains "." k) eqn:Hk.
  - split; [|by apply rfind_from_present_ge].
    rewrite (rfind_from_present "." k _ _
               (Z.of_nat (String.length pre + 1) + -1) Hk).
    replace (Z.of_nat (String.length pre) + 0 + 1)
      with (Z.of_nat (String.length pre + 1) + 0) by lia.
    replace (0 + Z.of_nat (String.length pre + 1))
      with (Z.of_nat (String.length pre + 1) + 0) by lia.
    apply rfind_from_shift.
  - rewrite !(rfind_from_absent "." k) by done. split; [|done].
    destruct (rfind_from_bounds "." pre 0 (-1)) as [->|?]; lia.
Qed.

(** [os.path.splitext] only looks at the last component of a path. *)
Lemma splitext_after_separator pre k :
  OsPath.splitext (pre +:+ "/" +:+ k)
  = (pre +:+ "/" +:+ (OsPath.splitext k).1, (OsPath.splitext k).2).
Proof.
  unfold OsPath.splitext.
  rewrite rfind_sep_after_separator.
  pose proof (rfind_dot_after_separator pre k) as Hdot. simpl in Hdot.
  pose proof (rfind_ge k "/") as Hsep.
  set (d := pre +:+ "/") in *.
  assert (Hp : pre +:+ "/" +:+ k = d +:+ k) by (subst d; by rewrite str_app_assoc).
  rewrite Hp in *.
  set (n := Z.of_nat (String.length d)) in *.
  set (sepk := Py.rfind k "/") in *.
  destruct (Py.contains "." k).
  - destruct Hdot as [-> Hge]. set (dotk := Py.rfind k ".") in *.
    replace (n + sepk <? n + dotk) with (sepk <? dotk)
      by (destruct (Z.ltb_spec sepk dotk), (Z.ltb_spec (n + sepk) (n + dotk)); lia).
    unfold Py.slice_from, Py.slice_to.
    replace (Z.to_nat (n + sepk + 1))
      with (String.length d + Z.to_nat (sepk + 1))%nat by lia.
    replace (n + dotk - (n + sepk + 1)) with (dotk - (sepk + 1)) by lia.
    replace (Z.to_nat (n + dotk)) with (String.length d + Z.to_nat dotk)%nat by lia.
    rewrite !drop_app_length, take_app_length.
    destruct (_ && _); simpl; subst d; by rewrite str_app_assoc.
  - destruct Hdot as [Hlt ->].
    replace (n + sepk <? Py.rfind (d +:+ k) ".") with false
      by (symmetry; apply Z.ltb_ge; lia).
    replace (sepk <? -1) with false by (symmetry; apply Z.ltb_ge; lia).
    simpl. by rewrite Hp.
Qed.

End SplitextFacts.

Section PlainAddresses.

Variable E : Env.

Lemma all_chars_app P s t :
  Py.all_chars P (s +:+ t) = Py.all_chars P s && Py.all_chars P t.
Proof.
  induction s as [|a s IH]; [done|].
  rewrite str_app_cons. simpl. by rewrite IH, andb_assoc.
Qed.

Lemma all_chars_impl (P Q : ascii -> bool) s :
  (forall c, P c = true -> Q c = true) ->
  Py.all_chars P s = true -> Py.all_chars Q s = true.
Proof.
  intros HPQ. induction s as [|a s IH]; simpl; [done|].
  intros [Ha Hs]%andb_true_iff. by rewrite (HPQ a Ha), IH.
Qed.

Lemma all_chars_contains P s c :
  Py.all_chars P s = true -> P c = false -> Py.contains c s = false.
Proof.
  intros Hs Hc. induction s as [|a s IH]; simpl in *; [done|].
  apply andb_true_iff in Hs as [Ha Hs]. rewrite (IH Hs), orb_false_r.
  destruct (Ascii.eqb_spec a c) as [->|]; congruence.
Qed.

Lemma remove_absent c s : Py.contains c s = false -> Py.remove c s = s.
Proof.
  induction s as [|a s IH]; simpl; [done|].
  intros [-> Hs]%orb_false_iff. by rewrite IH.
Qed.

Lemma break_stop delim s t :
  Py.all_chars (fun c => negb (delim c)) s = true ->
  match t with "" => True | String c _ => delim c = true end ->
  Py.break delim (s +:+ t) = (s, t).
Proof.
  intros Hs Ht. induction s as [|a s IH].
  - rewrite str_app_nil_l. destruct t as [|c t]; simpl; [done|]. by rewrite Ht.
  - simpl in Hs. apply andb_true_iff in Hs as [Ha%negb_true_iff Hs].
    rewrite str_app_cons. simpl. by rewrite Ha, (IH Hs).
Qed.

Lemma before_absent c s : Py.contains c s = false -> Py.before c s = s.
Proof.
  intros Hs. unfold Py.before.
  rewrite <- (str_app_nil_r s) at 1. rewrite break_stop; [done| |done].
  induction s as [|a s IH]; simpl in *; [done|].
  apply orb_false_iff in Hs as [Ha Hs].
  by rewrite Ascii.eqb_sym, Ha, IH.
Qed.

Lemma key_char_not_ctl s :
  Py.all_chars Locator.key_char s = true ->
  Py.remove "010" (Py.remove "013" (Py.remove "009" s)) = s.
Proof.
  intros Hs.
  rewrite (remove_absent "009" s), (remove_absent "013" s), (remove_absent "010" s);
    try done; by eapply all_chars_contains.
Qed.

(** A plain address parses to its bucket and its key. *)
Lemma parse_s3_uri_plain b k :
  Locator.plain_bucket b = true ->
  Locator.plain_key k = true ->
  parse_s3_uri E ("s3://" +:+ b +:+ "/" +:+ k) = Ok (b, k).
Proof.
  unfold Locator.plain_bucket, Locator.plain_key.
  intros [Hb Hbc]%andb_true_iff [[Hk Hslash%negb_true_iff]%andb_true_iff Hkc]%andb_true_iff.
  assert (Hbk : Py.all_chars Locator.key_char b = true).
  { eapply all_chars_impl; [|exact Hbc]. intros c. unfold Locator.bucket_char,
      Locator.key_char, is_netloc_delim.
    destruct (Py.ascii_char c), (Ascii.eqb c "/"), (Ascii.eqb c "?"),
      (Ascii.eqb c "#"), (Ascii.eqb c "["), (Ascii.eqb c "]"), (Locator.is_ctl c);
      done. }
  assert (Hascii : Py.isascii b = true).
  { eapply all_chars_impl; [|exact Hbc]. intros c. unfold Locator.bucket_char.
    by destruct (Py.ascii_char c). }
  assert (Hopen : Py.contains "[" b = false)
    by (by apply (all_chars_contains _ b "[" Hbc)).
  assert (Hclose : Py.contains "]" b = false)
    by (by apply (all_chars_contains _ b "]" Hbc)).
  assert (Hrest : Locator.after_scheme ("s3://" +:+ b +:+ "/" +:+ k) = b +:+ "/" +:+ k).
  { unfold Locator.after_scheme. rewrite !remove_app.
    change (Py.remove _ (Py.remove _ (Py.remove _ "s3://"))) with "s3://".
    change (Py.remove _ (Py.remove _ (Py.remove _ "/"))) with "/".
    by rewrite !key_char_not_ctl, strip_prefix_app. }
  assert (Hbreak : Py.break is_netloc_delim (b +:+ "/" +:+ k) = (b, "/" +:+ k)).
  { apply break_stop; [|done]. eapply all_chars_impl; [|exact Hbc]. intros c.
    unfold Locator.bucket_char. by destruct (Py.ascii_char c), (is_netloc_delim c). }
  rewrite parse_s3_uri_cases by apply prefix_app.
  unfold Locator.netloc_error, Locator.authority, Locator.key_text.
  rewrite Hrest, Hbreak. simpl.
  rewrite Hopen, Hclose, Hascii. simpl. rewrite Hb. simpl.
  assert (Hq : Py.contains "#" ("/" +:+ k) = false)
    by (simpl; by eapply all_chars_contains).
  assert (Hf : Py.contains "?" ("/" +:+ k) = false)
    by (simpl; by eapply all_chars_contains).
  rewrite (before_absent "#" _ Hq), (before_absent "?" _ Hf).
  change (Py.lstrip "/" ("/" +:+ k)) with (Py.lstrip "/" k).
  assert (Hstrip : Py.lstrip "/" k = k).
  { destruct k as [|a k]; [done|]. rewrite startswith_cons in Hslash.
    simpl. by rewrite Hslash. }
  by rewrite Hstrip, Hk.
Qed.

(** The decimal text of an integer is made of digits and a sign. *)
Lemma pretty_N_char_key x : Locator.key_char (pretty_N_char x) = true.
Proof. unfold pretty_N_char. by repeat case_match. Qed.

Lemma pretty_N_go_key x : forall s,
  Py.all_chars Locator.key_char s = true ->
  Py.all_chars Locator.key_char (pretty_N_go x s) = true.
Proof.
  induction (N.lt_wf_0 x) as [x _ IH]; intros s Hs.
  destruct (decide (x = 0)%N) as [->|Hx]; [by rewrite pretty_N_go_0|].
  rewrite pretty_N_go_step by lia.
  apply IH; [apply N.div_lt; lia|]. simpl. by rewrite pretty_N_char_key.
Qed.

Lemma str_int_key z : Py.all_chars Locator.key_char (Py.str_int z) = true.
Proof.
  unfold Py.str_int, pretty, pretty_Z.
  destruct z as [|p|p]; [done| |].
  - unfold pretty, pretty_positive, pretty, pretty_N. case_decide; [done|].
    by apply pretty_N_go_key.
  - rewrite all_chars_app. simpl.
    unfold pretty, pretty_positive, pretty, pretty_N. case_decide; [done|].
    by apply pretty_N_go_key.
Qed.

(** For a plain address the versioned path is the address of the same
    bucket whose key is the original key with [_edited_<timestamp>]
    inserted before its extension; the directories of the key are part of
    the stem and are kept. *)
Lemma versioned_path_of_a_plain_address b k :
  Locator.plain_bucket b = true ->
  Locator.plain_key k = true ->
  let uri := "s3://" +:+ b +:+ "/" +:+ k in
  let key' := (OsPath.splitext k).1 +:+ "_edited_"
                +:+ Py.str_int (time_now E) +:+ (OsPath.splitext k).2 in
  parse_s3_uri E uri = Ok (b, k)
  /\ Ctx._generate_versioned_path E uri = "s3://" +:+ b +:+ "/" +:+ key'
  /\ parse_s3_uri E (Ctx._generate_versioned_path E uri) = Ok (b, key')
  /\ key' <> k.
Proof.
  intros Hb Hk uri key'.
  assert (Hgen : Ctx._generate_versioned_path E uri = "s3://" +:+ b +:+ "/" +:+ key').
  { unfold Ctx._generate_versioned_path, uri.
    rewrite <- (str_app_assoc "s3://" b), splitext_after_separator. subst key'.
    by rewrite !str_app_assoc. }
  split; [by apply parse_s3_uri_plain|]. split; [done|].
  pose proof (splitext_app k) as Hsplit.
  destruct (OsPath.splitext k) as [kb ke]. simpl in *.
  split.
  - rewrite Hgen. apply parse_s3_uri_plain; [done|].
    unfold Locator.plain_key in *.
    apply andb_true_iff in Hk as [[Hne Hslash]%andb_true_iff Hkc].
    rewrite <- Hsplit, all_chars_app in Hkc.
    apply andb_true_iff in Hkc as [Hkb Hke].
    repeat (apply andb_true_iff; split).
    + subst key'. by destruct kb.
    + subst key'. destruct kb as [|a kb]; [done|].
      rewrite <- Hsplit in Hslash. revert Hslash.
      by rewrite !str_app_cons, !startswith_cons.
    + subst key'. rewrite !all_chars_app, Hkb, Hke, str_int_key. done.
  - subst key'. intros Heq. apply (f_equal String.length) in Heq.
    rewrite <- Hsplit, !str_length_app in Heq. simpl in Heq. lia.
Qed.

End PlainAddresses.

(** For a plain address, closing a read-write session never writes the
    object the session was opened on, whatever the body did. *)
Lemma plain_session_keeps_the_original (E : Env) b k st ctx st1 exc st2 :
  Locator.plain_bucket b = true ->
  Locator.plain_key k = true ->
  Ctx.__enter__ E (Ctx.__init__ E ("s3://" +:+ b +:+ "/" +:+ k) false None) st
  = (Ok ctx, st1) ->
  Ctx.get_result_path ctx <> "s3://" +:+ b +:+ "/" +:+ k
  /\ parse_s3_uri E (Ctx.get_result_path ctx)
     = Ok (b, (OsPath.splitext k).1 +:+ "_edited_"
                +:+ Py.str_int (time_now E) +:+ (OsPath.splitext k).2)
  /\ store (Ctx.__exit__ E ctx exc st2).2 !! (b, k) = store st2 !! (b, k).
Proof.
  intros Hb Hk Henter.
  destruct (versioned_path_of_a_plain_address E b k Hb Hk) as (_ & Hgen & Hparse & Hne).
  apply enter_run in Henter as (_ & Huri & _).
  simpl in Huri. rewrite (prefix_app "s3://") in Huri. simpl in Huri.
  assert (Hres : Ctx.get_result_path ctx
                 = Ctx._generate_versioned_path E ("s3://" +:+ b +:+ "/" +:+ k)).
  { unfold Ctx.get_result_path. rewrite Huri. simpl.
    rewrite Hgen. done. }
  rewrite Hres. split; [apply versioned_path_is_not_the_original|].
  split; [exact Hparse|].
  destruct (exit_run E ctx exc st2) as (r & st3 & -> & Hcases & _). simpl.
  destruct Hcases as [(_ & -> & _)
                     |(lp & uri & sent & res & _ & _ & _ & Huri' & _ & Hup & _)];
    [done|].
  rewrite Huri in Huri'. injection Huri' as <-.
  destruct (upload_to_s3_run E lp
              (Ctx._generate_versioned_path E ("s3://" +:+ b +:+ "/" +:+ k)) st2)
    as (sent' & res' & st' & Hrun & _ & _ & _ & Hfail & _ & Hok).
  rewrite Hup in Hrun. injection Hrun as <- Hst. rewrite <- Hst in *. simpl in *.
  destruct res.1 eqn:Hres1.
  - destruct (Hok eq_refl) as (b' & k' & d & Hp' & _ & ->).
    rewrite Hparse in Hp'. injection Hp' as <- <-.
    rewrite lookup_insert_ne; [done|]. congruence.
  - by rewrite Hfail.
Qed.

(** C2 fails on the code. For [s3://bkt/docs/report.docx?v.docx] the
    versioned path is a new string, but the suffix has landed after the
    [?], in the part that [parse_s3_uri] drops: the new path parses to the
    bucket and key of the original, and closing the session overwrites the
    original object with the edited document. *)
Theorem versioned_path_can_address_the_original :
  let uri := "s3://bkt/docs/report.docx?v.docx" in
  let session := Ctx.with_ env0 uri false None
                   (fun ctx => let* _ := edit_body ctx in ret (Ctx.get_result_path ctx))
                   st_docs in
  session.1 = Ok (Some "s3://bkt/docs/report.docx?v_edited_1733318400.docx")
  /\ parse_s3_uri env0 uri = Ok ("bkt", "docs/report.docx")
  /\ parse_s3_uri env0 "s3://bkt/docs/report.docx?v_edited_1733318400.docx"
     = Ok ("bkt", "docs/report.docx")
  /\ content <$> store st_docs !! ("bkt", "docs/report.docx") = Some (DocxFile doc_b)
  /\ content <$> store session.2 !! ("bkt", "docs/report.docx") = Some (DocxFile doc_a).
Proof. repeat split; vm_compute; reflexivity. Qed.

(** On an ordinary URI the same session leaves the original alone and
    writes the object named by the versioned key. *)
Example versioned_path_of_an_ordinary_uri :
  let uri := "s3://bkt/docs/report.docx" in
  let session := Ctx.with_ env0 uri false None
                   (fun ctx => let* _ := edit_body ctx in ret (Ctx.get_result_path ctx))
                   st_docs in
  session.1 = Ok (Some "s3://bkt/docs/report_edited_1733318400.docx")
  /\ content <$> store session.2 !! ("bkt", "docs/report.docx") = Some (DocxFile doc_b)
  /\ content <$> store session.2 !! ("bkt", "docs/report_edited_1733318400.docx")
     = Some (DocxFile doc_a)
  /\ fs session.2 = fs st_docs.
Proof. repeat split; vm_compute; reflexivity. Qed.

(** The sibling [generate_output_s3_uri] splits the key, not the URI, and
    keeps the suffix inside the key. *)
Example generate_output_s3_uri_splits_the_key :
  generate_output_s3_uri env0 "s3://bkt/docs/report.docx?v.docx" "_edited_1733318400" None
  = Ok "s3://bkt/docs/report_edited_1733318400.docx".
Proof. reflexivity. Qed.

(** ** The leak of a failed download *)

(** The leak in general: whenever the transfer of a well-formed S3
    URI fails - a fault of the transport, or no such object - after
    [mkstemp] has made its file, the session raises and the file stays. *)
Lemma failed_transfer_leaves_the_file {A} (E : Env) uri b k ro out
    (body : S3FileContext -> M A) st :
  parse_s3_uri E uri = Ok (b, k) ->
  is_Some (get_fault E b k) \/ store st !! (b, k) = None ->
  (exists e, Os.mkstemp (OsPath.splitext (OsPath.basename k)).2 st = (Raise e, st))
  \/ exists p e,
       fs st !! p = None
       /\ (Ctx.with_ E uri ro out body st).1 = Raise e
       /\ fs (Ctx.with_ E uri ro out body st).2 !! p = Some EmptyFile.
Proof.
  intros Hparse Hfail.
  assert (Hs3 : is_s3_uri uri = true).
  { unfold parse_s3_uri in Hparse. by destruct (is_s3_uri uri). }
  destruct (mkstemp_run (OsPath.splitext (OsPath.basename k)).2 st)
    as [(p & st1 & Hmk & _ & Hfresh & Hfs & Hst & _)|Hraise]; [right|by left].
  unfold Ctx.with_, Ctx.__enter__, Ctx.__init__. cbn [is_s3 original_path].
  rewrite Hs3. unfold download_from_s3, s3_download_file.
  rewrite Hparse. run_monad.
  destruct (OsPath.splitext (OsPath.basename k)) as [base ext]. simpl in *.
  rewrite Hmk.
  assert (Hp : fs st1 !! p = Some EmptyFile) by (rewrite Hfs; by simplify_map_eq).
  destruct (get_fault E b k) as [e|] eqn:Hf.
  - handler_cases e; exists p; eexists; repeat split; done.
  - destruct Hfail as [[? [=]]|Hobj]. rewrite Hst, Hobj. simpl.
    exists p. eexists. repeat split; done.
Qed.

(** C1 fails on the code. A session on a remote source whose object does
    not exist: [download_from_s3] has created its temporary file when the
    transfer fails, it returns no path, [__enter__] raises, [__exit__] is
    never run, and the empty file [/tmp/tmp0.docx] stays on the disk. *)
Theorem failed_download_leaves_its_temp_file :
  let session :=
    Ctx.with_ env0 "s3://bkt/absent.docx" true None (fun _ => ret tt) st_docs in
  session.1 = Raise (IOError
    "Failed to download from S3: S3 object not found: s3://bkt/absent.docx")
  /\ fs st_docs !! "/tmp/tmp0.docx" = None
  /\ fs session.2 !! "/tmp/tmp0.docx" = Some EmptyFile
  /\ size (fs session.2) = S (size (fs st_docs)).
Proof. repeat split; vm_compute; reflexivity. Qed.

(** The same leak in the merge: the file of the source downloaded before
    the failure is released, the file of the failed download is not. *)
Example failed_download_in_merge_leaves_its_temp_file :
  let st' := (Merge.merge_documents env0 "out.docx"
                ["s3://bkt/docs/report.docx"; "s3://bkt/absent.docx"] true st_docs).2 in
  fs st' !! "/tmp/tmp0.docx" = None
  /\ fs st_docs !! "/tmp/tmp1.docx" = None
  /\ fs st' !! "/tmp/tmp1.docx" = Some EmptyFile.
Proof. repeat split; vm_compute; reflexivity. Qed.
(** * Further properties of the code *)

(** ** Parsed addresses *)

Section CanonicalAddresses.

Variable E : Env.

Lemma all_chars_remove P c s :
  Py.all_chars P s = true -> Py.all_chars P (Py.remove c s) = true.
Proof.
  induction s as [|a s IH]; simpl; [done|].
  intros [Ha Hs]%andb_true_iff. destruct (Ascii.eqb a c); simpl; [auto|].
  by rewrite Ha, IH.
Qed.

Lemma all_chars_removed c s :
  Py.all_chars (fun a => negb (Ascii.eqb a c)) (Py.remove c s) = true.
Proof.
  induction s as [|a s IH]; simpl; [done|].
  destruct (Ascii.eqb a c) eqn:Ha; simpl; [done|]. by rewrite Ha, IH.
Qed.

Lemma all_chars_and P Q s :
  Py.all_chars P s = true -> Py.all_chars Q s = true ->
  Py.all_chars (fun a => P a && Q a) s = true.
Proof.
  induction s as [|a s IH]; simpl; [done|].
  intros [-> Hs]%andb_true_iff [-> Hs']%andb_true_iff. simpl. auto.
Qed.

(** What [urlsplit] works on has no tab, carriage return or line feed. *)
Lemma all_chars_no_ctl s :
  Py.all_chars (fun a => negb (Locator.is_ctl a))
    (Py.remove "010" (Py.remove "013" (Py.remove "009" s))) = true.
Proof.
  eapply all_chars_impl;
    [|apply all_chars_and;
       [apply all_chars_removed
       |apply all_chars_and;
          [apply all_chars_remove, all_chars_removed
          |apply all_chars_remove, all_chars_remove, all_chars_removed]]].
  intros c. unfold Locator.is_ctl. simpl.
  by destruct (Ascii.eqb c "009"), (Ascii.eqb c "010"), (Ascii.eqb c "013").
Qed.

Lemma all_chars_strip_prefix P p : forall s r,
  Py.strip_prefix p s = Some r -> Py.all_chars P s = true -> Py.all_chars P r = true.
Proof.
  induction p as [|a p IH]; intros [|b s] r; simpl; try done.
  - by intros [= <-].
  - by intros [= <-].
  - destruct (Ascii.eqb a b); [|done]. intros Hr [_ Hs]%andb_true_iff. eauto.
Qed.

Lemma all_chars_break P delim s :
  Py.all_chars P s = true ->
  Py.all_chars P (Py.break delim s).1 = true
  /\ Py.all_chars P (Py.break delim s).2 = true.
Proof.
  induction s as [|a s IH]; simpl; [done|].
  intros [Ha Hs]%andb_true_iff. destruct (delim a); simpl.
  - by rewrite Ha, Hs.
  - destruct (IH Hs) as [H1 H2]. destruct (Py.break delim s) as [l r]. simpl in *.
    by rewrite Ha, H1, H2.
Qed.

Lemma break_fst_no_delim delim s :
  Py.all_chars (fun a => negb (delim a)) (Py.break delim s).1 = true.
Proof.
  induction s as [|a s IH]; simpl; [done|].
  destruct (delim a) eqn:Ha; simpl; [done|].
  destruct (Py.break delim s) as [l r]. simpl in *. by rewrite Ha, IH.
Qed.

Lemma all_chars_lstrip P c s :
  Py.all_chars P s = true -> Py.all_chars P (Py.lstrip c s) = true.
Proof.
  induction s as [|a s IH]; simpl; [done|].
  intros [Ha Hs]%andb_true_iff. destruct (Ascii.eqb a c); simpl; [auto|].
  by rewrite Ha, Hs.
Qed.

Lemma lstrip_stripped c s : Py.startswith (Py.lstrip c s) (String c "") = false.
Proof.
  induction s as [|a s IH]; simpl; [done|].
  destruct (Ascii.eqb a c) eqn:Ha; [done|]. by rewrite startswith_cons.
Qed.

(** What a successful parse returns: a bucket that [urllib.parse] accepts,
    free of the characters that end an authority, and a plain key. *)
Lemma parse_s3_uri_ok_inv s b k :
  parse_s3_uri E s = Ok (b, k) ->
  is_s3_uri s = true
  /\ Locator.netloc_error E b = None
  /\ Py.truthy b = true
  /\ Py.all_chars (fun c => negb (is_netloc_delim c) && negb (Locator.is_ctl c)) b = true
  /\ Locator.plain_key k = true.
Proof.
  intros Hparse.
  assert (Hs : is_s3_uri s = true).
  { unfold parse_s3_uri in Hparse. by destruct (is_s3_uri s). }
  split; [done|]. rewrite (parse_s3_uri_cases E s Hs) in Hparse.
  destruct (Locator.netloc_error E (Locator.authority s)) eqn:Herr; [done|].
  destruct (Py.truthy (Locator.authority s)) eqn:Hb; [|done].
  destruct (Py.truthy (Locator.key_text s)) eqn:Hk; [|done].
  simpl in Hparse. injection Hparse as <- <-.
  split; [done|]. split; [done|].
  assert (Hclean : Py.all_chars (fun a => negb (Locator.is_ctl a))
                     (Locator.after_scheme s) = true).
  { unfold Locator.after_scheme.
    destruct (Py.strip_prefix _ _) as [r|] eqn:Hr; [|done]. simpl.
    eapply all_chars_strip_prefix; [exact Hr|]. apply all_chars_no_ctl. }
  destruct (all_chars_break _ is_netloc_delim _ Hclean) as [Hc1 Hc2].
  split.
  { apply all_chars_and; [apply break_fst_no_delim|exact Hc1]. }
  assert (Hns : Py.startswith (Locator.key_text s) "/" = false)
    by apply lstrip_stripped.
  unfold Locator.plain_key. rewrite Hk, Hns. simpl.
  unfold Locator.key_text, Py.before.
  apply all_chars_lstrip.
  set (rest := (Py.break is_netloc_delim (Locator.after_scheme s)).2) in *.
  pose proof (break_fst_no_delim (Ascii.eqb "#") rest) as Hhash.
  destruct (all_chars_break _ (Ascii.eqb "#") _ Hc2) as [Hc3 _].
  set (r1 := (Py.break (Ascii.eqb "#") rest).1) in *.
  pose proof (break_fst_no_delim (Ascii.eqb "?") r1) as Hq.
  destruct (all_chars_break _ (Ascii.eqb "?") _ Hc3) as [Hc4 _].
  destruct (all_chars_break _ (Ascii.eqb "?") _ Hhash) as [Hh4 _].
  eapply all_chars_impl;
    [|apply all_chars_and; [exact Hq|apply all_chars_and; [exact Hh4|exact Hc4]]].
  intros c. unfold Locator.key_char. cbv beta.
  rewrite (Ascii.eqb_sym "?" c), (Ascii.eqb_sym "#" c).
  by destruct (Ascii.eqb c "?"), (Ascii.eqb c "#"), (Locator.is_ctl c).
Qed.

(** The address assembled from such a bucket and a plain key parses to
    them. *)
Lemma parse_s3_uri_assembled b k :
  Locator.netloc_error E b = None ->
  Py.truthy b = true ->
  Py.all_chars (fun c => negb (is_netloc_delim c) && negb (Locator.is_ctl c)) b = true ->
  Locator.plain_key k = true ->
  parse_s3_uri E ("s3://" +:+ b +:+ "/" +:+ k) = Ok (b, k).
Proof.
  unfold Locator.plain_key.
  intros Herr Hb Hbc [[Hk Hslash%negb_true_iff]%andb_true_iff Hkc]%andb_true_iff.
  assert (Hbctl : Py.remove "010" (Py.remove "013" (Py.remove "009" b)) = b).
  { rewrite (remove_absent "009" b), (remove_absent "013" b), (remove_absent "010" b);
      try done; apply (all_chars_contains _ b _ Hbc); done. }
  assert (Hrest : Locator.after_scheme ("s3://" +:+ b +:+ "/" +:+ k) = b +:+ "/" +:+ k).
  { unfold Locator.after_scheme. rewrite !remove_app.
    change (Py.remove _ (Py.remove _ (Py.remove _ "s3://"))) with "s3://".
    change (Py.remove _ (Py.remove _ (Py.remove _ "/"))) with "/".
    by rewrite Hbctl, key_char_not_ctl, strip_prefix_app. }
  assert (Hbreak : Py.break is_netloc_delim (b +:+ "/" +:+ k) = (b, "/" +:+ k)).
  { apply break_stop; [|done]. eapply all_chars_impl; [|exact Hbc]. intros c.
    by intros [? _]%andb_true_iff. }
  rewrite parse_s3_uri_cases by apply prefix_app.
  unfold Locator.authority, Locator.key_text.
  rewrite Hrest, Hbreak. simpl. rewrite Herr, Hb. simpl.
  assert (Hq : Py.contains "#" ("/" +:+ k) = false)
    by (simpl; by eapply all_chars_contains).
  assert (Hf : Py.contains "?" ("/" +:+ k) = false)
    by (simpl; by eapply all_chars_contains).
  rewrite (before_absent "#" _ Hq), (before_absent "?" _ Hf).
  change (Py.lstrip "/" ("/" +:+ k)) with (Py.lstrip "/" k).
  assert (Hstrip : Py.lstrip "/" k = k).
  { destruct k as [|a k]; [done|]. rewrite startswith_cons in Hslash.
    simpl. by rewrite Hslash. }
  by rewrite Hstrip, Hk.
Qed.

End CanonicalAddresses.

(** The stem that [os.path.splitext] returns starts as its argument does. *)
Lemma splitext_stem_head a p :
  exists stem, (OsPath.splitext (String a p)).1 = String a stem.
Proof.
  unfold OsPath.splitext.
  pose proof (rfind_ge (String a p) "/") as Hsep.
  set (sep := Py.rfind (String a p) "/") in *.
  set (dot := Py.rfind (String a p) ".") in *.
  destruct (sep <? dot) eqn:Hlt; simpl; [|by eexists].
  destruct (OsPath.has_non_dot _ _) eqn:Hnd; simpl; [|by eexists].
  apply Z.ltb_lt in Hlt. unfold Py.slice_to.
  revert Hnd. destruct (Z.to_nat (dot - (sep + 1))) as [|m] eqn:Hm;
    [by destruct (Py.slice_from _ _)|]. intros _.
  destruct (Z.to_nat dot) as [|n] eqn:Hn; [lia|]. simpl. by eexists.
Qed.

(** Inserting plain text between the stem and the extension of a plain key
    gives a plain key. *)
Lemma plain_key_insert k suffix x :
  Locator.plain_key k = true ->
  Py.all_chars Locator.key_char suffix = true ->
  Py.all_chars Locator.key_char x = true ->
  Locator.plain_key ((OsPath.splitext k).1 +:+ suffix +:+ x) = true.
Proof.
  unfold Locator.plain_key.
  intros [[Hk Hslash%negb_true_iff]%andb_true_iff Hkc]%andb_true_iff Hs Hx.
  destruct k as [|a k]; [done|].
  destruct (splitext_stem_head a k) as [stem Hstem].
  pose proof (splitext_app (String a k)) as Hsplit.
  rewrite <- Hsplit, all_chars_app in Hkc. apply andb_true_iff in Hkc as [Hbase _].
  rewrite Hstem in *. rewrite !str_app_cons.
  rewrite startswith_cons in Hslash. rewrite startswith_cons, Hslash.
  rewrite <- str_app_cons, !all_chars_app, Hbase, Hs, Hx. done.
Qed.

(** X1. The pair that [parse_s3_uri] returns is canonical: the input is an
    S3 URI, the bucket is not empty and has no separator, the key is not
    empty, does not start with the separator and carries no query or
    fragment mark, and the address [s3://<bucket>/<key>] assembled from the
    pair parses to the same pair. *)
Theorem parsed_address_is_canonical (E : Env) (s b k : string) :
  parse_s3_uri E s = Ok (b, k) ->
  is_s3_uri s = true
  /\ b <> "" /\ Py.contains "/" b = false
  /\ k <> "" /\ Py.startswith k "/" = false
  /\ Py.contains "?" k = false /\ Py.contains "#" k = false
  /\ parse_s3_uri E ("s3://" +:+ b +:+ "/" +:+ k) = Ok (b, k).
Proof.
  intros (Hs & Herr & Hb & Hbc & Hk)%parse_s3_uri_ok_inv.
  split; [done|]. split; [by apply truthy_true|].
  split; [by apply (all_chars_contains _ b "/" Hbc)|].
  pose proof Hk as Hk'. unfold Locator.plain_key in Hk'.
  apply andb_true_iff in Hk' as [[Hne Hslash%negb_true_iff]%andb_true_iff Hkc].
  split; [by apply truthy_true|]. split; [done|].
  split; [by apply (all_chars_contains _ k "?" Hkc)|].
  split; [by apply (all_chars_contains _ k "#" Hkc)|].
  by apply parse_s3_uri_assembled.
Qed.

Lemma parsed_address_is_canonical_witness :
  is_s3_uri "s3://bkt//docs/report.docx?version=2#top" = true
  /\ "bkt" <> "" /\ Py.contains "/" "bkt" = false
  /\ "docs/report.docx" <> "" /\ Py.startswith "docs/report.docx" "/" = false
  /\ Py.contains "?" "docs/report.docx" = false
  /\ Py.contains "#" "docs/report.docx" = false
  /\ parse_s3_uri env0 ("s3://" +:+ "bkt" +:+ "/" +:+ "docs/report.docx")
     = Ok ("bkt", "docs/report.docx").
Proof.
  apply (parsed_address_is_canonical env0 "s3://bkt//docs/report.docx?version=2#top").
  reflexivity.
Defined.

(** X2. [generate_output_s3_uri] works on the parsed key. For every URI
    that parses and every suffix that has no query mark, no fragment mark
    and no tab, carriage return or line feed (the characters at which the
    parser cuts an address, or which it drops), the address it returns
    parses to the same bucket and to the key with the suffix inserted
    between its stem and its extension; a new extension free of those
    characters, when one is given and is not empty, stands in place of
    the old. With the empty suffix and no new extension that is the
    object of the input itself; with any other such suffix and no new
    extension it is another object. *)
Theorem generated_output_address (E : Env) (s b k suffix : string) :
  parse_s3_uri E s = Ok (b, k) ->
  Py.all_chars Locator.key_char suffix = true ->
  let stem := (OsPath.splitext k).1 in
  let ext := (OsPath.splitext k).2 in
  (exists out,
      generate_output_s3_uri E s suffix None = Ok out
      /\ parse_s3_uri E out = Ok (b, stem +:+ suffix +:+ ext)
      /\ (suffix = "" -> stem +:+ suffix +:+ ext = k)
      /\ (suffix <> "" -> stem +:+ suffix +:+ ext <> k))
  /\ (forall x, Py.all_chars Locator.key_char x = true ->
        exists out,
          generate_output_s3_uri E s suffix (Some x) = Ok out
          /\ parse_s3_uri E out
             = Ok (b, stem +:+ suffix +:+ (if Py.truthy x then x else ext))).
Proof.
  intros Hparse Hsuffix stem ext.
  pose proof Hparse as (Hs & Herr & Hb & Hbc & Hk)%parse_s3_uri_ok_inv.
  pose proof (splitext_app k) as Hsplit. fold stem ext in Hsplit.
  assert (Hext : Py.all_chars Locator.key_char ext = true).
  { unfold Locator.plain_key in Hk. apply andb_true_iff in Hk as [_ Hkc].
    rewrite <- Hsplit, all_chars_app in Hkc. by apply andb_true_iff in Hkc as [_ ?]. }
  assert (Hgen : forall x, Py.all_chars Locator.key_char x = true ->
            parse_s3_uri E ("s3://" +:+ b +:+ "/" +:+ stem +:+ suffix +:+ x)
            = Ok (b, stem +:+ suffix +:+ x)).
  { intros x Hx. apply parse_s3_uri_assembled; try done.
    by apply plain_key_insert. }
  unfold generate_output_s3_uri. rewrite Hparse.
  subst stem ext. destruct (OsPath.splitext k) as [stem ext]. simpl in *.
  split.
  - eexists. split; [reflexivity|]. split; [by apply Hgen|]. split.
    + by intros ->.
    + intros Hne Heq. apply (f_equal String.length) in Heq.
      rewrite <- Hsplit, !str_length_app in Heq.
      destruct suffix; [done|]. simpl in Heq. lia.
  - intros x Hx. eexists. split; [reflexivity|].
    destruct (Py.truthy x); by apply Hgen.
Qed.

Lemma generated_output_address_witness :
  (exists out,
      generate_output_s3_uri env0 "s3://bkt/docs/report.docx?v.docx" "_output" None = Ok out
      /\ parse_s3_uri env0 out = Ok ("bkt", "docs/report" +:+ "_output" +:+ ".docx")
      /\ ("_output" = "" -> "docs/report" +:+ "_output" +:+ ".docx" = "docs/report.docx")
      /\ ("_output" <> "" -> "docs/report" +:+ "_output" +:+ ".docx" <> "docs/report.docx"))
  /\ (forall x, Py.all_chars Locator.key_char x = true ->
        exists out,
          generate_output_s3_uri env0 "s3://bkt/docs/report.docx?v.docx" "_output" (Some x)
          = Ok out
          /\ parse_s3_uri env0 out
             = Ok ("bkt", "docs/report" +:+ "_output" +:+ (if Py.truthy x then x else ".docx"))).
Proof.
  apply (generated_output_address env0 "s3://bkt/docs/report.docx?v.docx"
           "bkt" "docs/report.docx" "_output"); reflexivity.
Defined.

(** The condition on the suffix is needed: a suffix with a query or a
    fragment mark is cut off when the address is parsed, and the address
    can then stand for the object of the input. *)
Example marked_suffix_is_cut_off :
  generate_output_s3_uri env0 "s3://bkt/docs/report" "?v2" None
  = Ok "s3://bkt/docs/report?v2"
  /\ parse_s3_uri env0 "s3://bkt/docs/report?v2" = Ok ("bkt", "docs/report")
  /\ generate_output_s3_uri env0 "s3://bkt/docs/report.docx" "#" None
     = Ok "s3://bkt/docs/report#.docx"
  /\ parse_s3_uri env0 "s3://bkt/docs/report#.docx" = Ok ("bkt", "docs/report").
Proof. repeat split. Qed.

(** ** The outcomes of a transfer *)

Section ClientOutcomes.

Variable E : Env.

Local Arguments Os.mkstemp : simpl never.
Local Arguments Os.probe : simpl never.
Local Arguments Os.TMP_MAX : simpl never.

Lemma mkstemp_suffix suffix st p st' :
  Os.mkstemp suffix st = (Ok p, st') -> Py.endswith p suffix = true.
Proof.
  unfold Os.mkstemp. destruct (Os.probe _ _ _ _); [|done].
  intros [= <- _]. unfold Os.tmp_name. rewrite <- str_app_assoc. apply endswith_app.
Qed.

Lemma mkstemp_cases suffix st :
  match Os.probe (fs st) suffix (tmp_next st) Os.TMP_MAX with
  | Some n =>
      exists st', Os.mkstemp suffix st = (Ok (Os.tmp_name n suffix), st')
        /\ fs st !! Os.tmp_name n suffix = None
        /\ fs st' = <[Os.tmp_name n suffix := EmptyFile]> (fs st)
        /\ store st' = store st /\ calls st' = calls st
  | None => exists e, Os.mkstemp suffix st = (Raise e, st)
  end.
Proof.
  unfold Os.mkstemp. destruct (Os.probe _ _ _ _) as [n|] eqn:Hn; [|by eexists].
  eexists. split; [reflexivity|]. simpl. eauto using probe_fresh.
Qed.

(** A download whose URI parses, whose transfer meets no fault, whose
    object is there and for which a temporary name is free, succeeds. *)
Lemma download_from_s3_success uri b k o n st :
  parse_s3_uri E uri = Ok (b, k) ->
  get_fault E b k = None ->
  store st !! (b, k) = Some o ->
  Os.probe (fs st) (OsPath.splitext (OsPath.basename k)).2 (tmp_next st) Os.TMP_MAX
  = Some n ->
  let p := Os.tmp_name n (OsPath.splitext (OsPath.basename k)).2 in
  exists st',
    download_from_s3 E uri None st = (Ok (true, "Downloaded from S3", Some p), st')
    /\ fs st !! p = None
    /\ fs st' = <[p := content o]> (fs st)
    /\ store st' = store st.
Proof.
  intros Hparse Hfault Hobj Hprobe p.
  pose proof (mkstemp_cases (OsPath.splitext (OsPath.basename k)).2 st) as Hmk.
  rewrite Hprobe in Hmk. destruct Hmk as (st1 & Hmk & Hfresh & Hfs & Hst & Hc).
  unfold download_from_s3, s3_download_file. rewrite Hparse. run_monad.
  destruct (OsPath.splitext (OsPath.basename k)) as [stem ext]. simpl in *.
  rewrite Hmk, Hfault, Hst, Hobj. simpl.
  eexists. split; [reflexivity|]. simpl. repeat split; try done.
  rewrite Hfs. by rewrite insert_insert_eq.
Qed.

End ClientOutcomes.

#[local] Arguments Os.mkstemp : simpl never.
#[local] Arguments Os.probe : simpl never.
#[local] Arguments Os.TMP_MAX : simpl never.

(** X3. [download_from_s3] never raises and never touches the store. Called
    without a local path, it never changes an existing file: when it
    reports success it returns the path of a file that did not exist
    before, which now holds the content of the object the URI parses to
    and whose name ends with the extension of the key. Called with a local
    path, it returns that path when it reports success, and the file
    there - created, or overwritten when it existed - holds the content of
    the object, every other file being as before; when it reports failure
    the disk is unchanged. When it reports failure, in either case, it
    returns no path, and the reason is an unparsable URI, a fault of the
    transport, a missing object or, without a local path, no free
    temporary name. *)
Theorem download_gives_the_object_or_nothing (E : Env) (uri : string)
    (local_path : option string) (st : State) :
  exists ok msg lp st',
    download_from_s3 E uri local_path st = (Ok (ok, msg, lp), st')
    /\ store st' = store st
    /\ match local_path with
       | None => extends st st'
       | Some given => forall q, q <> given -> fs st' !! q = fs st !! q
       end
    /\ if ok then
         exists p b k o,
           lp = Some p /\ parse_s3_uri E uri = Ok (b, k)
           /\ get_fault E b k = None /\ store st !! (b, k) = Some o
           /\ fs st' = <[p := content o]> (fs st)
           /\ match local_path with
              | None =>
                  fs st !! p = None
                  /\ Py.endswith p (OsPath.splitext (OsPath.basename k)).2 = true
              | Some given => p = given
              end
       else
         lp = None
         /\ match local_path with
            | None => True
            | Some _ => fs st' = fs st
            end
         /\ forall b k, parse_s3_uri E uri = Ok (b, k) ->
              is_Some (get_fault E b k) \/ store st !! (b, k) = None
              \/ (local_path = None
                  /\ Os.probe (fs st) (OsPath.splitext (OsPath.basename k)).2
                              (tmp_next st) Os.TMP_MAX = None).
Proof.
  unfold download_from_s3, s3_download_file. run_monad.
  destruct (parse_s3_uri E uri) as [[b k]|e] eqn:Hp; simpl.
  2: { eexists _, _, _, _. split; [reflexivity|]. simpl.
       split; [done|]. split; [destruct local_path; [done|by apply extends_same_fs]|].
       split; [done|]. split; [by destruct local_path|done]. }
  destruct local_path as [given|].
  { destruct (get_fault E b k) as [e|] eqn:Hf.
    { assert (Hwhy : forall b0 k0, Ok (b, k) = Ok (b0, k0) ->
                is_Some (get_fault E b0 k0) \/ store st !! (b0, k0) = None
                \/ (Some given = None
                    /\ Os.probe (fs st) (OsPath.splitext (OsPath.basename k0)).2
                                (tmp_next st) Os.TMP_MAX = None)).
      { intros ? ? [= <- <-]. rewrite Hf. eauto. }
      handler_cases e;
        (eexists _, _, _, _; split; [reflexivity|]; simpl;
         split; [done|]; split; [done|]; split; [done|]; split; [done|exact Hwhy]). }
    destruct (store st !! (b, k)) as [o|] eqn:Ho; simpl.
    - eexists _, _, _, _. split; [reflexivity|]. simpl.
      split; [done|]. split.
      { intros q Hq. by rewrite lookup_insert_ne. }
      exists given, b, k, o. split; [done|]. split; [done|]. split; [done|].
      split; [done|]. split; done.
    - eexists _, _, _, _. split; [reflexivity|]. simpl.
      split; [done|]. split; [done|]. split; [done|]. split; [done|].
      intros ? ? [= <- <-]. right. by left. }
  destruct (OsPath.splitext (OsPath.basename k)) as [stem ext] eqn:Hsplit.
  pose proof (mkstemp_cases ext st) as Hmk.
  destruct (Os.probe (fs st) ext (tmp_next st) Os.TMP_MAX) as [n|] eqn:Hprobe.
  2: { destruct Hmk as [e ->].
       assert (Hwhy : forall b0 k0, Ok (b, k) = Ok (b0, k0) ->
                 is_Some (get_fault E b0 k0) \/ store st !! (b0, k0) = None
                 \/ (@None string = None
                     /\ Os.probe (fs st) (OsPath.splitext (OsPath.basename k0)).2
                                 (tmp_next st) Os.TMP_MAX = None)).
       { intros ? ? [= <- <-]. rewrite Hsplit. auto. }
       handler_cases e;
         (eexists _, _, _, _; split; [reflexivity|]; simpl;
          split; [done|]; split; [by apply extends_same_fs|];
          split; [done|]; split; [done|exact Hwhy]). }
  destruct Hmk as (st1 & Hmk & Hfresh & Hfs & Hst & Hc).
  pose proof (mkstemp_suffix _ _ _ _ Hmk) as Hsuffix. rewrite Hmk.
  assert (Hext : extends st st1) by eauto using extends_insert_fresh.
  destruct (get_fault E b k) as [e|] eqn:Hf.
  { assert (Hwhy : forall b0 k0, Ok (b, k) = Ok (b0, k0) ->
              is_Some (get_fault E b0 k0) \/ store st !! (b0, k0) = None
              \/ (@None string = None
                  /\ Os.probe (fs st) (OsPath.splitext (OsPath.basename k0)).2
                              (tmp_next st) Os.TMP_MAX = None)).
    { intros ? ? [= <- <-]. rewrite Hf. eauto. }
    handler_cases e;
      (eexists _, _, _, _; split; [reflexivity|]; simpl;
       split; [congruence|]; split; [exact Hext|];
       split; [done|]; split; [done|exact Hwhy]). }
  destruct (store st1 !! (b, k)) as [o|] eqn:Ho; simpl.
  - eexists _, _, _, _. split; [reflexivity|]. simpl.
    split; [done|]. split.
    { intros q dq Hq. simpl. rewrite lookup_insert_ne; [by apply Hext|].
      intros <-. congruence. }
    eexists _, b, k, o. split; [reflexivity|]. split; [done|]. split; [done|].
    split; [congruence|]. split.
    + rewrite Hfs. by rewrite insert_insert_eq.
    + split; [exact Hfresh|]. rewrite Hsplit. exact Hsuffix.
  - eexists _, _, _, _. split; [reflexivity|]. simpl.
    split; [congruence|]. split; [exact Hext|]. split; [done|]. split; [done|].
    intros ? ? [= <- <-]. right. left. congruence.
Qed.

Example download_to_a_given_path_overwrites :
  download_from_s3 env0 "s3://bkt/docs/report.docx" (Some "a.docx") st_docs
  = (Ok (true, "Downloaded from S3", Some "a.docx"),
     {| fs := <["a.docx" := DocxFile doc_b]> (fs st_docs);
        store := store st_docs;
        tmp_next := 0;
        calls := [Download "s3://bkt/docs/report.docx"
                    (true, "Downloaded from S3", Some "a.docx")] |}).
Proof. vm_compute. reflexivity. Qed.

(** X4. [upload_to_s3] never raises and never touches the disk. It reports
    success exactly when the URI parses, the local file exists and the
    store accepts the transfer; the store then holds the content of the
    file at the parsed bucket and key and is otherwise as before. When it
    reports failure the store is unchanged. *)
Theorem upload_succeeds_exactly_when (E : Env) (local uri : string) (st : State) :
  exists ok msg st',
    upload_to_s3 E local uri st = (Ok (ok, msg), st')
    /\ fs st' = fs st
    /\ (ok = true <-> exists b k d,
          parse_s3_uri E uri = Ok (b, k) /\ fs st !! local = Some d
          /\ put_fault E b k = None)
    /\ (ok = false -> store st' = store st)
    /\ (forall b k d,
          ok = true -> parse_s3_uri E uri = Ok (b, k) -> fs st !! local = Some d ->
          store st' = <[(b, k) := {| content := d;
                                     content_type := upload_content_type local |}]>
                        (store st)).
Proof.
  unfold upload_to_s3, s3_upload_file. run_monad.
  destruct (parse_s3_uri E uri) as [[b k]|e] eqn:Hp; simpl.
  2: { eexists _, _, _. split; [reflexivity|]. simpl.
       repeat split; try done. by intros (? & ? & ? & ? & _). }
  destruct (Os.path_exists st local) eqn:Hex; simpl.
  2: { eexists _, _, _. split; [reflexivity|]. simpl.
       apply path_exists_false in Hex.
       repeat split; try done. intros (? & ? & ? & _ & ? & _). congruence. }
  apply path_exists_true in Hex as [d Hd]. rewrite Hd.
  destruct (put_fault E b k) as [e|] eqn:Hf.
  { destruct e as [m|m|m| |code m|m]; simpl;
      try destruct (String.eqb (error_code code) "403");
      (eexists _, _, _; split; [reflexivity|]; simpl;
       repeat split; try done;
       intros (? & ? & ? & [= <- <-] & _ & ?); congruence). }
  simpl. eexists _, _, _. split; [reflexivity|]. simpl.
  repeat split; try done.
  - intros _. by exists b, k, d.
  - intros ? ? ? _ [= <- <-] [= <-]. done.
Qed.

(** X5. What was uploaded comes back: after a successful upload of a local
    file to a URI, a download of the same URI - when the transfer meets no
    fault and a temporary name is free - succeeds and gives a new file with
    the content of the uploaded one, which is still in place. *)
Theorem uploaded_file_downloads_back (E : Env) (local uri msg : string)
    (st st1 : State) :
  upload_to_s3 E local uri st = (Ok (true, msg), st1) ->
  exists b k d,
    parse_s3_uri E uri = Ok (b, k)
    /\ fs st !! local = Some d
    /\ (get_fault E b k = None ->
        is_Some (Os.probe (fs st1) (OsPath.splitext (OsPath.basename k)).2
                          (tmp_next st1) Os.TMP_MAX) ->
        exists p st2,
          download_from_s3 E uri None st1 = (Ok (true, "Downloaded from S3", Some p), st2)
          /\ p <> local
          /\ fs st2 !! p = Some d
          /\ fs st2 !! local = Some d).
Proof.
  intros Hup.
  destruct (upload_to_s3_run E local uri st)
    as (sent & r & st' & Hrun & _ & Hfs & _ & _ & _ & Hok).
  rewrite Hup in Hrun. injection Hrun as <- <-.
  destruct (Hok eq_refl) as (b & k & d & Hparse & Hd & Hstore).
  exists b, k, d. split; [done|]. split; [done|].
  intros Hfault [n Hprobe].
  assert (Hobj : store st1 !! (b, k)
                 = Some {| content := d; content_type := upload_content_type local |})
    by (rewrite Hstore; by simplify_map_eq).
  destruct (download_from_s3_success E uri b k _ n st1 Hparse Hfault Hobj Hprobe)
    as (st2 & Hdown & Hfresh & Hfs2 & _).
  eexists _, st2. split; [exact Hdown|].
  assert (Hne : Os.tmp_name n (OsPath.splitext (OsPath.basename k)).2 <> local).
  { intros Heq. rewrite Heq, Hfs in Hfresh. congruence. }
  split; [done|]. rewrite Hfs2. split; [by simplify_map_eq|].
  rewrite lookup_insert_ne by done. by rewrite Hfs.
Qed.

Lemma uploaded_file_downloads_back_witness :
  exists b k d,
    parse_s3_uri env0 "s3://bkt/copies/a.docx" = Ok (b, k)
    /\ fs st_docs !! "a.docx" = Some d
    /\ (get_fault env0 b k = None ->
        is_Some (Os.probe (fs (upload_to_s3 env0 "a.docx" "s3://bkt/copies/a.docx" st_docs).2)
                          (OsPath.splitext (OsPath.basename k)).2
                          (tmp_next (upload_to_s3 env0 "a.docx" "s3://bkt/copies/a.docx"
                                       st_docs).2) Os.TMP_MAX) ->
        exists p st2,
          download_from_s3 env0 "s3://bkt/copies/a.docx" None
            (upload_to_s3 env0 "a.docx" "s3://bkt/copies/a.docx" st_docs).2
          = (Ok (true, "Downloaded from S3", Some p), st2)
          /\ p <> "a.docx"
          /\ fs st2 !! p = Some d
          /\ fs st2 !! "a.docx" = Some d).
Proof.
  apply (uploaded_file_downloads_back env0 "a.docx" "s3://bkt/copies/a.docx"
           "Uploaded to s3://bkt/copies/a.docx" st_docs).
  vm_compute. reflexivity.
Defined.

(** ** The helpers of [file_utils.py] *)

Lemma prefix_app_absent p : forall r c rest,
  Py.contains c p = false ->
  String.prefix p (r +:+ String c rest) = String.prefix p r.
Proof.
  induction p as [|a p IH]; intros r c rest Hc.
  - by destruct r.
  - simpl in Hc. apply orb_false_iff in Hc as [Hac Hp].
    destruct r as [|b r].
    + rewrite str_app_nil_l. simpl. destruct (ascii_dec a c) as [->|]; [|done].
      by rewrite Ascii.eqb_refl in Hac.
    + rewrite str_app_cons. simpl. destruct (ascii_dec a b); [by apply IH|done].
Qed.

Lemma prefix_app_short p : forall s t,
  (String.length p <= String.length s)%nat ->
  String.prefix p (s +:+ t) = String.prefix p s.
Proof.
  induction p as [|a p IH]; intros s t Hlen.
  - by destruct s, t.
  - destruct s as [|b s]; simpl in Hlen; [lia|].
    rewrite str_app_cons. simpl. destruct (ascii_dec a b); [apply IH; lia|done].
Qed.

(** Whether a path of the form [<pre>/<k>] ends with [.docx] is decided
    by [k]. *)
Lemma endswith_after_separator pre k :
  Py.endswith (pre +:+ "/" +:+ k) ".docx" = Py.endswith k ".docx".
Proof.
  unfold Py.endswith. rewrite !rev_app_distr.
  change (String.rev "/") with "/". rewrite str_app_assoc.
  by apply prefix_app_absent.
Qed.

(** X6. The extension rule does not change what a name is taken for: the
    result is an S3 URI exactly when the name is one. It is the name itself
    when that ends with [.docx], and the name followed by [.docx]
    otherwise. *)
Theorem ensure_docx_extension_keeps_the_kind (s : string) :
  is_s3_uri (ensure_docx_extension s) = is_s3_uri s
  /\ ensure_docx_extension s
     = (if Py.endswith s ".docx" then s else s +:+ ".docx")
  /\ (ensure_docx_extension s = s <-> Py.endswith s ".docx" = true).
Proof.
  assert (Hform : ensure_docx_extension s
                  = if Py.endswith s ".docx" then s else s +:+ ".docx").
  { unfold ensure_docx_extension. by destruct (is_s3_uri s), (Py.endswith s ".docx"). }
  split; [|split; [exact Hform|]].
  - rewrite Hform. destruct (Py.endswith s ".docx"); [done|].
    unfold is_s3_uri, Py.startswith.
    destruct s as [|c1 [|c2 [|c3 [|c4 [|c5 s]]]]];
      try (apply (prefix_app_short "s3://"); simpl; lia);
      rewrite ?str_app_cons, ?str_app_nil_l; simpl;
      repeat (destruct (ascii_dec _ _) as [<-|]; [|done]); done.
  - rewrite Hform. destruct (Py.endswith s ".docx") eqn:He; [done|].
    split; [|done]. intros Heq. apply (f_equal String.length) in Heq.
    rewrite str_length_app in Heq. simpl in Heq. lia.
Qed.

(** X7. On a plain address the extension rule acts on the key: the
    normalised address parses to the same bucket and to the key under the
    extension rule, which ends with [.docx]. *)
Theorem extension_rule_on_a_plain_address (E : Env) (b k : string) :
  Locator.plain_bucket b = true ->
  Locator.plain_key k = true ->
  parse_s3_uri E (ensure_docx_extension ("s3://" +:+ b +:+ "/" +:+ k))
  = Ok (b, ensure_docx_extension k)
  /\ Py.endswith (ensure_docx_extension k) ".docx" = true.
Proof.
  intros Hb Hk.
  assert (Hform : forall s, ensure_docx_extension s
                            = if Py.endswith s ".docx" then s else s +:+ ".docx").
  { intros s. unfold ensure_docx_extension.
    by destruct (is_s3_uri s), (Py.endswith s ".docx"). }
  split.
  - rewrite !Hform. rewrite <- (str_app_assoc "s3://" b), endswith_after_separator.
    rewrite (str_app_assoc "s3://" b).
    destruct (Py.endswith k ".docx"); [by apply parse_s3_uri_plain|].
    rewrite !str_app_assoc. apply parse_s3_uri_plain; [done|].
    unfold Locator.plain_key in *.
    apply andb_true_iff in Hk as [[Hne Hslash]%andb_true_iff Hkc].
    destruct k as [|a k]; [done|].
    rewrite str_app_cons, startswith_cons.
    rewrite startswith_cons in Hslash. rewrite Hslash.
    rewrite <- str_app_cons, all_chars_app, Hkc. done.
  - rewrite Hform. destruct (Py.endswith k ".docx") eqn:He; [done|]. apply endswith_app.
Qed.

Lemma extension_rule_on_a_plain_address_witness :
  parse_s3_uri env0 (ensure_docx_extension ("s3://" +:+ "bkt" +:+ "/" +:+ "docs/report"))
  = Ok ("bkt", ensure_docx_extension "docs/report")
  /\ Py.endswith (ensure_docx_extension "docs/report") ".docx" = true.
Proof.
  apply (extension_rule_on_a_plain_address env0 "bkt" "docs/report"); reflexivity.
Defined.

Section FileHelpers.

Variable E : Env.

Local Arguments Os.mkstemp : simpl never.
Local Arguments Os.probe : simpl never.
Local Arguments Os.TMP_MAX : simpl never.
Local Arguments Os.path_exists : simpl never.
Local Arguments download_from_s3 : simpl never.

(** [os.path.dirname] of a name without separator is empty. *)
Lemma dirname_bare p : Py.contains "/" p = false -> OsPath.dirname p = "".
Proof.
  intros Hp. unfold OsPath.dirname, Py.rfind.
  rewrite rfind_from_absent by done. simpl. unfold Py.slice_to. simpl.
  by destruct p.
Qed.

(** The name [shutil.copy2] is given by default differs from the source. *)
Lemma copy_name_differs p :
  (OsPath.splitext p).1 +:+ "_copy" +:+ (OsPath.splitext p).2 <> p.
Proof.
  pose proof (splitext_app p) as Hsplit.
  destruct (OsPath.splitext p) as [stem ext]. simpl in *.
  intros Heq. apply (f_equal String.length) in Heq.
  rewrite <- Hsplit, !str_length_app in Heq. simpl in Heq. lia.
Qed.

End FileHelpers.

(** X8. The verdict and the message of [check_file_writeable] agree: the
    file is reported writeable exactly when the message is empty. For a
    name without directory part that does not exist yet, the verdict is
    the one of the current directory. *)
Theorem check_file_writeable_verdict (E : Env) (filepath : string) (st : State) :
  ((check_file_writeable E filepath st).1 = true
   <-> (check_file_writeable E filepath st).2 = "")
  /\ (Py.contains "/" filepath = false ->
      Os.path_exists st filepath = false ->
      (check_file_writeable E filepath st).1 = dir_exists E "." && access_w E ".").
Proof.
  split.
  - unfold check_file_writeable.
    destruct (Os.path_exists st filepath); simpl.
    + destruct (access_w E filepath); simpl; [|by split].
      destruct (append_fault E filepath) as [[m|m|m| |code m|m]|]; simpl; by split.
    + destruct (String.eqb (OsPath.dirname filepath) "");
        destruct (dir_exists E _); simpl; try (by split);
        destruct (access_w E _); simpl; by split.
  - intros Hbare Hmissing. unfold check_file_writeable.
    rewrite Hmissing, (dirname_bare _ Hbare). simpl.
    by destruct (dir_exists E "."), (access_w E ".").
Qed.

Lemma check_file_writeable_verdict_witness :
  (check_file_writeable env0 "new.docx" st_docs).1
  = dir_exists env0 "." && access_w env0 ".".
Proof.
  apply (proj2 (check_file_writeable_verdict env0 "new.docx" st_docs)); reflexivity.
Defined.

(** X9. [create_document_copy] never raises and touches neither the store
    nor any file but the destination. On success the destination - the
    given one, or the source with [_copy] before its extension - is not the
    source and holds the content of the source; on failure nothing has
    changed. Without a given destination it fails only when the source is
    missing or the disk refuses the write: the default name never collides
    with the source. *)
Theorem create_document_copy_outcome (write_fault : string -> option exn)
    (source_path : string) (dest_path : option string) (st : State) :
  let target :=
    if opt_truthy dest_path then default "" dest_path
    else (OsPath.splitext source_path).1 +:+ "_copy" +:+ (OsPath.splitext source_path).2 in
  exists ok msg new_path st',
    create_document_copy write_fault source_path dest_path st
    = (Ok (ok, msg, new_path), st')
    /\ store st' = store st
    /\ if ok then
         exists d,
           new_path = Some target
           /\ msg = "Document copied to " +:+ target
           /\ fs st !! source_path = Some d
           /\ target <> source_path
           /\ fs st' = <[target := d]> (fs st)
       else
         new_path = None /\ st' = st
         /\ (opt_truthy dest_path = false ->
             fs st !! source_path = None \/ is_Some (write_fault target)).
Proof.
  intros target. unfold create_document_copy, copy2_checked. run_monad.
  destruct (Os.path_exists st source_path) eqn:Hex; simpl.
  2: { apply path_exists_false in Hex. eexists _, _, _, _. split; [reflexivity|].
       simpl. auto. }
  apply path_exists_true in Hex as [d Hd]. rewrite Hd.
  assert (Htarget : (if negb (opt_truthy dest_path)
                     then let '(base, ext) := OsPath.splitext source_path in
                          base +:+ "_copy" +:+ ext
                     else default "" dest_path) = target).
  { subst target. destruct (opt_truthy dest_path); simpl; [done|].
    by destruct (OsPath.splitext source_path). }
  rewrite Htarget.
  destruct (String.eqb_spec source_path target) as [Heq|Hne].
  { eexists _, _, _, _. split; [reflexivity|]. simpl. repeat split; try done.
    intros Hdefault. exfalso. subst target. rewrite Hdefault in Heq.
    by apply (copy_name_differs source_path). }
  destruct (write_fault target) as [e|] eqn:Hwf.
  { eexists _, _, _, _. split; [reflexivity|]. simpl. repeat split; eauto. }
  eexists _, _, _, _. split; [reflexivity|]. simpl. split; [done|].
  exists d. by repeat split.
Qed.

(** ** Temporary files and their release *)

#[local] Arguments Os.path_exists : simpl never.
#[local] Arguments download_from_s3 : simpl never.
#[local] Arguments upload_to_s3 : simpl never.

(** One call of [cleanup_temp_file]. *)
Lemma cleanup_temp_file_run filepath (is_temp : bool) st :
  exists st',
    cleanup_temp_file filepath is_temp st = (Ok tt, st')
    /\ store st' = store st /\ calls st' = calls st /\ tmp_next st' = tmp_next st
    /\ fs st' = if is_temp && Py.truthy filepath then delete filepath (fs st) else fs st.
Proof.
  unfold cleanup_temp_file, Os.unlink_quietly. run_monad.
  destruct is_temp, (Py.truthy filepath); simpl; try by eexists.
  destruct (Os.path_exists st filepath) eqn:Hex; simpl;
    (eexists; split; [reflexivity|]; simpl; repeat split; try done).
  apply path_exists_false in Hex. by rewrite delete_id.
Qed.

(** X10. [cleanup_temp_file] never raises and touches neither the store
    nor any other file. When the file is flagged temporary and its path is
    not empty, the file is gone afterwards, whether it existed or not;
    otherwise nothing changes. A second call changes nothing more. *)
Theorem cleanup_temp_file_effect (filepath : string) (is_temp : bool) (st : State) :
  exists st',
    cleanup_temp_file filepath is_temp st = (Ok tt, st')
    /\ store st' = store st
    /\ (forall q, q <> filepath -> fs st' !! q = fs st !! q)
    /\ (if is_temp && Py.truthy filepath then fs st' !! filepath = None else st' = st)
    /\ cleanup_temp_file filepath is_temp st' = (Ok tt, st').
Proof.
  unfold cleanup_temp_file, Os.unlink_quietly. run_monad.
  destruct is_temp, (Py.truthy filepath); simpl; try by eexists.
  destruct (Os.path_exists st filepath) eqn:Hex; simpl.
  - eexists. split; [reflexivity|]. simpl. split; [done|].
    split; [by intros q Hq; simplify_map_eq|].
    split; [by simplify_map_eq|].
    replace (Os.path_exists (set_fs (delete filepath) st) filepath) with false; [done|].
    symmetry. apply path_exists_false. simpl. by simplify_map_eq.
  - eexists. split; [reflexivity|]. split; [done|]. split; [done|].
    split; [by apply path_exists_false|]. by rewrite Hex.
Qed.

(** X11. [create_new_s3_document] hands back the URI it was given and the
    path of a new, empty file whose name ends with the extension of the
    URI, or with [.docx] when the URI has none; releasing that file with
    [cleanup_temp_file] puts the disk back as it was. *)
Theorem new_s3_document_is_released (s3_uri local_path uri' : string)
    (st st1 : State) :
  create_new_s3_document s3_uri st = (Ok (local_path, uri'), st1) ->
  uri' = s3_uri
  /\ fs st !! local_path = None
  /\ fs st1 = <[local_path := EmptyFile]> (fs st)
  /\ store st1 = store st
  /\ Py.endswith local_path
       (if Py.truthy (OsPath.splitext s3_uri).2 then (OsPath.splitext s3_uri).2
        else ".docx") = true
  /\ exists st2,
       cleanup_temp_file local_path true st1 = (Ok tt, st2)
       /\ fs st2 = fs st /\ store st2 = store st.
Proof.
  unfold create_new_s3_document.
  destruct (OsPath.splitext s3_uri) as [stem ext]. simpl.
  set (suffix := if Py.truthy ext then ext else ".docx").
  unfold bind, ret.
  destruct (mkstemp_run suffix st)
    as [(p & st' & Hmk & Htmp & Hfresh & Hfs & Hst & _)|[e Hmk]];
    rewrite Hmk; [|done].
  intros [= <- <- <-]. split; [done|]. split; [done|]. split; [done|].
  split; [done|]. split; [by apply (mkstemp_suffix suffix st p st')|].
  destruct (cleanup_temp_file_run p true st') as (st2 & Hrun & Hs2 & _ & _ & Hfs2).
  exists st2. split; [done|]. split; [|congruence].
  rewrite Hfs2, (proj2 (truthy_true p)) by (by apply is_tmp_name_nonempty).
  simpl. rewrite Hfs. by apply delete_insert_id.
Qed.

Lemma new_s3_document_is_released_witness :
  "s3://bkt/out/report.pdf" = "s3://bkt/out/report.pdf"
  /\ fs st_docs !! "/tmp/tmp0.pdf" = None
  /\ fs (create_new_s3_document "s3://bkt/out/report.pdf" st_docs).2
     = <["/tmp/tmp0.pdf" := EmptyFile]> (fs st_docs)
  /\ store (create_new_s3_document "s3://bkt/out/report.pdf" st_docs).2 = store st_docs
  /\ Py.endswith "/tmp/tmp0.pdf"
       (if Py.truthy (OsPath.splitext "s3://bkt/out/report.pdf").2
        then (OsPath.splitext "s3://bkt/out/report.pdf").2 else ".docx") = true
  /\ exists st2,
       cleanup_temp_file "/tmp/tmp0.pdf" true
         (create_new_s3_document "s3://bkt/out/report.pdf" st_docs).2 = (Ok tt, st2)
       /\ fs st2 = fs st_docs /\ store st2 = store st_docs.
Proof.
  apply (new_s3_document_is_released "s3://bkt/out/report.pdf" "/tmp/tmp0.pdf"
           "s3://bkt/out/report.pdf" st_docs).
  vm_compute. reflexivity.
Defined.

(** X12. [resolve_file_for_read] and [resolve_s3_path] are the same
    function. A local path is handed back as it is, flagged local, and
    nothing happens. For an S3 URI a failed download raises [IOError]; a
    successful one gives the path of a new file holding the object, flagged
    remote, with the URI. Releasing the resolved path with
    [cleanup_temp_file] under that flag puts the disk back as it was. *)
Theorem resolved_file_is_released (E : Env) (filename : string) (st : State) :
  S3Handler.resolve_s3_path E filename st = resolve_file_for_read E filename st
  /\ (is_s3_uri filename = false ->
      resolve_file_for_read E filename st = (Ok (Some filename, false, None), st))
  /\ (forall e st1, resolve_file_for_read E filename st = (Raise e, st1) ->
        is_s3_uri filename = true
        /\ exists m, e = IOError ("Failed to download from S3: " +:+ m))
  /\ (forall lp flag orig st1,
        resolve_file_for_read E filename st = (Ok (lp, flag, orig), st1) ->
        flag = is_s3_uri filename
        /\ (flag = true ->
            orig = Some filename
            /\ exists p b k o,
                 lp = Some p /\ fs st !! p = None
                 /\ parse_s3_uri E filename = Ok (b, k)
                 /\ store st !! (b, k) = Some o
                 /\ fs st1 !! p = Some (content o))
        /\ exists st2,
             cleanup_temp_file (default "" lp) flag st1 = (Ok tt, st2)
             /\ fs st2 = fs st /\ store st2 = store st).
Proof.
  split; [reflexivity|].
  unfold resolve_file_for_read.
  destruct (is_s3_uri filename) eqn:Hs3.
  2: { split; [done|]. split; [done|].
       intros lp flag orig st1 [= <- <- <- <-]. split; [done|]. split; [done|].
       destruct (cleanup_temp_file_run filename false st) as (st2 & Hrun & Hs2 & _ & _ & Hfs2).
       exists st2. simpl in *. by rewrite Hrun. }
  split; [done|].
  unfold bind.
  destruct (download_from_s3_run E filename st)
    as ([[ok msg] lp'] & st' & -> & _ & Hst & _ & Hok & _).
  destruct ok; simpl.
  - split; [done|]. intros lp flag orig st1 [= <- <- <- <-].
    destruct (Hok eq_refl) as (p & b & k & o & Hlp & Htmp & Hfresh & Hparse & Hobj & Hfs).
    simpl in Hlp. subst lp'. split; [done|]. split.
    { intros _. split; [done|]. exists p, b, k, o. repeat split; try done.
      rewrite Hfs. by simplify_map_eq. }
    destruct (cleanup_temp_file_run p true st') as (st2 & Hrun & Hs2 & _ & _ & Hfs2).
    exists st2. simpl. split; [done|]. split; [|congruence].
    rewrite Hfs2, (proj2 (truthy_true p)) by (by apply is_tmp_name_nonempty).
    simpl. rewrite Hfs. by apply delete_insert_id.
  - split; [|done]. intros e st1 [= <- <-]. split; [done|]. by eexists.
Qed.

Lemma resolved_file_is_released_witness :
  let st1 := (resolve_file_for_read env0 "s3://bkt/docs/report.docx" st_docs).2 in
  exists st2,
    cleanup_temp_file "/tmp/tmp0.docx" true st1 = (Ok tt, st2)
    /\ fs st2 = fs st_docs /\ store st2 = store st_docs.
Proof.
  intros st1.
  destruct (resolved_file_is_released env0 "s3://bkt/docs/report.docx" st_docs)
    as (_ & _ & _ & Hok).
  destruct (Hok (Some "/tmp/tmp0.docx") true (Some "s3://bkt/docs/report.docx") st1)
    as (_ & _ & Hreleased); [vm_compute; reflexivity|].
  exact Hreleased.
Defined.

(** ** The files of a working-copy session *)

#[local] Arguments Os.mkstemp : simpl never.

Lemma truthy_app_cons s a t : Py.truthy (s +:+ String a t) = true.
Proof. by destruct s. Qed.

Lemma versioned_path_truthy E s : Py.truthy (Ctx._generate_versioned_path E s) = true.
Proof.
  unfold Ctx._generate_versioned_path. destruct (OsPath.splitext s) as [stem ext].
  apply truthy_app_cons.
Qed.

(** X13. A read-write session on an S3 URI works on a copy. Once opened it
    holds two distinct new files: the download, which is kept as it came,
    and the output working file, a copy of it, to which the working path
    points; both hold the content of the object the URI parses to, and the
    store is untouched. *)
Theorem read_write_session_edits_a_copy (E : Env) (filename : string)
    (output : option string) (st st1 : State) (ctx : S3FileContext) :
  is_s3_uri filename = true ->
  Ctx.__enter__ E (Ctx.__init__ E filename false output) st = (Ok ctx, st1) ->
  exists p0 p1 b k o,
    _temp_file ctx = Some p0
    /\ _output_temp_file ctx = Some p1
    /\ local_path ctx = Some p1
    /\ output_local_path ctx = Some p1
    /\ p0 <> p1
    /\ fs st !! p0 = None /\ fs st !! p1 = None
    /\ parse_s3_uri E filename = Ok (b, k)
    /\ store st !! (b, k) = Some o
    /\ fs st1 = <[p1 := content o]> (<[p0 := content o]> (fs st))
    /\ store st1 = store st.
Proof.
  intros Hs3.
  remember (Ctx.__init__ E filename false output) as self eqn:Hself.
  assert (Hout : opt_truthy (output_s3_uri self) = true).
  { subst self. simpl. rewrite Hs3. simpl.
    destruct (opt_truthy output) eqn:Ho; [done|]. simpl. apply versioned_path_truthy. }
  assert (His : is_s3 self = true) by (by subst self).
  assert (Horig : original_path self = filename) by (by subst self).
  clear Hself. unfold Ctx.__enter__, Os.copy2.
  rewrite His, Horig. unfold bind at 1 2.
  destruct (download_from_s3_run E filename st)
    as ([[ok msg] lp] & st0 & -> & _ & Hst0 & Hext & Hok & _).
  destruct ok; simpl; [|done].
  destruct (Hok eq_refl) as (p0 & b & k & o & Hlp & Htmp0 & Hfresh0 & Hparse & Hobj & Hfs0).
  simpl in Hlp. subst lp. unfold ret at 1. cbn [output_s3_uri Ctx.set_temp_file Ctx.set_local_path].
  rewrite Hout.
  destruct (OsPath.splitext _) as [stem ext].
  unfold bind at 1.
  destruct (mkstemp_run (if Py.truthy ext then ext else ".docx") st0)
    as [(p1 & st' & -> & Htmp1 & Hfresh1 & Hfs1 & Hst' & _)|[e ->]]; [|done].
  cbn [is_s3 local_path Ctx.set_output_temp_file Ctx.set_output_local_path
       Ctx.set_temp_file Ctx.set_local_path].
  rewrite His. cbn [opt_truthy andb].
  rewrite (proj2 (truthy_true p0)) by (by apply is_tmp_name_nonempty).
  unfold bind, ret. simpl.
  assert (Hp0 : fs st' !! p0 = Some (content o)).
  { rewrite Hfs1, lookup_insert_ne; [rewrite Hfs0; by simplify_map_eq|].
    intros ->. rewrite Hfs0 in Hfresh1. by simplify_map_eq. }
  rewrite Hp0.
  intros [= <- <-]. simpl.
  assert (Hne : p0 <> p1).
  { intros ->. rewrite Hfs0 in Hfresh1. by simplify_map_eq. }
  exists p0, p1, b, k, o. repeat split; try done; try congruence.
  - destruct (fs st !! p1) eqn:Hp1; [|done]. apply Hext in Hp1. congruence.
  - rewrite Hfs1, Hfs0. by rewrite insert_insert_eq.
Qed.

Lemma read_write_session_edits_a_copy_witness :
  exists p0 p1 b k o,
    _temp_file ctx_report = Some p0
    /\ _output_temp_file ctx_report = Some p1
    /\ local_path ctx_report = Some p1
    /\ output_local_path ctx_report = Some p1
    /\ p0 <> p1
    /\ fs st_docs !! p0 = None /\ fs st_docs !! p1 = None
    /\ parse_s3_uri env0 "s3://bkt/docs/report.docx" = Ok (b, k)
    /\ store st_docs !! (b, k) = Some o
    /\ fs st_report_opened = <[p1 := content o]> (<[p0 := content o]> (fs st_docs))
    /\ store st_report_opened = store st_docs.
Proof.
  apply (read_write_session_edits_a_copy env0 "s3://bkt/docs/report.docx" None
           st_docs st_report_opened ctx_report).
  - reflexivity.
  - vm_compute. reflexivity.
Defined.

(** X14. With an explicit output URI the session reports that URI as its
    result, and the only call that closing it can make is an upload of the
    output working file to that URI. The output working file is a new
    file; for a local source it is created empty and the working path
    stays the source itself. *)
Theorem explicit_output_uri_is_the_target (E : Env) (filename out : string)
    (ro : bool) (st st1 : State) (ctx : S3FileContext) :
  Py.truthy out = true ->
  Ctx.__enter__ E (Ctx.__init__ E filename ro (Some out)) st = (Ok ctx, st1) ->
  Ctx.get_result_path ctx = out
  /\ (exists p,
        output_local_path ctx = Some p /\ _output_temp_file ctx = Some p
        /\ fs st !! p = None /\ is_Some (fs st1 !! p)
        /\ (is_s3_uri filename = false ->
            local_path ctx = Some filename /\ fs st1 = <[p := EmptyFile]> (fs st)))
  /\ forall exc st2,
       new_calls st2 (Ctx.__exit__ E ctx exc st2).2 = []
       \/ exists p sent res,
            output_local_path ctx = Some p
            /\ new_calls st2 (Ctx.__exit__ E ctx exc st2).2 = [Upload p out sent res].
Proof.
  intros Hout Henter.
  pose proof (enter_run E _ _ _ _ Henter) as (_ & Huri & _ & _ & _).
  simpl in Huri. rewrite Hout in Huri.
  split; [unfold Ctx.get_result_path; by rewrite Huri; simpl; rewrite Hout|].
  split.
  - revert Henter.
    remember (Ctx.__init__ E filename ro (Some out)) as self eqn:Hinit.
    assert (Hself : opt_truthy (output_s3_uri self) = true)
      by (subst self; simpl; by rewrite Hout).
    assert (His : is_s3 self = is_s3_uri filename) by (by subst self).
    assert (Horig : original_path self = filename) by (by subst self).
    clear Hinit Huri. unfold Ctx.__enter__, Os.copy2.
    rewrite His, Horig. unfold bind at 1.
    destruct (is_s3_uri filename) eqn:Hs3.
    + unfold bind at 1.
      destruct (download_from_s3_run E filename st)
        as ([[ok msg] lp] & st0 & -> & _ & Hst0 & Hext & Hok & _).
      destruct ok; simpl; [|done].
      destruct (Hok eq_refl) as (p0 & b & k & o & Hlp & Htmp0 & Hfresh0 & _ & _ & Hfs0).
      simpl in Hlp. subst lp. unfold ret at 1.
      cbn [output_s3_uri Ctx.set_temp_file Ctx.set_local_path]. rewrite Hself.
      destruct (OsPath.splitext _) as [stem ext]. unfold bind at 1.
      destruct (mkstemp_run (if Py.truthy ext then ext else ".docx") st0)
        as [(p1 & st' & -> & Htmp1 & Hfresh1 & Hfs1 & Hst' & _)|[e ->]]; [|done].
      cbn [is_s3 local_path Ctx.set_output_temp_file Ctx.set_output_local_path
           Ctx.set_temp_file Ctx.set_local_path].
      rewrite His. cbn [opt_truthy andb].
      rewrite (proj2 (truthy_true p0)) by (by apply is_tmp_name_nonempty).
      unfold bind, ret. simpl.
      destruct (fs st' !! p0) as [d|]; [|done].
      intros [= <- <-]. simpl. exists p1. repeat split; try done.
      * destruct (fs st !! p1) eqn:Hp1; [|done]. apply Hext in Hp1. congruence.
      * by simplify_map_eq.
    + unfold ret at 1. cbn [output_s3_uri Ctx.set_local_path]. rewrite Hself.
      destruct (OsPath.splitext _) as [stem ext]. unfold bind at 1.
      destruct (mkstemp_run (if Py.truthy ext then ext else ".docx") st)
        as [(p1 & st' & -> & Htmp1 & Hfresh1 & Hfs1 & Hst' & _)|[e ->]]; [|done].
      cbn [is_s3 local_path Ctx.set_output_temp_file Ctx.set_output_local_path
           Ctx.set_local_path].
      rewrite His. cbn [andb]. unfold ret.
      intros [= <- <-]. simpl. exists p1. repeat split; try done.
      rewrite Hfs1. by simplify_map_eq.
  - intros exc st2.
    destruct (exit_run E ctx exc st2) as (r & st3 & -> & Hcases & _). simpl.
    destruct Hcases as [(Hc & _)
                       |(lp & uri & sent & res & _ & _ & Hlp & Huri' & Hc & _)].
    + left. by apply new_calls_nil.
    + right. rewrite Huri in Huri'. injection Huri' as <-.
      exists lp, sent, res. split; [done|]. by apply new_calls_app.
Qed.

Lemma explicit_output_uri_is_the_target_witness :
  let ctx := {| original_path := "a.docx"; is_s3 := false; read_only := false;
                local_path := Some "a.docx"; _temp_file := None;
                _output_temp_file := Some "/tmp/tmp0.pdf";
                output_local_path := Some "/tmp/tmp0.pdf";
                output_s3_uri := Some "s3://bkt/out/a.pdf" |} in
  let st1 := (Ctx.__enter__ env0
                (Ctx.__init__ env0 "a.docx" false (Some "s3://bkt/out/a.pdf")) st_docs).2 in
  Ctx.get_result_path ctx = "s3://bkt/out/a.pdf"
  /\ (exists p,
        output_local_path ctx = Some p /\ _output_temp_file ctx = Some p
        /\ fs st_docs !! p = None /\ is_Some (fs st1 !! p)
        /\ (is_s3_uri "a.docx" = false ->
            local_path ctx = Some "a.docx" /\ fs st1 = <[p := EmptyFile]> (fs st_docs)))
  /\ forall exc st2,
       new_calls st2 (Ctx.__exit__ env0 ctx exc st2).2 = []
       \/ exists p sent res,
            output_local_path ctx = Some p
            /\ new_calls st2 (Ctx.__exit__ env0 ctx exc st2).2
               = [Upload p "s3://bkt/out/a.pdf" sent res].
Proof.
  apply (explicit_output_uri_is_the_target env0 "a.docx" "s3://bkt/out/a.pdf" false st_docs).
  - reflexivity.
  - vm_compute. reflexivity.
Defined.

(** ** The handler [s3_file_handler] *)

Section HandlerFacts.

Variable E : Env.

Lemma handler_cleanup_run tf : forall st,
  calls (S3Handler.cleanup tf st) = calls st
  /\ store (S3Handler.cleanup tf st) = store st
  /\ (forall q, ~ In q tf -> fs (S3Handler.cleanup tf st) !! q = fs st !! q)
  /\ (forall p, In p tf -> p <> "" -> fs (S3Handler.cleanup tf st) !! p = None).
Proof.
  intros st. destruct (merge_cleanup_run tf st) as (Hc & Hs & _ & Hother & Hgone).
  change (S3Handler.cleanup tf st) with (Merge.cleanup tf st). auto.
Qed.

(** With the empty suffix and no new extension the generated address is
    the canonical form of the input. *)
Lemma generate_output_same s b k :
  parse_s3_uri E s = Ok (b, k) ->
  generate_output_s3_uri E s "" None = Ok ("s3://" +:+ b +:+ "/" +:+ k)
  /\ parse_s3_uri E ("s3://" +:+ b +:+ "/" +:+ k) = Ok (b, k).
Proof.
  intros Hparse. pose proof Hparse as (Hs & Herr & Hb & Hbc & Hk)%parse_s3_uri_ok_inv.
  split; [|by apply parse_s3_uri_assembled].
  unfold generate_output_s3_uri. rewrite Hparse.
  pose proof (splitext_app k) as Hsplit.
  destruct (OsPath.splitext k) as [stem ext]. simpl in Hsplit.
  rewrite str_app_nil_l. by rewrite Hsplit.
Qed.

(** What runs before the [yield]: only a download is made, the store and
    the existing files are left alone, the registered files are new files
    of the scratch directory, and the tuple that is yielded is made of
    them as far as the input or the output is remote. *)
Lemma setup_run input output st r tf st1 :
  S3Handler.setup E input output st = (r, tf, st1) ->
  store st1 = store st
  /\ extends st st1
  /\ Forall (fun p => is_tmp_name p = true /\ fs st !! p = None) tf
  /\ match r with
     | Raise _ => True
     | Ok (li, lo, is3, out) =>
         is3 = is_s3_uri input
         /\ (if is_s3_uri input
             then In li tf
                  /\ exists b k o, parse_s3_uri E input = Ok (b, k)
                       /\ store st !! (b, k) = Some o
                       /\ fs st1 !! li = Some (content o)
             else li = input)
         /\ match out with
            | Some u =>
                In lo tf /\ fs st1 !! lo = Some EmptyFile
                /\ (is_s3_uri input = true -> lo <> li)
                /\ (if opt_truthy output then output = Some u
                    else exists b k, parse_s3_uri E input = Ok (b, k)
                           /\ parse_s3_uri E u = Ok (b, k))
            | None =>
                lo = (if opt_truthy output then default "" output else li)
                /\ (opt_truthy output && is_s3_uri (default "" output) = false)
                /\ (opt_truthy output = false -> is_s3_uri input = false)
            end
     end.
Proof.
  unfold S3Handler.setup.
  destruct (is_s3_uri input) eqn:Hs3.
  - destruct (download_from_s3_run E input st)
      as ([[ok msg] lp] & st0 & -> & _ & Hst0 & Hext0 & Hok & _).
    destruct ok; simpl.
    2: { intros [= <- <- <-]. repeat split; try done. }
    destruct (Hok eq_refl) as (p0 & b & k & o & Hlp & Htmp0 & Hfresh0 & Hparse & Hobj & Hfs0).
    simpl in Hlp. subst lp. simpl.
    assert (Hp0 : fs st0 !! p0 = Some (content o)) by (rewrite Hfs0; by simplify_map_eq).
    destruct (opt_truthy output) eqn:Hout; simpl.
    + destruct (is_s3_uri (default "" output)) eqn:Hos3.
      * destruct (OsPath.splitext (default "" output)) as [stem ext].
        destruct (mkstemp_run (if Py.truthy ext then ext else ".docx") st0)
          as [(p1 & st' & -> & Htmp1 & Hfresh1 & Hfs1 & Hst' & _)|[e ->]].
        2: { intros [= <- <- <-]. repeat split; try done. by repeat constructor. }
        intros [= <- <- <-].
        assert (Hne : p1 <> p0) by (intros ->; congruence).
        split; [congruence|]. split.
        { eapply extends_trans; [exact Hext0|]. by eapply extends_insert_fresh. }
        split.
        { repeat constructor; try done.
          destruct (fs st !! p1) eqn:Hp1; [|done]. apply Hext0 in Hp1. congruence. }
        split; [done|]. split.
        { split; [by left|]. exists b, k, o. repeat split; try done.
          rewrite Hfs1. by simplify_map_eq. }
        destruct output as [u|]; [|done].
        repeat split; try done; [right; by left|rewrite Hfs1; by simplify_map_eq].
      * intros [= <- <- <-].
        split; [done|]. split; [done|]. split; [by repeat constructor|].
        split; [done|]. split.
        { split; [by left|]. by exists b, k, o. }
        rewrite ?Hout, ?Hos3. by repeat split.
    + destruct (generate_output_same input b k Hparse) as [-> Hreparse].
      destruct (OsPath.splitext _) as [stem ext].
      destruct (mkstemp_run (if Py.truthy ext then ext else ".docx") st0)
        as [(p1 & st' & -> & Htmp1 & Hfresh1 & Hfs1 & Hst' & _)|[e ->]].
      2: { intros [= <- <- <-]. repeat split; try done. by repeat constructor. }
      intros [= <- <- <-].
      assert (Hne : p1 <> p0) by (intros ->; congruence).
      split; [congruence|]. split.
      { eapply extends_trans; [exact Hext0|]. by eapply extends_insert_fresh. }
      split.
      { repeat constructor; try done.
        destruct (fs st !! p1) eqn:Hp1; [|done]. apply Hext0 in Hp1. congruence. }
      split; [done|]. split.
      { split; [by left|]. exists b, k, o. repeat split; try done.
        rewrite Hfs1. by simplify_map_eq. }
      repeat split; try done; [right; by left|rewrite Hfs1; by simplify_map_eq|].
      by exists b, k.
  - simpl. destruct (opt_truthy output) eqn:Hout; simpl.
    + destruct (is_s3_uri (default "" output)) eqn:Hos3.
      * destruct (OsPath.splitext (default "" output)) as [stem ext].
        destruct (mkstemp_run (if Py.truthy ext then ext else ".docx") st)
          as [(p1 & st' & -> & Htmp1 & Hfresh1 & Hfs1 & Hst' & _)|[e ->]].
        2: { intros [= <- <- <-]. repeat split; try done. apply extends_refl. }
        intros [= <- <- <-].
        split; [done|]. split; [by eapply extends_insert_fresh|].
        split; [by repeat constructor|].
        split; [done|]. split; [done|].
        destruct output as [u|]; [|done].
        repeat split; try done; [by left|rewrite Hfs1; by simplify_map_eq].
      * intros [= <- <- <-]. rewrite ?Hout, ?Hos3.
        repeat split; try done. apply extends_refl.
    + intros [= <- <- <-]. rewrite ?Hout.
      repeat split; try done. apply extends_refl.
Qed.

End HandlerFacts.

(** X15. Whatever the body does and however the handler ends - the set-up
    failed, the body raised, the upload failed, or all went well - every
    temporary file the handler registered is gone at the end. The
    registered files are new files, and they include the local input of a
    remote input and the local output of a remote output. *)
Theorem handler_releases_its_temp_files {A} (E : Env) (input_path : string)
    (output_path : option string) (upload_output : bool)
    (body : string * string * bool * option string -> M A) (st : State) :
  let temp_files := (S3Handler.setup E input_path output_path st).1.2 in
  let final :=
    (S3Handler.s3_file_handler E input_path output_path upload_output body st).2 in
  Forall (fun p => fs st !! p = None /\ fs final !! p = None) temp_files
  /\ match (S3Handler.setup E input_path output_path st).1.1 with
     | Ok (local_input, local_output, is_s3_input, output_s3_uri) =>
         (is_s3_input = true -> In local_input temp_files)
         /\ (is_Some output_s3_uri -> In local_output temp_files)
     | Raise _ => True
     end.
Proof.
  intros temp_files final. subst temp_files final.
  unfold S3Handler.s3_file_handler.
  destruct (S3Handler.setup E input_path output_path st) as [[r tf] st1] eqn:Hsetup.
  apply setup_run in Hsetup as (_ & _ & Htf & Hr). simpl.
  assert (Hgone : forall stx, Forall (fun p => fs st !! p = None
                     /\ fs (S3Handler.cleanup tf stx) !! p = None) tf).
  { intros stx. destruct (handler_cleanup_run tf stx) as (_ & _ & _ & Hgone).
    rewrite Forall_forall in Htf. apply Forall_forall. intros p Hp.
    destruct (Htf p Hp) as [Htmp Hfresh]. split; [done|].
    apply Hgone; [by apply list_elem_of_In|by apply is_tmp_name_nonempty]. }
  split.
  - destruct r as [[[[li lo] is3] out]|e]; [|apply Hgone].
    destruct (body _ st1) as [[a|e] st2]; [|apply Hgone].
    destruct (S3Handler.commit _ _ _ _ st2) as [[[]|e] st3]; apply Hgone.
  - destruct r as [[[[li lo] is3] out]|e]; [|done].
    destruct Hr as (-> & Hli & Hlo). split.
    + intros Hs3. rewrite Hs3 in Hli. by destruct Hli.
    + intros [u ->]. by destruct Hlo.
Qed.

(** X16. With a remote input and no output path the handler writes back
    to the input: the output URI it yields parses to the bucket and key of
    the input. When the body completes and has left the output file, then
    with [upload_output] set that file is uploaded over the object of the
    input - or the upload fails, the handler raises [IOError] and the
    store is as the body left it; with [upload_output] off nothing is
    uploaded: the handler returns what the body returned and the store is
    as the body left it. *)
Theorem handler_writes_back_to_the_input_object {A} (E : Env) (input_path : string)
    (output_path : option string) (upload_output : bool)
    (body : string * string * bool * option string -> M A)
    (st st1 st2 : State) (local_input local_output : string) (is_s3_input : bool)
    (output_s3_uri : option string) (temp_files : list string) (a : A) (d : FileData) :
  is_s3_uri input_path = true ->
  opt_truthy output_path = false ->
  S3Handler.setup E input_path output_path st
  = (Ok (local_input, local_output, is_s3_input, output_s3_uri), temp_files, st1) ->
  body (local_input, local_output, is_s3_input, output_s3_uri) st1 = (Ok a, st2) ->
  fs st2 !! local_output = Some d ->
  exists b k u,
    parse_s3_uri E input_path = Ok (b, k)
    /\ output_s3_uri = Some u
    /\ parse_s3_uri E u = Ok (b, k)
    /\ let r := S3Handler.s3_file_handler E input_path output_path upload_output
                  body st in
       if upload_output then
         (r.1 = Ok a
          /\ store r.2 = <[(b, k) := {| content := d;
                                        content_type := upload_content_type local_output |}]>
                           (store st2))
         \/ (exists m, r.1 = Raise (IOError ("Failed to upload output to S3: " +:+ m))
                       /\ store r.2 = store st2)
       else
         r.1 = Ok a /\ store r.2 = store st2
         /\ new_calls st2 r.2 = [].
Proof.
  intros Hs3 Hout Hsetup Hbody Hd.
  pose proof (setup_run E _ _ _ _ _ _ Hsetup) as (_ & _ & _ & _ & _ & Hlo).
  rewrite Hout in Hlo.
  destruct output_s3_uri as [u|].
  2: { destruct Hlo as (_ & _ & Hlocal). rewrite Hlocal in Hs3 by done. done. }
  destruct Hlo as (_ & _ & _ & b & k & Hparse & Hreparse).
  exists b, k, u. split; [done|]. split; [done|]. split; [done|].
  destruct upload_output.
  2: { unfold S3Handler.s3_file_handler. rewrite Hsetup, Hbody.
       unfold S3Handler.commit, bind, get_state, ret. simpl.
       destruct (handler_cleanup_run temp_files st2) as (Hcalls & Hstore & _).
       split; [done|]. split; [done|]. by apply new_calls_nil. }
  assert (Hu : Py.truthy u = true).
  { apply truthy_true. intros ->. by vm_compute in Hreparse. }
  assert (Hex : Os.path_exists st2 local_output = true)
    by (apply path_exists_true; eauto).
  destruct (upload_to_s3_run E local_output u st2)
    as (sent & [ok msg] & st3 & Hrun & _ & _ & _ & Hfail & _ & Hok).
  assert (Hcommit : S3Handler.commit E true local_output (Some u) st2
                    = (if ok then Ok tt
                       else Raise (IOError ("Failed to upload output to S3: " +:+ msg)),
                       st3)).
  { unfold S3Handler.commit, bind, get_state, ret, raise. simpl.
    rewrite Hu, Hex. simpl. rewrite Hrun. by destruct ok. }
  unfold S3Handler.s3_file_handler. rewrite Hsetup, Hbody, Hcommit.
  destruct (handler_cleanup_run temp_files st3) as (_ & Hstore & _).
  destruct ok; simpl.
  - left. split; [done|]. rewrite Hstore.
    destruct (Hok eq_refl) as (b' & k' & d' & Hp' & Hd' & ->).
    rewrite Hreparse in Hp'. injection Hp' as <- <-.
    rewrite Hd in Hd'. by injection Hd' as <-.
  - right. exists msg. split; [done|]. rewrite Hstore. by apply Hfail.
Qed.

Lemma handler_writes_back_to_the_input_object_witness :
  let body := fun t : string * string * bool * option string =>
                Merge.Document_save doc_a t.1.1.2 in
  let st1 := (S3Handler.setup env0 "s3://bkt/docs/report.docx" None st_docs).2 in
  let st2 := (body ("/tmp/tmp0.docx", "/tmp/tmp1.docx", true,
                    Some "s3://bkt/docs/report.docx") st1).2 in
  (exists b k u,
    parse_s3_uri env0 "s3://bkt/docs/report.docx" = Ok (b, k)
    /\ Some "s3://bkt/docs/report.docx" = Some u
    /\ parse_s3_uri env0 u = Ok (b, k)
    /\ let r := S3Handler.s3_file_handler env0 "s3://bkt/docs/report.docx" None true
                  body st_docs in
       (r.1 = Ok tt
        /\ store r.2 = <[(b, k) := {| content := DocxFile doc_a;
                                      content_type := upload_content_type "/tmp/tmp1.docx" |}]>
                         (store st2))
       \/ (exists m, r.1 = Raise (IOError ("Failed to upload output to S3: " +:+ m))
                     /\ store r.2 = store st2))
  /\ (exists b k u,
    parse_s3_uri env0 "s3://bkt/docs/report.docx" = Ok (b, k)
    /\ Some "s3://bkt/docs/report.docx" = Some u
    /\ parse_s3_uri env0 u = Ok (b, k)
    /\ let r := S3Handler.s3_file_handler env0 "s3://bkt/docs/report.docx" None false
                  body st_docs in
       r.1 = Ok tt /\ store r.2 = store st2 /\ new_calls st2 r.2 = []).
Proof.
  intros body st1 st2. split.
  - apply (handler_writes_back_to_the_input_object env0 "s3://bkt/docs/report.docx" None
             true body st_docs st1 st2 "/tmp/tmp0.docx" "/tmp/tmp1.docx" true
             (Some "s3://bkt/docs/report.docx") ["/tmp/tmp0.docx"; "/tmp/tmp1.docx"]
             tt (DocxFile doc_a)).
    + reflexivity.
    + reflexivity.
    + vm_compute. reflexivity.
    + vm_compute. reflexivity.
    + vm_compute. reflexivity.
  - apply (handler_writes_back_to_the_input_object env0 "s3://bkt/docs/report.docx" None
             false body st_docs st1 st2 "/tmp/tmp0.docx" "/tmp/tmp1.docx" true
             (Some "s3://bkt/docs/report.docx") ["/tmp/tmp0.docx"; "/tmp/tmp1.docx"]
             tt (DocxFile doc_a)).
    + reflexivity.
    + reflexivity.
    + vm_compute. reflexivity.
    + vm_compute. reflexivity.
    + vm_compute. reflexivity.
Defined.

(** X17. On local paths the handler is transparent: with a local input and
    a local output, or none, it downloads nothing, creates no file,
    uploads nothing and removes nothing; it runs the body on the input
    path and the output path (the input path when none is given), and its
    outcome and final state are those of the body. *)
Theorem handler_is_transparent_on_local_paths {A} (E : Env) (input_path : string)
    (output_path : option string) (upload_output : bool)
    (body : string * string * bool * option string -> M A) (st : State) :
  is_s3_uri input_path = false ->
  opt_truthy output_path && is_s3_uri (default "" output_path) = false ->
  S3Handler.s3_file_handler E input_path output_path upload_output body st
  = body (input_path,
          if opt_truthy output_path then default "" output_path else input_path,
          false, None) st.
Proof.
  intros Hs3 Hlocal.
  unfold S3Handler.s3_file_handler, S3Handler.setup. rewrite Hs3.
  destruct (opt_truthy output_path) eqn:Hout; simpl in Hlocal.
  - rewrite Hlocal. simpl.
    destruct (body _ st) as [[a|e] st2]; [|done].
    unfold S3Handler.commit, bind, get_state, ret. simpl.
    by destruct upload_output.
  - simpl. destruct (body _ st) as [[a|e] st2]; [|done].
    unfold S3Handler.commit, bind, get_state, ret. simpl.
    by destruct upload_output.
Qed.

Lemma handler_is_transparent_on_local_paths_witness :
  S3Handler.s3_file_handler env0 "a.docx" (Some "out.docx") true
    (fun t => Merge.Document_save doc_b t.1.1.2) st_docs
  = (fun t : string * string * bool * option string => Merge.Document_save doc_b t.1.1.2)
      ("a.docx", if opt_truthy (Some "out.docx") then default "" (Some "out.docx")
                 else "a.docx", false, None) st_docs.
Proof.
  apply (handler_is_transparent_on_local_paths env0 "a.docx" (Some "out.docx") true
           (fun t => Merge.Document_save doc_b t.1.1.2) st_docs); reflexivity.
Defined.

(** X18. The handler uploads only a completed output: when the body
    raises, or when [upload_output] is off, the handler makes no call to
    the client after the body, the store is as the body left it, and the
    outcome of the body - its value or its exception - is the outcome of
    the handler. *)
Theorem handler_uploads_only_a_completed_output {A} (E : Env) (input_path : string)
    (output_path : option string) (upload_output : bool)
    (body : string * string * bool * option string -> M A)
    (st st1 st2 : State) (t : string * string * bool * option string)
    (temp_files : list string) (r : Outcome A) :
  S3Handler.setup E input_path output_path st = (Ok t, temp_files, st1) ->
  body t st1 = (r, st2) ->
  upload_output = false \/ (exists e, r = Raise e) ->
  let h := S3Handler.s3_file_handler E input_path output_path upload_output body st in
  h.1 = r /\ calls h.2 = calls st2 /\ store h.2 = store st2.
Proof.
  intros Hsetup Hbody Hwhy h. subst h.
  unfold S3Handler.s3_file_handler. rewrite Hsetup.
  destruct t as [[[li lo] is3] out]. rewrite Hbody.
  destruct (handler_cleanup_run temp_files st2) as (Hc & Hs & _).
  destruct r as [a|e]; [|done].
  destruct Hwhy as [->|[e [=]]].
  unfold S3Handler.commit, bind, get_state, ret. simpl. done.
Qed.

Lemma handler_uploads_only_a_completed_output_witness :
  let body := fun t : string * string * bool * option string =>
                Merge.Document_open "/nowhere.docx" in
  let st1 := (S3Handler.setup env0 "s3://bkt/docs/report.docx" None st_docs).2 in
  let h := S3Handler.s3_file_handler env0 "s3://bkt/docs/report.docx" None true
             body st_docs in
  h.1 = Raise (OtherException "Package not found at '/nowhere.docx'")
  /\ calls h.2 = calls st1 /\ store h.2 = store st1.
Proof.
  intros body st1.
  apply (handler_uploads_only_a_completed_output env0 "s3://bkt/docs/report.docx" None
           true body st_docs st1 st1
           ("/tmp/tmp0.docx", "/tmp/tmp1.docx", true, Some "s3://bkt/docs/report.docx")
           ["/tmp/tmp0.docx"; "/tmp/tmp1.docx"]).
  - vm_compute. reflexivity.
  - vm_compute. reflexivity.
  - right. by eexists.
Defined.

(** ** What the merge leaves alone *)

Section MergeFrame.

Variable E : Env.

Local Arguments ensure_docx_extension : simpl never.



End MergeFrame.

#[local] Arguments ensure_docx_extension : simpl never.


(** X20. Merging no source at all still succeeds: with a writeable local
    target and an empty list of sources, [merge_documents] writes an empty
    document to the target, reports zero documents merged, and does
    nothing else. *)
Theorem merge_of_no_sources (E : Env) (target : string) (add_page_breaks : bool)
    (st : State) :
  is_s3_uri (ensure_docx_extension target) = false ->
  (check_file_writeable E (ensure_docx_extension target) st).1 = true ->
  Merge.merge_documents E target [] add_page_breaks st
  = (Merge.success_message 0 (ensure_docx_extension target),
     set_fs <[ensure_docx_extension target := DocxFile Docx_.Document_new]> st).
Proof.
  intros Hlocal Hw. unfold Merge.merge_documents. cbv zeta. rewrite Hlocal. simpl.
  destruct (check_file_writeable E (ensure_docx_extension target) st) as [ok m].
  simpl in Hw. subst ok. simpl.
  unfold Merge.try_block. simpl. done.
Qed.

Lemma merge_of_no_sources_witness :
  Merge.merge_documents env0 "empty" [] true st_docs
  = (Merge.success_message 0 (ensure_docx_extension "empty"),
     set_fs <[ensure_docx_extension "empty" := DocxFile Docx_.Document_new]> st_docs).
Proof.
  apply (merge_of_no_sources env0 "empty" true st_docs); reflexivity.
Defined.

(** ** The tools [copy_document], [create_document] and the readers *)

Lemma endswith_nonempty s a t : Py.endswith s (String a t) = true -> s <> "".
Proof.
  intros H ->. unfold Py.endswith in H.
  change (String a t) with (String a "" +:+ t) in H. rewrite rev_app_distr in H.
  change (String.rev (String a "")) with (String a "") in H.
  change (String.rev "") with "" in H.
  destruct (String.rev t); [rewrite str_app_nil_l in H|rewrite str_app_cons in H];
    simpl in H; done.
Qed.

Lemma ensure_docx_extension_nonempty s : ensure_docx_extension s <> "".
Proof.
  apply (endswith_nonempty _ "." "docx").
  unfold ensure_docx_extension.
  destruct (is_s3_uri s), (Py.endswith s ".docx") eqn:He; simpl;
    auto using endswith_app.
Qed.

Lemma copy_destination_nonempty src dest : Py.truthy (copy_destination src dest) = true.
Proof.
  unfold copy_destination. destruct (opt_truthy dest).
  - apply truthy_true, ensure_docx_extension_nonempty.
  - destruct (OsPath.splitext _) as [stem ext]. apply truthy_app_cons.
Qed.

Section CopyFacts.

Variable E : Env.
Variable write_fault : string -> option exn.

Local Arguments ensure_docx_extension : simpl never.
Local Arguments copy_destination : simpl never.

(** [copy_document] in terms of its source and destination names. *)
Lemma copy_document_unfold src dest st :
  let S := ensure_docx_extension src in
  let D := copy_destination src dest in
  Tools.copy_document E write_fault src dest st
  = let '(r, st') :=
      if is_s3_uri S || is_s3_uri D
      then Tools.copy_through_s3 E write_fault S D (is_s3_uri S) (is_s3_uri D) st
      else (let* '(success, message, new_path) :=
              create_document_copy write_fault S (Some D) in
            if success then ret message
            else ret ("Failed to copy document: " +:+ message)) st in
    match r with
    | Ok message => (message, st')
    | Raise e => ("Failed to copy document: " +:+ str_exn e, st')
    end.
Proof. reflexivity. Qed.

(** The copy through the store, by cases. Either it stops before copying,
    with a message of failure, the store untouched and the disk as it was
    up to an empty file left by the failed download; or the source was
    resolved to a local file holding its content, and the copy was
    attempted from there, the downloaded file being removed at the end. *)
Lemma copy_through_s3_run S D st r st' :
  Tools.copy_through_s3 E write_fault S D (is_s3_uri S) (is_s3_uri D) st = (r, st') ->
  (forall q, q <> D ->
     fs st' !! q = fs st !! q \/ (fs st !! q = None /\ fs st' !! q = Some EmptyFile))
  /\ (forall b k, parse_s3_uri E D <> Ok (b, k) ->
        store st' !! (b, k) = store st !! (b, k))
  /\ (is_s3_uri D = false -> store st' = store st)
  /\ (r = Ok ("Document copied to " +:+ D) ->
      exists d, stored_at E st S = Some d /\ stored_at E st' D = Some d)
  /\ (r <> Ok ("Document copied to " +:+ D) ->
      store st' = store st
      /\ (is_s3_uri D = false ->
          fs st' !! D = fs st !! D
          \/ (fs st !! D = None /\ fs st' !! D = Some EmptyFile))).
Proof.
  unfold Tools.copy_through_s3, stored_at.
  destruct (is_s3_uri S) eqn:HS.
  - destruct (download_from_s3_run E S st)
      as ([[ok msg] lp] & st0 & -> & _ & Hst0 & Hext0 & Hok & Hfail).
    destruct ok; simpl.
    2: { intros [= <- <-]. destruct (Hfail eq_refl) as (_ & Hdisk).
         assert (Hall : forall q, fs st0 !! q = fs st !! q
                         \/ (fs st !! q = None /\ fs st0 !! q = Some EmptyFile)).
         { intros q. destruct Hdisk as [->|(p & _ & Hp & ->)]; [by left|].
           destruct (decide (q = p)) as [->|]; [right|left]; by simplify_map_eq. }
         split; [auto|]. split; [by rewrite Hst0|]. split; [done|].
         split; [|auto].
         intros Hm. discriminate Hm. }
    destruct (Hok eq_refl) as (p & b & k & o & Hlp & Htmp & Hfresh & Hparse & Hobj & Hfs0).
    simpl in Hlp. subst lp. simpl. rewrite Hparse, Hobj. simpl.
    rewrite (proj2 (truthy_true p)) by (by apply is_tmp_name_nonempty).
    assert (Hp0 : fs st0 !! p = Some (content o)) by (rewrite Hfs0; by simplify_map_eq).
    unfold try_finally.
    destruct (is_s3_uri D) eqn:HD.
    + unfold bind at 1.
      destruct (upload_to_s3_run E p D st0)
        as (sent & [ok msg'] & st1 & -> & _ & Hfs1 & _ & Hfail1 & _ & Hok1).
      assert (Hex : Os.path_exists st1 p = true).
      { apply path_exists_true. rewrite Hfs1. eauto. }
      assert (Hdisk : forall q, fs (set_fs (delete p) st1) !! q = fs st !! q).
      { intros q. simpl. rewrite Hfs1, Hfs0.
        destruct (decide (q = p)) as [->|]; by simplify_map_eq. }
      destruct ok; simpl; unfold bind, get_state, ret, modify; simpl; rewrite Hex;
        intros [= <- <-].
      * destruct (Hok1 eq_refl) as (b' & k' & d & Hp' & Hd & Hstore).
        simpl. split; [intros q _; left; apply Hdisk|].
        split.
        { intros b2 k2 Hne. rewrite Hstore, lookup_insert_ne, Hst0; [done|].
          intros [= -> ->]. done. }
        split; [done|]. split.
        { intros _. exists (content o). split; [done|].
          rewrite Hp0 in Hd. injection Hd as <-.
          rewrite Hp', Hstore. by simplify_map_eq. }
        intros Hne. by exfalso.
      * simpl. split; [intros q _; left; apply Hdisk|].
        rewrite (Hfail1 eq_refl), Hst0.
        split; [done|]. split; [done|]. split; [|done].
        intros Hm. discriminate Hm.
    + unfold bind at 1. unfold copy2_checked. rewrite Hp0.
      destruct (String.eqb_spec p D) as [Heq|Hne].
      { unfold bind, get_state, ret, modify; simpl.
        assert (Hex : Os.path_exists st0 p = true) by (apply path_exists_true; eauto).
        rewrite Hex. intros [= <- <-]. simpl.
        assert (Hdisk : forall q, fs (set_fs (delete p) st0) !! q = fs st !! q).
        { intros q. simpl. rewrite Hfs0.
          destruct (decide (q = p)) as [->|]; by simplify_map_eq. }
        split; [intros q _; left; apply Hdisk|].
        split; [by rewrite Hst0|]. split; [done|]. split; [done|].
        intros _. split; [done|]. intros _. left. apply Hdisk. }
      destruct (write_fault D) as [e|] eqn:Hwf.
      { unfold bind, get_state, ret, modify; simpl.
        assert (Hex : Os.path_exists st0 p = true) by (apply path_exists_true; eauto).
        rewrite Hex. intros [= <- <-]. simpl.
        assert (Hdisk : forall q, fs (set_fs (delete p) st0) !! q = fs st !! q).
        { intros q. simpl. rewrite Hfs0.
          destruct (decide (q = p)) as [->|]; by simplify_map_eq. }
        split; [intros q _; left; apply Hdisk|].
        split; [by rewrite Hst0|]. split; [done|]. split; [done|].
        intros _. split; [done|]. intros _. left. apply Hdisk. }
      unfold bind, get_state, ret, modify; simpl.
      assert (Hex : Os.path_exists (set_fs <[D := content o]> st0) p = true).
      { apply path_exists_true. simpl. rewrite lookup_insert_ne by done. eauto. }
      rewrite Hex. intros [= <- <-]. simpl.
      split.
      { intros q Hq. left. rewrite Hfs0.
        destruct (decide (q = p)) as [->|]; by simplify_map_eq. }
      split; [by rewrite Hst0|]. split; [done|]. split; [|done].
      intros _. exists (content o). split; [done|]. by simplify_map_eq.
  - destruct (Os.path_exists st S) eqn:Hex; simpl.
    2: { intros [= <- <-]. split; [auto|]. split; [done|]. split; [done|].
         split; [|auto].
         intros Hm. discriminate Hm. }
    apply path_exists_true in Hex as [d Hd]. rewrite Hd.
    unfold try_finally.
    destruct (is_s3_uri D) eqn:HD.
    + unfold bind at 1.
      destruct (upload_to_s3_run E S D st)
        as (sent & [ok msg'] & st1 & -> & _ & Hfs1 & _ & Hfail1 & _ & Hok1).
      destruct ok; simpl; unfold bind, get_state, ret; simpl; intros [= <- <-].
      * destruct (Hok1 eq_refl) as (b' & k' & d' & Hp' & Hd' & Hstore).
        split; [intros q _; left; by rewrite Hfs1|].
        split.
        { intros b2 k2 Hne. rewrite Hstore, lookup_insert_ne; [done|].
          intros [= -> ->]. done. }
        split; [done|]. split.
        { intros _. exists d. split; [done|].
          rewrite Hd in Hd'. injection Hd' as <-.
          rewrite Hp', Hstore. by simplify_map_eq. }
        intros Hne. by exfalso.
      * split; [intros q _; left; by rewrite Hfs1|].
        rewrite (Hfail1 eq_refl).
        split; [done|]. split; [done|]. split; [|done].
        intros Hm. discriminate Hm.
    + unfold bind at 1. unfold copy2_checked. rewrite Hd.
      destruct (String.eqb_spec S D) as [Heq|Hne].
      { unfold bind, get_state, ret; simpl. intros [= <- <-].
        repeat split; auto; done. }
      destruct (write_fault D) as [e|] eqn:Hwf.
      { unfold bind, get_state, ret; simpl. intros [= <- <-].
        repeat split; auto; done. }
      unfold bind, get_state, ret; simpl. intros [= <- <-]. simpl.
      split; [intros q Hq; left; by simplify_map_eq|].
      split; [done|]. split; [done|]. split; [|done].
      intros _. exists d. split; [done|]. by simplify_map_eq.
Qed.

End CopyFacts.

Section LocalCopyFacts.

Variable write_fault : string -> option exn.

(** The copy between two local names, as [copy_document] makes it. *)
Lemma local_copy_run S D st :
  Py.truthy D = true ->
  exists m st',
    (let* '(success, message, new_path) :=
       create_document_copy write_fault S (Some D) in
     if success then ret message
     else ret ("Failed to copy document: " +:+ message)) st = (Ok m, st')
    /\ store st' = store st
    /\ ((m = "Document copied to " +:+ D
         /\ exists d, fs st !! S = Some d /\ fs st' = <[D := d]> (fs st))
        \/ (m <> "Document copied to " +:+ D /\ st' = st)).
Proof.
  intros HD. unfold create_document_copy, copy2_checked. run_monad. rewrite HD. simpl.
  destruct (Os.path_exists st S) eqn:Hex; simpl.
  2: { eexists _, _. split; [reflexivity|]. split; [done|]. right.
       split; [|done]. intros Hm. discriminate Hm. }
  apply path_exists_true in Hex as [d Hd]. rewrite Hd.
  destruct (String.eqb S D).
  { eexists _, _. split; [reflexivity|]. split; [done|]. right.
    split; [|done]. intros Hm. discriminate Hm. }
  destruct (write_fault D) as [e|].
  { eexists _, _. split; [reflexivity|]. split; [done|]. right.
    split; [|done]. intros Hm. discriminate Hm. }
  eexists _, _. split; [reflexivity|]. split; [done|]. left. eauto.
Qed.

End LocalCopyFacts.

#[local] Arguments copy_destination : simpl never.

(** X21. When [copy_document] answers that the document was copied, the
    destination - a file of the disk or an object of the store, the given
    name under the extension rule or the default name - holds the content
    that the source stood for, whichever of the two is local or remote. *)
Theorem copied_document_is_at_its_destination (E : Env)
    (write_fault : string -> option exn) (source_filename : string)
    (destination_filename : option string) (st : State) :
  let D := copy_destination source_filename destination_filename in
  (Tools.copy_document E write_fault source_filename destination_filename st).1
  = "Document copied to " +:+ D ->
  exists d,
    stored_at E st (ensure_docx_extension source_filename) = Some d
    /\ stored_at E
         (Tools.copy_document E write_fault source_filename destination_filename st).2 D
       = Some d.
Proof.
  intros D. rewrite copy_document_unfold. fold D.
  set (S := ensure_docx_extension source_filename).
  destruct (is_s3_uri S || is_s3_uri D) eqn:Hs3.
  - destruct (Tools.copy_through_s3 E write_fault S D (is_s3_uri S) (is_s3_uri D) st)
      as [r st'] eqn:Hrun.
    apply copy_through_s3_run in Hrun as (_ & _ & _ & Hok & _).
    destruct r as [m|e]; simpl.
    + intros ->. by apply Hok.
    + intros Hm. discriminate Hm.
  - apply orb_false_iff in Hs3 as [HS HD].
    destruct (local_copy_run write_fault S D st (copy_destination_nonempty _ _))
      as (m & st' & -> & _ & [(-> & d & Hd & Hfs)|(Hne & ->)]); simpl; [|done].
    intros _. exists d. unfold stored_at. rewrite HS, HD, Hfs.
    split; [done|]. by simplify_map_eq.
Qed.

Lemma copied_document_is_at_its_destination_witness :
  exists d,
    stored_at env0 st_docs (ensure_docx_extension "s3://bkt/docs/report") = Some d
    /\ stored_at env0
         (Tools.copy_document env0 (fun _ => None) "s3://bkt/docs/report"
            (Some "copies/report") st_docs).2
         (copy_destination "s3://bkt/docs/report" (Some "copies/report"))
       = Some d.
Proof.
  apply (copied_document_is_at_its_destination env0 (fun _ => None)
           "s3://bkt/docs/report" (Some "copies/report") st_docs).
  vm_compute. reflexivity.
Defined.


Section CreateFacts.

Variable E : Env.
Variable ensure_heading_style ensure_table_style : Docx -> Outcome Docx.

(** Building and saving the new document: it is written when both style
    helpers accept it, and nothing happens otherwise. *)
Lemma build_and_save_run p st :
  (exists d1 doc,
      ensure_heading_style Docx_.Document_new = Ok d1
      /\ ensure_table_style d1 = Ok doc
      /\ Tools.build_and_save ensure_heading_style ensure_table_style p st
         = (Ok tt, set_fs <[p := DocxFile doc]> st))
  \/ (exists e,
        Tools.build_and_save ensure_heading_style ensure_table_style p st = (Raise e, st)).
Proof.
  unfold Tools.build_and_save, Tools.lift, Merge.Document_save, bind, modify.
  destruct (ensure_heading_style Docx_.Document_new) as [d1|e] eqn:H1; [|right; eauto].
  destruct (ensure_table_style d1) as [doc|e] eqn:H2; [|right; eauto].
  left. by exists d1, doc.
Qed.

End CreateFacts.

#[local] Arguments Tools.build_and_save : simpl never.

(** X23. [create_document] answers that the document was created only when
    it is stored: the target - the file, or the object the URI parses to -
    then holds the new document as the style helpers left it. With any
    other answer the store and the disk are as they were. For an S3 target
    the disk is always left as it was - the temporary file is removed on
    every path - and only the object of the target can change; for a local
    target the store is never touched and only the target file can
    change. *)
Theorem created_document_is_stored (E : Env)
    (ensure_heading_style ensure_table_style : Docx -> Outcome Docx)
    (filename : string) (title author : option string) (st : State) :
  let F := ensure_docx_extension filename in
  let r := Tools.create_document E ensure_heading_style ensure_table_style
             filename title author st in
  let created := "Document " +:+ F +:+ " created successfully" in
  (r.1 = created ->
   exists d1 doc,
     ensure_heading_style Docx_.Document_new = Ok d1
     /\ ensure_table_style d1 = Ok doc
     /\ stored_at E r.2 F = Some (DocxFile doc))
  /\ (r.1 <> created -> store r.2 = store st /\ fs r.2 = fs st)
  /\ (is_s3_uri F = true ->
      fs r.2 = fs st
      /\ forall b k, parse_s3_uri E F <> Ok (b, k) ->
           store r.2 !! (b, k) = store st !! (b, k))
  /\ (is_s3_uri F = false ->
      store r.2 = store st /\ forall q, q <> F -> fs r.2 !! q = fs st !! q).
Proof.
  intros F r created.
  assert (Hrun : r = Tools.create_document E ensure_heading_style ensure_table_style
                       filename title author st) by done.
  clearbody r. revert Hrun. unfold Tools.create_document. fold F.
  unfold stored_at.
  destruct (is_s3_uri F) eqn:Hs3.
  - destruct (mkstemp_run ".docx" st)
      as [(p & st1 & -> & Htmp & Hfresh & Hfs1 & Hst1 & _)|[e ->]].
    2: { intros ->. simpl. split; [intros Hm; discriminate Hm|]. by repeat split. }
    assert (Hp1 : fs st1 !! p = Some EmptyFile) by (rewrite Hfs1; by simplify_map_eq).
    unfold try_finally, bind.
    destruct (build_and_save_run ensure_heading_style ensure_table_style p st1)
      as [(d1 & doc & H1 & H2 & ->)|[e ->]].
    2: { unfold get_state, modify. simpl.
         rewrite (proj2 (path_exists_true st1 p)) by eauto. simpl.
         assert (Hback : delete p (fs st1) = fs st)
           by (rewrite Hfs1; by apply delete_insert_id).
         intros ->. simpl. rewrite Hback.
         split; [intros Hm; discriminate Hm|]. repeat split; try done.
         intros b k _. by rewrite Hst1. }
    set (st2 := set_fs <[p := DocxFile doc]> st1).
    destruct (upload_to_s3_run E p F st2)
      as (sent & [ok msg] & st3 & -> & _ & Hfs3 & _ & Hfail & _ & Hok).
    assert (Hex : Os.path_exists st3 p = true).
    { apply path_exists_true. rewrite Hfs3. subst st2. simpl. rewrite lookup_insert_eq. eauto. }
    assert (Hback : delete p (fs st3) = fs st).
    { rewrite Hfs3. subst st2. simpl. rewrite Hfs1, insert_insert_eq.
      by apply delete_insert_id. }
    destruct ok; simpl; unfold get_state, modify, ret; simpl; rewrite Hex; simpl;
      intros ->; simpl; rewrite Hback.
    + destruct (Hok eq_refl) as (b & k & d & Hparse & Hd & Hstore).
      assert (d = DocxFile doc) as ->.
      { subst st2. simpl in Hd. rewrite lookup_insert_eq in Hd. by injection Hd. }
      split.
      { intros _. exists d1, doc. split; [done|]. split; [done|].
        rewrite Hparse, Hstore. by simplify_map_eq. }
      split; [intros Hne; by exfalso|].
      split; [|done]. split; [done|].
      intros b' k' Hne. rewrite Hstore, lookup_insert_ne; [subst st2; simpl; by rewrite Hst1|].
      intros [= -> ->]. done.
    + rewrite (Hfail eq_refl). subst st2. simpl. rewrite Hst1.
      split; [intros Hm; discriminate Hm|]. by repeat split.
  - destruct (check_file_writeable E F st) as [[] m]; simpl.
    2: { intros ->. simpl. split; [intros Hm; discriminate Hm|]. by repeat split. }
    destruct (build_and_save_run ensure_heading_style ensure_table_style F st)
      as [(d1 & doc & H1 & H2 & ->)|[e ->]]; intros ->; simpl.
    + split.
      { intros _. exists d1, doc. repeat split; try done. by simplify_map_eq. }
      split; [intros Hne; by exfalso|].
      split; [done|]. intros _. split; [done|].
      intros q Hq. by simplify_map_eq.
    + split; [intros Hm; discriminate Hm|]. by repeat split.
Qed.

Lemma created_document_is_stored_witness :
  exists d1 doc,
    Ok Docx_.Document_new = Ok d1
    /\ Ok d1 = Ok doc
    /\ stored_at env0
         (Tools.create_document env0 Ok Ok "s3://bkt/new" None None st_docs).2
         (ensure_docx_extension "s3://bkt/new")
       = Some (DocxFile doc).
Proof.
  apply (proj1 (created_document_is_stored env0 Ok Ok "s3://bkt/new" None None st_docs)).
  vm_compute. reflexivity.
Defined.

Section ReaderFacts.

Variable E : Env.

Local Arguments ensure_docx_extension : simpl never.

(** One run of a reading tool whose body leaves the state alone: on a
    local path the state is untouched; on an S3 URI the download is the
    only call, a failed download is answered with its own message, and the
    file of a successful one is removed again. *)
Lemma read_tool_run filename (body : S3FileContext -> M string) failure st :
  (forall ctx st0, (body ctx st0).2 = st0) ->
  let r := Tools.read_tool E filename body failure st in
  if is_s3_uri filename then
    exists ok msg lp st0,
      download_from_s3 E filename None st = (Ok (ok, msg, lp), st0)
      /\ store r.2 = store st
      /\ calls r.2 = calls st0
      /\ (ok = false -> r = ("Failed to download from S3: " +:+ msg, st0))
      /\ (ok = true -> fs r.2 = fs st)
  else
    r.2 = st
    /\ r.1 = match (body (Ctx.set_output_local_path (Some filename)
                           (Ctx.set_local_path (Some filename)
                              (Ctx.__init__ E filename true None))) st).1 with
             | Ok m => m
             | Raise e => if is_oserror e then str_exn e else failure +:+ str_exn e
             end.
Proof.
  intros Hbody r.
  assert (Hr : r = Tools.read_tool E filename body failure st) by done.
  clearbody r. revert Hr.
  unfold Tools.read_tool, Ctx.with_, Ctx.__enter__.
  remember (Ctx.__init__ E filename true None) as self eqn:Hself.
  assert (His : is_s3 self = is_s3_uri filename) by (by subst self).
  assert (Horig : original_path self = filename) by (by subst self).
  assert (Hout : output_s3_uri self = None) by (subst self; simpl; by rewrite andb_false_r).
  assert (Hro : read_only self = true) by (by subst self).
  assert (Htf0 : _temp_file self = None) by (by subst self).
  assert (Hotf : _output_temp_file self = None) by (by subst self).
  rewrite His, Horig. unfold bind at 1 2.
  destruct (is_s3_uri filename) eqn:Hs3.
  - unfold bind at 1.
    destruct (download_from_s3_run E filename st)
      as ([[ok msg] lp] & st0 & Hdown & _ & Hst0 & _ & Hok & _).
    rewrite Hdown.
    destruct ok; simpl.
    2: { intros ->. exists false, msg, lp, st0. by repeat split. }
    destruct (Hok eq_refl) as (p & b & k & o & Hlp & Htmp & Hfresh & _ & _ & Hfs0).
    simpl in Hlp. subst lp. unfold ret at 1.
    cbn [output_s3_uri Ctx.set_temp_file Ctx.set_local_path]. rewrite Hout.
    cbn [opt_truthy]. unfold ret at 1.
    match goal with |- context [body ?c st0] => set (ctx := c) end.
    pose proof (Hbody ctx st0) as Hsame.
    assert (Hexit : forall exc,
              exists st3, Ctx.__exit__ E ctx exc st0 = (Ok false, st3)
                /\ store st3 = store st0 /\ calls st3 = calls st0
                /\ fs st3 = fs st).
    { intros exc. unfold Ctx.__exit__, Ctx.cleanup. subst ctx.
      cbn [read_only _temp_file _output_temp_file Ctx.set_output_local_path
           Ctx.set_temp_file Ctx.set_local_path].
      rewrite Hro, Hotf.
      rewrite andb_false_r. unfold try_finally, bind, get_state, ret, Os.unlink_quietly,
        modify. simpl.
      rewrite (proj2 (truthy_true p)) by (by apply is_tmp_name_nonempty).
      rewrite (proj2 (path_exists_true st0 p)) by (rewrite Hfs0, lookup_insert_eq; eauto).
      simpl. eexists. split; [reflexivity|]. simpl. repeat split; try done.
      rewrite Hfs0. by apply delete_insert_id. }
    destruct (body ctx st0) as [[m|e] st2]; simpl in Hsame; subst st2.
    + destruct (Hexit None) as (st3 & Hex & Hs3' & Hc3 & Hfs3).
      unfold bind, ret. rewrite Hex. simpl. intros ->. simpl.
      eexists true, msg, (Some p), st0. repeat split; try done; congruence.
    + destruct (Hexit (Some e)) as (st3 & Hex & Hs3' & Hc3 & Hfs3).
      unfold bind, ret, raise. rewrite Hex. simpl.
      destruct (is_oserror e); simpl; intros ->; simpl;
        (eexists true, msg, (Some p), st0; repeat split; try done; congruence).
  - unfold ret at 1. cbn [output_s3_uri Ctx.set_local_path]. rewrite Hout.
    cbn [opt_truthy]. unfold ret at 1.
    change (local_path (Ctx.set_local_path (Some filename) self)) with (Some filename).
    match goal with |- context [body ?c st] => set (ctx := c) end.
    pose proof (Hbody ctx st) as Hsame.
    assert (Hexit : forall exc, Ctx.__exit__ E ctx exc st = (Ok false, st)).
    { intros exc. unfold Ctx.__exit__, Ctx.cleanup. subst ctx.
      cbn [read_only _temp_file _output_temp_file Ctx.set_output_local_path
           Ctx.set_local_path].
      rewrite Hro, Htf0, Hotf.
      rewrite andb_false_r. by destruct st. }
    destruct (body ctx st) as [[m|e] st2]; simpl in Hsame; subst st2.
    + unfold bind, ret. rewrite Hexit. by intros ->.
    + unfold bind, ret, raise. rewrite Hexit. simpl.
      destruct (is_oserror e); by intros ->.
Qed.


End ReaderFacts.

#[local] Arguments Tools.read_tool : simpl never.


(** X25. A failed download is answered with its own message: when the
    document is an S3 URI whose download fails, each of the four reading
    tools returns [Failed to download from S3: ] followed by the message
    of the download, without the failure text of the tool, whatever the
    helper that reads the document would give. *)
Theorem failed_download_is_answered_as_it_is (E : Env)
    (get_document_properties extract_document_text get_document_structure
       get_document_xml : string -> State -> Outcome string)
    (filename msg : string) (lp : option string) (st st0 : State) :
  is_s3_uri (ensure_docx_extension filename) = true ->
  download_from_s3 E (ensure_docx_extension filename) None st
  = (Ok (false, msg, lp), st0) ->
  Forall (fun tool : string -> State -> string * State =>
            tool filename st = ("Failed to download from S3: " +:+ msg, st0))
         [Tools.get_document_info E get_document_properties;
          Tools.get_document_text E extract_document_text;
          Tools.get_document_outline E get_document_structure;
          Tools.get_document_xml_tool E get_document_xml].
Proof.
  intros Hs3 Hdown.
  assert (Htool : forall body failure,
            (forall ctx st1, (body ctx st1).2 = st1) ->
            Tools.read_tool E (ensure_docx_extension filename) body failure st
            = ("Failed to download from S3: " +:+ msg, st0)).
  { intros body failure Hbody.
    pose proof (read_tool_run E (ensure_docx_extension filename) body failure st Hbody)
      as Hrun.
    rewrite Hs3 in Hrun.
    destruct Hrun as (ok & msg' & lp' & st0' & Hdown' & _ & _ & Hfail & _).
    rewrite Hdown in Hdown'. injection Hdown' as <- <- <- <-. by apply Hfail. }
  repeat (apply List.Forall_cons; [|]); [..|apply List.Forall_nil];
    unfold Tools.get_document_info, Tools.get_document_text,
      Tools.get_document_outline, Tools.get_document_xml_tool;
    apply Htool; intros ctx st1; unfold Tools.read, bind, get_state, ret;
    simpl; try done.
  by destruct (Os.path_exists st1 _).
Qed.

Lemma failed_download_is_answered_as_it_is_witness :
  Forall (fun tool : string -> State -> string * State =>
            tool "s3://bkt/absent" st_docs
            = ("Failed to download from S3: " +:+ "S3 object not found: s3://bkt/absent.docx",
               (download_from_s3 env0 "s3://bkt/absent.docx" None st_docs).2))
         [Tools.get_document_info env0 (fun _ _ => Ok "{}");
          Tools.get_document_text env0 (fun _ _ => Ok "text");
          Tools.get_document_outline env0 (fun _ _ => Ok "{}");
          Tools.get_document_xml_tool env0 (fun _ _ => Ok "<w:document/>")].
Proof.
  apply (failed_download_is_answered_as_it_is env0 (fun _ _ => Ok "{}")
           (fun _ _ => Ok "text") (fun _ _ => Ok "{}") (fun _ _ => Ok "<w:document/>")
           "s3://bkt/absent" "S3 object not found: s3://bkt/absent.docx" None st_docs).
  - reflexivity.
  - vm_compute. reflexivity.
Defined.

(** X26. [get_document_info] on a local document that does not exist
    answers [Document <name> does not exist] - the name under the
    extension rule - whatever the helper that reads the properties would
    give, and changes nothing. *)
Theorem missing_local_document_is_reported (E : Env)
    (get_document_properties : string -> State -> Outcome string)
    (filename : string) (st : State) :
  is_s3_uri (ensure_docx_extension filename) = false ->
  Os.path_exists st (ensure_docx_extension filename) = false ->
  Tools.get_document_info E get_document_properties filename st
  = ("Document " +:+ ensure_docx_extension filename +:+ " does not exist", st).
Proof.
  intros Hlocal Hmissing. unfold Tools.get_document_info.
  set (F := ensure_docx_extension filename) in *.
  match goal with |- Tools.read_tool E F ?b ?f st = _ =>
    pose proof (read_tool_run E F b f st) as Hrun
  end.
  rewrite Hlocal in Hrun. cbv zeta in Hrun.
  destruct Hrun as [Hst Hmsg].
  { intros ctx st0. unfold Tools.read, bind, get_state, ret. simpl.
    by destruct (Os.path_exists st0 _). }
  revert Hst Hmsg. unfold bind, get_state, ret. simpl. rewrite Hmissing. simpl.
  destruct (Tools.read_tool E F _ _ st) as [m st']. simpl. by intros -> ->.
Qed.

Lemma missing_local_document_is_reported_witness :
  Tools.get_document_info env0 (fun _ _ => Ok "{}") "nowhere" st_docs
  = ("Document " +:+ ensure_docx_extension "nowhere" +:+ " does not exist", st_docs).
Proof.
  apply (missing_local_document_is_reported env0 (fun _ _ => Ok "{}") "nowhere" st_docs);
    reflexivity.
Defined.
